(** * Route API client: request signing, transport and swap fan-out

    A shallow embedding of the TypeScript sources of the Mixin Route client
    (the [Web3Client] modules and [RouteAPISigner]) and of the two swap
    panels ([BulkSwap], [SplitSwap]), with the properties that the design
    document states about them.

    Conventions.
    - A byte is a [Z] in [0, 256); a [Uint8Array]/[Buffer] is a [list Z].
    - A JS string is a Rocq [string]; its characters are the bytes of its
      UTF-8 encoding, so [Buffer.from(s, "utf-8")] is the list of its
      character codes.
    - A JS number holding an integer (timestamps, status codes, retry
      counts, the shares that a panel distributes itself) is a [Z]; a JS
      number holding an amount, or a share as an input gives it, is an
      IEEE-754 binary64 value ([spec_float]).
    - Library functions of [@noble/hashes], [@noble/curves] and Node's
      [Buffer] are written out after the standards they implement
      (FIPS 180-4, RFC 2104, RFC 7748, RFC 4648). *)

From Stdlib Require Import ZArith QArith List String Ascii Bool Lia SpecFloat Btauto.
From Bignums Require Import BigZ.
From stdpp Require Import base gmap strings list.

Local Open Scope Z_scope.

Ltac Zify.zify_post_hook ::= Z.to_euclidean_division_equations.

(** ** Bytes, hexadecimal and UTF-8 *)

Module Bytes.

Definition is_byte (b : Z) : Prop := 0 <= b < 256.

Definition code (c : ascii) : Z := Z.of_N (N_of_ascii c).

Definition chr (z : Z) : ascii := ascii_of_N (Z.to_N z).

(** [Buffer.from(s, "utf-8")] *)
Definition utf8 (s : string) : list Z := map code (list_ascii_of_string s).

Definition hexval (c : ascii) : option Z :=
  let n := code c in
  if (48 <=? n) && (n <=? 57) then Some (n - 48)
  else if (97 <=? n) && (n <=? 102) then Some (n - 87)
  else if (65 <=? n) && (n <=? 70) then Some (n - 55)
  else None.

Fixpoint from_hex_chars (cs : list ascii) : list Z :=
  match cs with
  | h :: l :: rest =>
      match hexval h, hexval l with
      | Some a, Some b => (16 * a + b) :: from_hex_chars rest
      | _, _ => []
      end
  | _ => []
  end.

(** [Buffer.from(s, "hex")]: pairs of hexadecimal digits, decoding stops at
    the first pair that is not one. *)
Definition from_hex (s : string) : list Z := from_hex_chars (list_ascii_of_string s).

(** Big-endian and little-endian integers. *)
Definition be_int (bs : list Z) : Z := fold_left (fun acc b => acc * 256 + b) bs 0.

Fixpoint le_int (bs : list Z) : Z :=
  match bs with
  | [] => 0
  | b :: rest => b + 256 * le_int rest
  end.

Fixpoint le_bytes (n : nat) (x : Z) : list Z :=
  match n with
  | O => []
  | S n' => (x mod 256) :: le_bytes n' (x / 256)
  end.

Definition be_bytes (n : nat) (x : Z) : list Z := rev (le_bytes n x).

End Bytes.

(** ** Base64 as [Buffer] reads and writes it, and the URL-safe variant *)

Module Base64.
Import Bytes.

Definition alphabet : list ascii :=
  list_ascii_of_string
    "ABCDEFGHIJKLMNOPQRSTUVWXYZabcdefghijklmnopqrstuvwxyz0123456789+/".

Definition char_of_sextet (s : Z) : ascii := nth (Z.to_nat s) alphabet "A"%char.

Definition sextet_of_char (c : ascii) : option Z :=
  let n := code c in
  if (65 <=? n) && (n <=? 90) then Some (n - 65)
  else if (97 <=? n) && (n <=? 122) then Some (n - 71)
  else if (48 <=? n) && (n <=? 57) then Some (n + 4)
  else if n =? 43 then Some 62
  else if n =? 47 then Some 63
  else None.

(** Three bytes give four sextets; one trailing byte gives two and two
    trailing bytes give three. *)
Fixpoint sextets_of_bytes (bs : list Z) : list Z :=
  match bs with
  | [] => []
  | [b0] => [b0 / 4; (b0 mod 4) * 16]
  | [b0; b1] => [b0 / 4; (b0 mod 4) * 16 + b1 / 16; (b1 mod 16) * 4]
  | b0 :: b1 :: b2 :: rest =>
      b0 / 4 :: (b0 mod 4) * 16 + b1 / 16 :: (b1 mod 16) * 4 + b2 / 64 :: b2 mod 64
      :: sextets_of_bytes rest
  end.

Fixpoint bytes_of_sextets (ss : list Z) : list Z :=
  match ss with
  | s0 :: s1 :: s2 :: s3 :: rest =>
      s0 * 4 + s1 / 16 :: (s1 mod 16) * 16 + s2 / 4 :: (s2 mod 4) * 64 + s3
      :: bytes_of_sextets rest
  | [s0; s1; s2] => [s0 * 4 + s1 / 16; (s1 mod 16) * 16 + s2 / 4]
  | [s0; s1] => [s0 * 4 + s1 / 16]
  | _ => []
  end.

Definition padding (n : nat) : list ascii :=
  repeat "="%char ((3 - n mod 3) mod 3)%nat.

(** [buf.toString("base64")] *)
Definition toBase64 (bs : list Z) : list ascii :=
  map char_of_sextet (sextets_of_bytes bs) ++ padding (length bs).

Definition is_pad (c : ascii) : bool := Ascii.eqb c "="%char.

Fixpoint until_pad (cs : list ascii) : list ascii :=
  match cs with
  | [] => []
  | c :: rest => if is_pad c then [] else c :: until_pad rest
  end.

Fixpoint known_sextets (cs : list ascii) : list Z :=
  match cs with
  | [] => []
  | c :: rest =>
      match sextet_of_char c with
      | Some s => s :: known_sextets rest
      | None => known_sextets rest
      end
  end.

(** [Buffer.from(s, "base64")]: decoding ends at the first [=]; characters
    outside the alphabet are passed over. *)
Definition fromBase64 (cs : list ascii) : list Z :=
  bytes_of_sextets (known_sextets (until_pad cs)).

(** [s.replace(/\+/g, "-").replace(/\//g, "_")] on one character *)
Definition to_url (c : ascii) : ascii :=
  if Ascii.eqb c "+"%char then "-"%char
  else if Ascii.eqb c "/"%char then "_"%char
  else c.

(** [s.replace(/-/g, "+").replace(/_/g, "/")] on one character *)
Definition of_url (c : ascii) : ascii :=
  if Ascii.eqb c "-"%char then "+"%char
  else if Ascii.eqb c "_"%char then "/"%char
  else c.

(** [base64URLEncode]: standard Base64, then [+] to [-], [/] to [_], and
    every [=] removed. *)
Definition base64URLEncode (data : list Z) : string :=
  string_of_list_ascii
    (List.filter (fun c => negb (is_pad c)) (map to_url (toBase64 data))).

(** [base64URLDecode]: pad to a multiple of four with [=], undo the
    character replacement, decode. *)
Definition base64URLDecode (str : string) : list Z :=
  let cs := list_ascii_of_string str in
  let pad := (length cs mod 4)%nat in
  let padded := if (pad =? 0)%nat then cs else cs ++ repeat "="%char (4 - pad)%nat in
  fromBase64 (map of_url padded).

End Base64.

(** ** SHA-256, SHA-512 (FIPS 180-4) and HMAC (RFC 2104)

    [sha256], [sha512] and [hmac] of [@noble/hashes].  Words are [Z]
    reduced modulo [2^w] after every addition. *)

Module SHA2.
Import Bytes.

Record state := State { sa : Z; sb : Z; sc : Z; sd : Z; se : Z; sf : Z; sg : Z; sh : Z }.

Definition state_of_list (l : list Z) : state :=
  State (nth 0 l 0) (nth 1 l 0) (nth 2 l 0) (nth 3 l 0)
        (nth 4 l 0) (nth 5 l 0) (nth 6 l 0) (nth 7 l 0).

Definition list_of_state (s : state) : list Z :=
  [sa s; sb s; sc s; sd s; se s; sf s; sg s; sh s].

Fixpoint chunks (fuel size : nat) (l : list Z) : list (list Z) :=
  match fuel with
  | O => []
  | S fuel' =>
      match l with
      | [] => []
      | _ => firstn size l :: chunks fuel' size (skipn size l)
      end
  end.

Section Generic.
(** word width in bits and in bytes, round constants, initial state *)
Variable w : Z.
Variable wbytes : nat.
Variable K : list Z.
Variable H0 : list Z.
(** rotation and shift amounts of the four mixing functions *)
Variable bs0 bs1 : Z * Z * Z.
Variable ss0 ss1 : Z * Z * Z.

Definition wrap (x : Z) : Z := Z.land x (Z.ones w).
Definition rotr (n x : Z) : Z := wrap (Z.lor (Z.shiftr x n) (Z.shiftl x (w - n))).
Definition Ch (x y z : Z) : Z := Z.lxor (Z.land x y) (Z.land (Z.lnot x) z).
Definition Maj (x y z : Z) : Z := Z.lxor (Z.lxor (Z.land x y) (Z.land x z)) (Z.land y z).

Definition big_sigma (r : Z * Z * Z) (x : Z) : Z :=
  let '(r1, r2, r3) := r in Z.lxor (Z.lxor (rotr r1 x) (rotr r2 x)) (rotr r3 x).
Definition small_sigma (r : Z * Z * Z) (x : Z) : Z :=
  let '(r1, r2, s3) := r in Z.lxor (Z.lxor (rotr r1 x) (rotr r2 x)) (Z.shiftr x s3).

(** The message schedule, most recent word first. *)
Fixpoint extend (n : nat) (ws : list Z) : list Z :=
  match n with
  | O => ws
  | S n' =>
      let next := wrap (small_sigma ss1 (nth 1 ws 0) + nth 6 ws 0
                        + small_sigma ss0 (nth 14 ws 0) + nth 15 ws 0) in
      extend n' (next :: ws)
  end.

Definition schedule (block : list Z) : list Z :=
  let ws := map be_int (chunks 16 wbytes block) in
  rev (extend (length K - 16) (rev ws)).

Definition round (s : state) (kw : Z * Z) : state :=
  let '(k, wt) := kw in
  let t1 := sh s + big_sigma bs1 (se s) + Ch (se s) (sf s) (sg s) + k + wt in
  let t2 := big_sigma bs0 (sa s) + Maj (sa s) (sb s) (sc s) in
  State (wrap (t1 + t2)) (sa s) (sb s) (sc s) (wrap (sd s + t1)) (se s) (sf s) (sg s).

Definition compress (s : state) (block : list Z) : state :=
  let r := fold_left round (combine K (schedule block)) s in
  State (wrap (sa s + sa r)) (wrap (sb s + sb r)) (wrap (sc s + sc r))
        (wrap (sd s + sd r)) (wrap (se s + se r)) (wrap (sf s + sf r))
        (wrap (sg s + sg r)) (wrap (sh s + sh r)).

Definition block_bytes : nat := (16 * wbytes)%nat.

Definition pad (msg : list Z) : list Z :=
  let len := length msg in
  let lenb := (2 * wbytes)%nat in
  let k := ((block_bytes - (len + 1 + lenb) mod block_bytes) mod block_bytes)%nat in
  msg ++ [128] ++ repeat 0 k ++ be_bytes lenb (8 * Z.of_nat len).

Definition digest (msg : list Z) : list Z :=
  let padded := pad msg in
  let final := fold_left compress (chunks (length padded) block_bytes padded)
                         (state_of_list H0) in
  concat (map (be_bytes wbytes) (list_of_state final)).

(** RFC 2104 over [digest]. *)
Definition hmac_key (key : list Z) : list Z :=
  let k := if (block_bytes <? length key)%nat then digest key else key in
  k ++ repeat 0 (block_bytes - length k)%nat.

Definition hmac (key msg : list Z) : list Z :=
  let k := hmac_key key in
  digest (map (Z.lxor 92) k ++ digest (map (Z.lxor 54) k ++ msg)).
End Generic.

Definition K512 : list Z :=
  [ 0x428a2f98d728ae22; 0x7137449123ef65cd; 0xb5c0fbcfec4d3b2f;
    0xe9b5dba58189dbbc; 0x3956c25bf348b538; 0x59f111f1b605d019;
    0x923f82a4af194f9b; 0xab1c5ed5da6d8118; 0xd807aa98a3030242;
    0x12835b0145706fbe; 0x243185be4ee4b28c; 0x550c7dc3d5ffb4e2;
    0x72be5d74f27b896f; 0x80deb1fe3b1696b1; 0x9bdc06a725c71235;
    0xc19bf174cf692694; 0xe49b69c19ef14ad2; 0xefbe4786384f25e3;
    0x0fc19dc68b8cd5b5; 0x240ca1cc77ac9c65; 0x2de92c6f592b0275;
    0x4a7484aa6ea6e483; 0x5cb0a9dcbd41fbd4; 0x76f988da831153b5;
    0x983e5152ee66dfab; 0xa831c66d2db43210; 0xb00327c898fb213f;
    0xbf597fc7beef0ee4; 0xc6e00bf33da88fc2; 0xd5a79147930aa725;
    0x06ca6351e003826f; 0x142929670a0e6e70; 0x27b70a8546d22ffc;
    0x2e1b21385c26c926; 0x4d2c6dfc5ac42aed; 0x53380d139d95b3df;
    0x650a73548baf63de; 0x766a0abb3c77b2a8; 0x81c2c92e47edaee6;
    0x92722c851482353b; 0xa2bfe8a14cf10364; 0xa81a664bbc423001;
    0xc24b8b70d0f89791; 0xc76c51a30654be30; 0xd192e819d6ef5218;
    0xd69906245565a910; 0xf40e35855771202a; 0x106aa07032bbd1b8;
    0x19a4c116b8d2d0c8; 0x1e376c085141ab53; 0x2748774cdf8eeb99;
    0x34b0bcb5e19b48a8; 0x391c0cb3c5c95a63; 0x4ed8aa4ae3418acb;
    0x5b9cca4f7763e373; 0x682e6ff3d6b2b8a3; 0x748f82ee5defb2fc;
    0x78a5636f43172f60; 0x84c87814a1f0ab72; 0x8cc702081a6439ec;
    0x90befffa23631e28; 0xa4506cebde82bde9; 0xbef9a3f7b2c67915;
    0xc67178f2e372532b; 0xca273eceea26619c; 0xd186b8c721c0c207;
    0xeada7dd6cde0eb1e; 0xf57d4f7fee6ed178; 0x06f067aa72176fba;
    0x0a637dc5a2c898a6; 0x113f9804bef90dae; 0x1b710b35131c471b;
    0x28db77f523047d84; 0x32caab7b40c72493; 0x3c9ebe0a15c9bebc;
    0x431d67c49c100d4c; 0x4cc5d4becb3e42b6; 0x597f299cfc657e2a;
    0x5fcb6fab3ad6faec; 0x6c44198c4a475817 ].

(** The round constants of SHA-256 are the upper halves of the first 64
    round constants of SHA-512: both are the leading fraction bits of the
    cube roots of the first primes. *)
Definition K256 : list Z :=
  Eval vm_compute in map (fun k => Z.shiftr k 32) (firstn 64 K512).

Definition H256 : list Z :=
  [ 0x6a09e667; 0xbb67ae85; 0x3c6ef372; 0xa54ff53a;
    0x510e527f; 0x9b05688c; 0x1f83d9ab; 0x5be0cd19 ].

Definition H512 : list Z :=
  [ 0x6a09e667f3bcc908; 0xbb67ae8584caa73b; 0x3c6ef372fe94f82b;
    0xa54ff53a5f1d36f1; 0x510e527fade682d1; 0x9b05688c2b3e6c1f;
    0x1f83d9abfb41bd6b; 0x5be0cd19137e2179 ].

Definition sha256 : list Z -> list Z :=
  digest 32 4 K256 H256 (2, 13, 22) (6, 11, 25) (7, 18, 3) (17, 19, 10).

Definition sha512 : list Z -> list Z :=
  digest 64 8 K512 H512 (28, 34, 39) (14, 18, 41) (1, 8, 7) (19, 61, 6).

(** [hmac(sha256, key, message)] *)
Definition hmac_sha256 : list Z -> list Z -> list Z :=
  hmac 32 4 K256 H256 (2, 13, 22) (6, 11, 25) (7, 18, 3) (17, 19, 10).

End SHA2.

(** ** JavaScript values: strings, numbers, parsed JSON *)

Module JS.
Import Bytes.

Definition digit (d : Z) : ascii := chr (48 + d).

Fixpoint digits_of (fuel : nat) (n : Z) (acc : list ascii) : list ascii :=
  match fuel with
  | O => acc
  | S fuel' =>
      let acc' := digit (n mod 10) :: acc in
      if n / 10 =? 0 then acc' else digits_of fuel' (n / 10) acc'
  end.

Definition digits (n : Z) : list ascii := digits_of (S (Z.to_nat (Z.log2 n))) n [].

(** [String(n)] for an integer [n] below [1e21] in absolute value. *)
Definition decimal (n : Z) : string :=
  if n <? 0 then String "-"%char (string_of_list_ascii (digits (- n)))
  else string_of_list_ascii (digits n).

Definition upper (c : ascii) : ascii :=
  let n := code c in
  if (97 <=? n) && (n <=? 122) then chr (n - 32) else c.

(** [s.toUpperCase()] on ASCII text. *)
Definition toUpperCase (s : string) : string :=
  string_of_list_ascii (map upper (list_ascii_of_string s)).

(** What [JSON.parse] returns.  The fields of an object are listed once each. *)
#[warnings="-register-all"]
Inductive JSON :=
| JNull
| JBool (b : bool)
| JNumber (n : Z)
| JString (s : string)
| JArray (items : list JSON)
| JObject (fields : list (string * JSON)).

Fixpoint assoc {A} (k : string) (l : list (string * A)) : option A :=
  match l with
  | [] => None
  | (k', v) :: rest => if String.eqb k k' then Some v else assoc k rest
  end.

(** [v.k]; [None] is [undefined].  Strings, numbers, booleans and arrays
    have no property of the names the client reads. *)
Definition get (k : string) (v : JSON) : option JSON :=
  match v with
  | JObject fields => assoc k fields
  | _ => None
  end.

(** [v?.k], also on [undefined] and [null]. *)
Definition oget (k : string) (v : option JSON) : option JSON :=
  match v with
  | Some v' => get k v'
  | None => None
  end.

Definition truthy (v : option JSON) : bool :=
  match v with
  | None | Some JNull => false
  | Some (JBool b) => b
  | Some (JNumber n) => negb (n =? 0)
  | Some (JString s) => negb (String.eqb s "")
  | Some (JArray _) | Some (JObject _) => true
  end.

Fixpoint join (sep : string) (l : list string) : string :=
  match l with
  | [] => ""
  | [s] => s
  | s :: rest => s ++ sep ++ join sep rest
  end.

(** [String(v)] *)
Fixpoint toString (v : JSON) : string :=
  match v with
  | JNull => "null"
  | JBool true => "true"
  | JBool false => "false"
  | JNumber n => decimal n
  | JString s => s
  | JArray items =>
      join "," (map (fun i => match i with JNull => "" | _ => toString i end) items)
  | JObject _ => "[object Object]"
  end.

(** The message of [new Error(v)]. *)
Definition error_message (v : option JSON) : string :=
  match v with
  | None => ""
  | Some v' => toString v'
  end.

(** *** Numbers that hold amounts: IEEE-754 binary64 *)

Definition prec : Z := 53.
Definition emax : Z := 1024.

Definition of_int (z : Z) : spec_float := binary_normalize prec emax z 0 false.
Definition mul : spec_float -> spec_float -> spec_float := SFmul prec emax.
Definition div : spec_float -> spec_float -> spec_float := SFdiv prec emax.
Definition add : spec_float -> spec_float -> spec_float := SFadd prec emax.

(** [a === b] on numbers: [NaN] equals nothing, the two zeros are equal. *)
Definition strict_equal : spec_float -> spec_float -> bool := SFeqb.

(** [Math.min(a, b)] and [Math.max(a, b)]: [NaN] when an argument is, and
    the negative zero is the smaller one. *)
Definition Math_min (a b : spec_float) : spec_float :=
  match SFcompare a b with
  | None => S754_nan
  | Some Lt => a
  | Some Gt => b
  | Some Eq => match a with S754_zero true => a | _ => b end
  end.

Definition Math_max (a b : spec_float) : spec_float :=
  match SFcompare a b with
  | None => S754_nan
  | Some Lt => b
  | Some Gt => a
  | Some Eq => match a with S754_zero false => a | _ => b end
  end.

(** The binary64 value nearest to [m * 10^e], for [m >= 0]. *)
Definition of_decimal (neg : bool) (m e : Z) : spec_float :=
  match m with
  | Zpos pm =>
      if 0 <=? e then binary_normalize prec emax (if neg then - (m * 10 ^ e) else m * 10 ^ e) 0 neg
      else div (S754_finite neg pm 0) (S754_finite false (Z.to_pos (10 ^ (- e))) 0)
  | _ => S754_zero neg
  end.

Definition is_digit (c : ascii) : bool := (48 <=? code c) && (code c <=? 57).

Definition is_space (c : ascii) : bool :=
  let n := code c in (n =? 32) || ((9 <=? n) && (n <=? 13)).

Fixpoint skip_spaces (cs : list ascii) : list ascii :=
  match cs with
  | c :: rest => if is_space c then skip_spaces rest else cs
  | [] => []
  end.

(** Leading digits read into [acc]; the count read and the rest. *)
Fixpoint read_digits (cs : list ascii) (acc : Z) (count : Z) : Z * Z * list ascii :=
  match cs with
  | c :: rest =>
      if is_digit c then read_digits rest (acc * 10 + (code c - 48)) (count + 1)
      else (acc, count, cs)
  | [] => (acc, count, [])
  end.

Definition read_sign (cs : list ascii) : bool * list ascii :=
  match cs with
  | "-"%char :: rest => (true, rest)
  | "+"%char :: rest => (false, rest)
  | _ => (false, cs)
  end.

Definition read_exponent (cs : list ascii) : Z :=
  match cs with
  | c :: rest =>
      if (code c =? 101) || (code c =? 69) then
        let '(neg, rest') := read_sign rest in
        let '(e, count, _) := read_digits rest' 0 0 in
        if count =? 0 then 0 else if neg then - e else e
      else 0
  | [] => 0
  end.

(** [parseFloat(s)]: the longest prefix that is a decimal literal, [NaN]
    when there is none. *)
Definition parseFloat (s : string) : spec_float :=
  let '(neg, cs) := read_sign (skip_spaces (list_ascii_of_string s)) in
  if String.prefix "Infinity" (string_of_list_ascii cs) then S754_infinity neg
  else
    let '(ip, icount, rest) := read_digits cs 0 0 in
    let '(m, fcount, rest') :=
      match rest with
      | "."%char :: frac =>
          let '(m, fcount, rest') := read_digits frac ip 0 in (m, fcount, rest')
      | _ => (ip, 0, rest)
      end in
    if icount + fcount =? 0 then S754_nan
    else of_decimal neg m (read_exponent rest' - fcount).


(** [Number(value)] for the value of an [<input type="number">], which is
    empty or a floating-point literal: the empty text is 0, and on the
    literals [Number] and [parseFloat] agree. *)
Definition Number_of_value (value : string) : spec_float :=
  if String.eqb value "" then of_int 0 else parseFloat value.


(** *** [Number.prototype.toString]: the shortest decimal that reads back *)

(** [x < 10^j] for [x = num/den]. *)
Definition below_pow10 (num den j : Z) : bool :=
  if 0 <=? j then num <? den * 10 ^ j else num * 10 ^ (- j) <? den.

Fixpoint find_n (fuel : nat) (num den j : Z) : Z :=
  match fuel with
  | O => j
  | S fuel' => if below_pow10 num den j then j else find_n fuel' num den (j + 1)
  end.

(** The least [n] with [num/den < 10^n]. *)
Definition magnitude (m : positive) (e : Z) (num den : Z) : Z :=
  find_n 4 num den (((Z.pos (digits2_pos m) + e - 1) * 30103) / 100000).

Fixpoint strip_zeros (fuel : nat) (s : Z) : Z :=
  match fuel with
  | O => s
  | S fuel' => if (s mod 10 =? 0) && negb (s =? 0) then strip_zeros fuel' (s / 10) else s
  end.

Fixpoint shortest (fuel : nat) (x : spec_float) (num den n k : Z) : Z * Z :=
  match fuel with
  | O => (0, n)
  | S fuel' =>
      (* y = x * 10^(k-n) = ynum/yden *)
      let ynum := if 0 <=? k - n then num * 10 ^ (k - n) else num in
      let yden := if 0 <=? k - n then den else den * 10 ^ (n - k) in
      let lo := ynum / yden in
      let hi := lo + 1 in
      let ok_lo := SFeqb x (of_decimal false lo (n - k)) in
      let ok_hi := SFeqb x (of_decimal false hi (n - k)) in
      let lo_closer := (* y - lo <= hi - y, ties to the even one *)
        let d := 2 * ynum - (lo + hi) * yden in
        (d <? 0) || ((d =? 0) && Z.even lo) in
      if ok_lo && (negb ok_hi || lo_closer) then (lo, n)
      else if ok_hi then
        if hi =? 10 ^ k then (1, n + 1) else (hi, n)
      else shortest fuel' x num den n (k + 1)
  end.

Definition zeros (n : Z) : string := string_of_list_ascii (repeat "0"%char (Z.to_nat n)).

Definition exponent_part (n : Z) : string :=
  "e" ++ (if 0 <=? n - 1 then "+" else "-") ++ decimal (Z.abs (n - 1)).

Definition format (s n : Z) : string :=
  let ds := digits s in
  let k := Z.of_nat (length ds) in
  if (k <=? n) && (n <=? 21) then string_of_list_ascii ds ++ zeros (n - k)
  else if (0 <? n) && (n <=? 21) then
    string_of_list_ascii (firstn (Z.to_nat n) ds) ++ "." ++ string_of_list_ascii (skipn (Z.to_nat n) ds)
  else if (-6 <? n) && (n <=? 0) then "0." ++ zeros (- n) ++ string_of_list_ascii ds
  else if k =? 1 then string_of_list_ascii ds ++ exponent_part n
  else string_of_list_ascii (firstn 1 ds) ++ "." ++ string_of_list_ascii (skipn 1 ds) ++ exponent_part n.

(** [x.toString()] *)
Definition Number_toString (x : spec_float) : string :=
  match x with
  | S754_nan => "NaN"
  | S754_zero _ => "0"
  | S754_infinity false => "Infinity"
  | S754_infinity true => "-Infinity"
  | S754_finite neg m e =>
      let num := if 0 <=? e then Z.pos m * 2 ^ e else Z.pos m in
      let den := if 0 <=? e then 1 else 2 ^ (- e) in
      let n := magnitude m e num den in
      let '(s, n') := shortest 17 (S754_finite false m e) num den n 1 in
      (if neg then "-" else "") ++ format (strip_zeros 17 s) n'
  end.

End JS.

(** ** Failures

    What the client can throw.  [MixinRouteAPIError] carries the fields the
    transport sets on it; a field the code leaves unset, or sets to
    [undefined], is [None]. *)

Record MixinRouteAPIError := {
  err_message : string;
  statusCode : Z;
  err_code : option JS.JSON;
  description : option JS.JSON;
  rawBody : string;
  range : option JS.JSON
}.

Inductive error :=
| LibraryError (message : string)   (* thrown inside a library call *)
| PlainError (message : string)     (* [new Error(message)] *)
| NetworkError (message : string)   (* [fetch] rejected, or the timeout aborted it *)
| SyntaxError                       (* [response.json()] on a body that is not JSON *)
| ApiError (e : MixinRouteAPIError).

Inductive result (A : Type) :=
| Ok (value : A)
| Throw (e : error).
Arguments Ok {A} value.
Arguments Throw {A} e.

(** ** Curve25519 (RFC 7748) as [@noble/curves] exposes it *)

Module Curve25519.
Import Bytes.

Definition p : Z := Eval vm_compute in 2 ^ 255 - 19.
Definition a24 : Z := 121665.

Definition fadd (a b : Z) : Z := (a + b) mod p.
Definition fsub (a b : Z) : Z := (a - b) mod p.
Definition fmul (a b : Z) : Z := (a * b) mod p.

Fixpoint pow_mod (x : Z) (e : positive) : Z :=
  match e with
  | xH => x mod p
  | xO e' => let y := pow_mod x e' in fmul y y
  | xI e' => let y := pow_mod x e' in fmul (fmul y y) x
  end.

Definition p_minus_2 : positive := Eval vm_compute in Z.to_pos (p - 2).

Definition half_p_minus_1 : positive := Eval vm_compute in Z.to_pos ((p - 1) / 2).

(** [Fp.inv] by Fermat; zero has no inverse and maps to zero. *)
Definition inv (x : Z) : Z := pow_mod x p_minus_2.

(** [adjustScalarBytes]: the Curve25519 clamp. *)
Definition adjustScalarBytes (k : list Z) : list Z :=
  alter (fun b => Z.lor (Z.land b 127) 64) 31%nat
        (alter (fun b => Z.land b 248) 0%nat k).

Definition decodeScalar (k : list Z) : Z := le_int (adjustScalarBytes k).

Definition decodeUCoordinate (u : list Z) : Z :=
  le_int (alter (fun b => Z.land b 127) 31%nat u) mod p.

Record ladder_state := Ladder { x2 : Z; z2 : Z; x3 : Z; z3 : Z; swap : bool }.

Definition cswap {A} (s : bool) (a b : A) : A * A := if s then (b, a) else (a, b).

(** One step of the ladder of RFC 7748, section 5. *)
Definition ladder_step (x1 : Z) (kt : bool) (st : ladder_state) : ladder_state :=
  let s := xorb (swap st) kt in
  let '(x_2, x_3) := cswap s (x2 st) (x3 st) in
  let '(z_2, z_3) := cswap s (z2 st) (z3 st) in
  let A := fadd x_2 z_2 in
  let AA := fmul A A in
  let B := fsub x_2 z_2 in
  let BB := fmul B B in
  let E := fsub AA BB in
  let C := fadd x_3 z_3 in
  let D := fsub x_3 z_3 in
  let DA := fmul D A in
  let CB := fmul C B in
  Ladder (fmul AA BB)
         (fmul E (fadd AA (fmul a24 E)))
         (fmul (fadd DA CB) (fadd DA CB))
         (fmul x1 (fmul (fsub DA CB) (fsub DA CB)))
         kt.

Fixpoint ladder (bits : nat) (k x1 : Z) (st : ladder_state) : ladder_state :=
  match bits with
  | O => st
  | S t => ladder t k x1 (ladder_step x1 (Z.testbit k (Z.of_nat t)) st)
  end.

Definition montgomeryLadder (u k : Z) : Z :=
  let st := ladder 255 k u (Ladder 1 0 u 1 false) in
  let '(x_2, _) := cswap (swap st) (x2 st) (x3 st) in
  let '(z_2, _) := cswap (swap st) (z2 st) (z3 st) in
  fmul x_2 (inv z_2).

(** [x25519.getSharedSecret(privateKey, publicKey)]: both arguments must be
    32 bytes long, and an all-zero outcome is refused. *)
Definition getSharedSecret (priv pub : list Z) : result (list Z) :=
  if negb (length pub =? 32)%nat then Throw (LibraryError "invalid public key length")
  else if negb (length priv =? 32)%nat then Throw (LibraryError "invalid private key length")
  else
    let pu := montgomeryLadder (decodeUCoordinate pub) (decodeScalar priv) in
    if pu =? 0 then Throw (LibraryError "invalid private or public key received")
    else Ok (le_bytes 32 pu).

(** The twisted Edwards constant [d = -121665/121666]. *)
Definition ed_d : Z := Eval vm_compute in fmul (- 121665) (inv 121666).

(** Euler's criterion. *)
Definition is_square (x : Z) : bool :=
  (x mod p =? 0) || (pow_mod x half_p_minus_1 =? 1).

(** [edwardsToMontgomery(publicKey)]: the Montgomery u-coordinate
    [(1 + y) / (1 - y)] of an Ed25519 point given by its 32-byte encoding;
    [None] when the library refuses the encoding. *)
Definition edwardsToMontgomery (pub : list Z) : option (list Z) :=
  if negb (length pub =? 32)%nat then None
  else
    let y := le_int (alter (fun b => Z.land b 127) 31%nat pub) in
    let sign := Z.testbit (nth 31 pub 0) 7 in
    let y2 := fmul y y in
    let xx := fmul (fsub y2 1) (inv (fadd (fmul ed_d y2) 1)) in
    if negb (y <? p) then None
    else if negb (is_square xx) then None
    else if (xx =? 0) && sign then None
    else if fsub 1 y =? 0 then None
    else Some (le_bytes 32 (fmul (fadd 1 y) (inv (fsub 1 y)))).

End Curve25519.

(** The same field arithmetic over machine-word integers, used to run the
    ladder on concrete keys; [Curve25519Facts] relates it to the one above. *)

Module Fast25519.

Definition pB : bigZ := Eval vm_compute in BigZ.of_Z Curve25519.p.
Definition a24B : bigZ := Eval vm_compute in BigZ.of_Z Curve25519.a24.

Definition fadd (a b : bigZ) : bigZ := BigZ.modulo (BigZ.add a b) pB.
Definition fsub (a b : bigZ) : bigZ := BigZ.modulo (BigZ.sub a b) pB.
Definition fmul (a b : bigZ) : bigZ := BigZ.modulo (BigZ.mul a b) pB.

Fixpoint pow_mod (x : bigZ) (e : positive) : bigZ :=
  match e with
  | xH => BigZ.modulo x pB
  | xO e' => let y := pow_mod x e' in fmul y y
  | xI e' => let y := pow_mod x e' in fmul (fmul y y) x
  end.

Record ladder_state := Ladder { x2 : bigZ; z2 : bigZ; x3 : bigZ; z3 : bigZ; swap : bool }.

Definition ladder_step (x1 : bigZ) (kt : bool) (st : ladder_state) : ladder_state :=
  let s := xorb (swap st) kt in
  let '(x_2, x_3) := Curve25519.cswap s (x2 st) (x3 st) in
  let '(z_2, z_3) := Curve25519.cswap s (z2 st) (z3 st) in
  let A := fadd x_2 z_2 in
  let AA := fmul A A in
  let B := fsub x_2 z_2 in
  let BB := fmul B B in
  let E := fsub AA BB in
  let C := fadd x_3 z_3 in
  let D := fsub x_3 z_3 in
  let DA := fmul D A in
  let CB := fmul C B in
  Ladder (fmul AA BB)
         (fmul E (fadd AA (fmul a24B E)))
         (fmul (fadd DA CB) (fadd DA CB))
         (fmul x1 (fmul (fsub DA CB) (fsub DA CB)))
         kt.

Fixpoint ladder (bits : nat) (k : Z) (x1 : bigZ) (st : ladder_state) : ladder_state :=
  match bits with
  | O => st
  | S t => ladder t k x1 (ladder_step x1 (Z.testbit k (Z.of_nat t)) st)
  end.

Definition montgomeryLadder (u k : Z) : Z :=
  let uB := BigZ.of_Z u in
  let st := ladder 255 k uB (Ladder 1%bigZ 0%bigZ uB 1%bigZ false) in
  let '(x_2, _) := Curve25519.cswap (swap st) (x2 st) (x3 st) in
  let '(z_2, _) := Curve25519.cswap (swap st) (z2 st) (z3 st) in
  BigZ.to_Z (fmul x_2 (pow_mod z_2 Curve25519.p_minus_2)).

Definition pow (x : Z) (e : positive) : Z := BigZ.to_Z (pow_mod (BigZ.of_Z x) e).

Definition getSharedSecret (priv pub : list Z) : result (list Z) :=
  if negb (length pub =? 32)%nat then Throw (LibraryError "invalid public key length")
  else if negb (length priv =? 32)%nat then Throw (LibraryError "invalid private key length")
  else
    let pu := montgomeryLadder (Curve25519.decodeUCoordinate pub) (Curve25519.decodeScalar priv) in
    if pu =? 0 then Throw (LibraryError "invalid private or public key received")
    else Ok (Bytes.le_bytes 32 pu).

Definition edwardsToMontgomery (pub : list Z) : option (list Z) :=
  if negb (length pub =? 32)%nat then None
  else
    let y := Bytes.le_int (alter (fun b => Z.land b 127) 31%nat pub) in
    let sign := Z.testbit (nth 31 pub 0) 7 in
    let y2 := Curve25519.fmul y y in
    let xx := Curve25519.fmul (Curve25519.fsub y2 1)
                (pow (Curve25519.fadd (Curve25519.fmul Curve25519.ed_d y2) 1) Curve25519.p_minus_2) in
    if negb (y <? Curve25519.p) then None
    else if negb ((xx mod Curve25519.p =? 0) || (pow xx Curve25519.half_p_minus_1 =? 1)) then None
    else if (xx =? 0) && sign then None
    else if Curve25519.fsub 1 y =? 0 then None
    else Some (Bytes.le_bytes 32
                 (Curve25519.fmul (Curve25519.fadd 1 y) (pow (Curve25519.fsub 1 y) Curve25519.p_minus_2))).

End Fast25519.

(** ** Key material and the shared secret ([mixin-route-client]: the
    module-level functions) *)

Record Keystore := {
  app_id : string;
  session_id : string;
  server_public_key : option string;  (* an [AppKeystore] has it *)
  session_private_key : string
}.

Module KeyExchange.
Import Bytes.

(** [ed25519PrivateToCurve25519]: SHA-512 of the first 32 bytes, the first
    32 bytes of the digest, then [[0] &= 248], [[31] &= 127], [[31] |= 64]. *)
Definition ed25519PrivateToCurve25519 (ed25519PrivateKey : list Z) : list Z :=
  let seed := firstn 32 ed25519PrivateKey in
  let digest := SHA2.sha512 seed in
  let curve25519Private := firstn 32 digest in
  let step1 := alter (fun b => Z.land b 248) 0%nat curve25519Private in
  let step2 := alter (fun b => Z.land b 127) 31%nat step1 in
  alter (fun b => Z.lor b 64) 31%nat step2.

(** The same function in the second draft of the client: the comment says
    SHA-512, the call is [sha256(seed)]. *)
Definition ed25519PrivateToCurve25519_v2 (ed25519PrivateKey : list Z) : list Z :=
  let seed := firstn 32 ed25519PrivateKey in
  let hash := SHA2.sha256 seed in
  let curve25519Private := firstn 32 hash in
  let step1 := alter (fun b => Z.land b 248) 0%nat curve25519Private in
  let step2 := alter (fun b => Z.land b 127) 31%nat step1 in
  alter (fun b => Z.lor b 64) 31%nat step2.

(** [generateSharedKey(keystore, routeBotPublicKey)] *)
Definition generateSharedKey (keystore : Keystore) (routeBotPublicKey : string)
  : result (list Z) :=
  let privateKeySeed := from_hex (session_private_key keystore) in
  let curve25519Private := ed25519PrivateToCurve25519 privateKeySeed in
  let remoteCurve25519Public := Base64.base64URLDecode routeBotPublicKey in
  Curve25519.getSharedSecret curve25519Private remoteCurve25519Public.

(** [calculateSharedKey(sessionPrivateKey, remotePublicKey, isHex)] of the
    client that takes the counterparty's key as an option.  After decoding
    the seed it calls [ed25519.edwardsToMontgomeryPriv]; the module imports
    [ed25519] alone from [@noble/curves/ed25519], and that curve object has
    no member of this name (nor [edwardsToMontgomery], nor [x25519], which
    the module of [generateSharedKey] imports beside [ed25519]): calling
    the undefined member throws a [TypeError] before the counterparty's key
    is read. *)
Definition calculateSharedKey (sessionPrivateKey remotePublicKey : string) (isHex : bool)
  : result (list Z) :=
  let privateKeyBuffer := from_hex sessionPrivateKey in
  Throw (LibraryError "TypeError").

(** Modelled after the design document: hash the seed, clamp, convert the
    remote Ed25519 point to its Montgomery u-coordinate, multiply.  This is
    the derivation the document describes, to compare with
    [generateSharedKey]. *)
Definition deriveSharedSecret_spec (localSeed remotePublicKey : list Z) : result (list Z) :=
  let scalar := Curve25519.adjustScalarBytes (firstn 32 (SHA2.sha512 localSeed)) in
  match Curve25519.edwardsToMontgomery remotePublicKey with
  | Some u => Curve25519.getSharedSecret scalar u
  | None => Throw (LibraryError "bad point")
  end.

End KeyExchange.

(** ** The network and the module state *)

Record Request := {
  req_method : string;
  req_url : string;
  req_headers : list (string * string);
  req_body : option string
}.

(** A response: its status, its body text, and what [JSON.parse] makes of
    the text ([None] when it throws). *)
Record Response := { status : Z; text : string; json : option JS.JSON }.

Inductive FetchOutcome :=
| Rejected (message : string)
| Responded (r : Response).

Inductive Event :=
| Fetched (req : Request)
| Slept (ms : Z)
| ConsoleError (what : string).

(** The process: the module-level [cachedRouteBotPublicKey], the clock, and
    the two services as the replies they will give, in order of arrival of
    the requests.  [events] lists what has been done, oldest first. *)
Record World := {
  cachedRouteBotPublicKey : option (list Z);
  now : Z;
  mixin_api : nat -> FetchOutcome;
  mixin_calls : nat;
  route_api : nat -> FetchOutcome;
  route_calls : nat;
  events : list Event
}.

Definition set_cached (k : list Z) (w : World) : World :=
  {| cachedRouteBotPublicKey := Some k; now := now w;
     mixin_api := mixin_api w; mixin_calls := mixin_calls w;
     route_api := route_api w; route_calls := route_calls w;
     events := events w |}.

Definition record (e : Event) (w : World) : World :=
  {| cachedRouteBotPublicKey := cachedRouteBotPublicKey w; now := now w;
     mixin_api := mixin_api w; mixin_calls := mixin_calls w;
     route_api := route_api w; route_calls := route_calls w;
     events := events w ++ [e] |}.

(** [fetch] to [api.mixin.one] *)
Definition fetch_mixin (req : Request) (w : World) : FetchOutcome * World :=
  (mixin_api w (mixin_calls w),
   {| cachedRouteBotPublicKey := cachedRouteBotPublicKey w; now := now w;
      mixin_api := mixin_api w; mixin_calls := S (mixin_calls w);
      route_api := route_api w; route_calls := route_calls w;
      events := events w ++ [Fetched req] |}).

(** [fetch] to the Route API *)
Definition fetch_route (req : Request) (w : World) : FetchOutcome * World :=
  (route_api w (route_calls w),
   {| cachedRouteBotPublicKey := cachedRouteBotPublicKey w; now := now w;
      mixin_api := mixin_api w; mixin_calls := mixin_calls w;
      route_api := route_api w; route_calls := S (route_calls w);
      events := events w ++ [Fetched req] |}).

Definition response_ok (r : Response) : bool := (200 <=? status r) && (status r <=? 299).

(** ** [Web3Client] ([mixin-route-client]) *)

Module Web3Client.
Import Bytes JS.

Definition MIXIN_ROUTE_API_PREFIX : string := "https://api.route.mixin.one".
Definition MIXIN_ROUTE_CLIENT_ID : string := "61cb8dd4-16b1-4744-ba0c-7b2d2e52fc59".
Definition MIXIN_API_BASE : string := "https://api.mixin.one".

Definition dquote : string := String (chr 34) EmptyString.

Record Web3ClientOptions := {
  opt_baseURL : option string;
  opt_timeout : option Z;
  opt_retryCount : option Z;
  opt_retryDelay : option Z
}.

Record t := {
  baseURL : string;
  keystore : Keystore;
  clientID : string;
  timeout : Z;
  retryCount : Z;
  retryDelay : Z;
  sharedKeyPromise : option (result (list Z))
}.

(** [o || d] on an optional number and on an optional string *)
Definition number_or (o : option Z) (d : Z) : Z :=
  match o with
  | Some v => if v =? 0 then d else v
  | None => d
  end.

Definition string_or (o : option string) (d : string) : string :=
  match o with
  | Some v => if String.eqb v "" then d else v
  | None => d
  end.

(** [new Web3Client(keystore, options)] *)
Definition create (keystore : Keystore) (options : Web3ClientOptions) : t :=
  {| baseURL := string_or (opt_baseURL options) MIXIN_ROUTE_API_PREFIX;
     keystore := keystore;
     clientID := MIXIN_ROUTE_CLIENT_ID;
     timeout := number_or (opt_timeout options) 10000;
     retryCount := number_or (opt_retryCount options) 0;
     retryDelay := number_or (opt_retryDelay options) 1000;
     sharedKeyPromise := None |}.

Definition no_options : Web3ClientOptions :=
  {| opt_baseURL := None; opt_timeout := None; opt_retryCount := None; opt_retryDelay := None |}.

Definition with_promise (c : t) (r : result (list Z)) : t :=
  {| baseURL := baseURL c; keystore := keystore c; clientID := clientID c;
     timeout := timeout c; retryCount := retryCount c; retryDelay := retryDelay c;
     sharedKeyPromise := Some r |}.

(** [signAuthenticationToken]: the token is not looked at by the replies of
    the model, so only the ways in which building it throws are kept: no
    user identifier in the keystore, and [ed25519.sign] on a seed that is
    not 32 bytes long. *)
Definition signAuthenticationToken (method uri body : string) (keystore : Keystore)
  : result string :=
  if String.eqb (app_id keystore) "" then Throw (PlainError "Keystore missing user_id or app_id")
  else if negb (length (from_hex (session_private_key keystore)) =? 32)%nat
       then Throw (LibraryError "private key of length 32 expected")
  else Ok "jwt".

(** [v > 0] for the [code] of an error envelope *)
Definition positive_code (v : option JSON) : bool :=
  match v with
  | Some (JNumber n) => 0 <? n
  | Some (JBool b) => b
  | _ => false
  end.

Definition template (v : option JSON) : string :=
  match v with
  | None => "undefined"
  | Some v' => toString v'
  end.

(** The body of the [try] block of [fetchUserSession], from the reply on. *)
Definition read_session (outcome : FetchOutcome) (w : World) : result string * World :=
  match outcome with
  | Rejected m => (Throw (NetworkError m), w)
  | Responded r =>
      if negb (response_ok r)
      then (Throw (PlainError ("HTTP " +:+ decimal (status r) +:+ ": " +:+ text r)), w)
      else
        match json r with
        | None => (Throw SyntaxError, w)
        | Some JNull => (Throw (LibraryError "TypeError"), w)
        | Some result =>
            let err := get "error" result in
            if truthy err && positive_code (oget "code" err)
            then (Throw (PlainError ("Mixin API Error: " +:+ template (oget "description" err))), w)
            else
              match get "data" result with
              | Some (JArray (session :: _)) =>
                  let public_key := get "public_key" session in
                  if truthy (Some session) && truthy public_key then
                    match public_key with
                    | Some (JString pk) => (Ok pk, set_cached (Base64.base64URLDecode pk) w)
                    | _ => (Throw (LibraryError "TypeError"), w)
                    end
                  else (Throw (PlainError "Invalid response from /sessions/fetch"), w)
              | _ => (Throw (PlainError "Invalid response from /sessions/fetch"), w)
              end
        end
  end.

(** [fetchUserSession(userId, keystore)] *)
Definition fetchUserSession (userId : string) (keystore : Keystore) (w : World)
  : result string * World :=
  match cachedRouteBotPublicKey w with
  | Some cached => (Ok (Base64.base64URLEncode cached), w)
  | None =>
      let method := "POST" in
      let path := "/sessions/fetch" in
      let body := "[" +:+ dquote +:+ userId +:+ dquote +:+ "]" in
      match signAuthenticationToken method path body keystore with
      | Throw e => (Throw e, w)
      | Ok token =>
          let req := {| req_method := method; req_url := MIXIN_API_BASE +:+ path;
                        req_headers := [("Content-Type", "application/json");
                                        ("Authorization", "Bearer " +:+ token)];
                        req_body := Some body |} in
          let '(outcome, w1) := fetch_mixin req w in
          match read_session outcome w1 with
          | (Ok pk, w2) => (Ok pk, w2)
          | (Throw e, w2) => (Throw e, record (ConsoleError "fetchUserSession failed") w2)
          end
      end
  end.

(** [getSharedKey()]: the promise is created once and kept, settled or
    rejected. *)
Definition getSharedKey (c : t) (w : World) : result (list Z) * t * World :=
  match sharedKeyPromise c with
  | Some r => (r, c, w)
  | None =>
      let '(pk, w1) := fetchUserSession (clientID c) (keystore c) w in
      let r := match pk with
               | Ok routeBotPublicKey => KeyExchange.generateSharedKey (keystore c) routeBotPublicKey
               | Throw e => Throw e
               end in
      (r, with_promise c r, w1)
  end.

(** The signature of a request under a known shared key: lines 282 to 296
    of [signRequest]. *)
Definition sign_with (sharedKey : list Z) (appId method uri body : string) (timestamp : Z)
  : string :=
  let data := decimal timestamp +:+ toUpperCase method +:+ uri +:+ body in
  let hash := SHA2.hmac_sha256 sharedKey (utf8 data) in
  let combined := utf8 appId ++ hash in
  Base64.base64URLEncode combined.

(** [signRequest(method, uri, body, timestamp)] *)
Definition signRequest (c : t) (method uri body : string) (timestamp : Z) (w : World)
  : result string * t * World :=
  let '(key, c1, w1) := getSharedKey c w in
  match key with
  | Throw e => (Throw e, c1, w1)
  | Ok sharedKey => (Ok (sign_with sharedKey (app_id (keystore c)) method uri body timestamp), c1, w1)
  end.

(** [url.pathname + url.search] of [new URL(path, baseURL)] after
    [url.search = query], where the url takes path and query as they are:
    a base that is an origin, as [MIXIN_ROUTE_API_PREFIX], one slash and
    then plain segments for a path, encoded names and values for a query.
    The paths and queries of the client's own methods are of this kind;
    what the parser does to other texts (encoding, dot segments, a [#]) is
    not modelled. *)
Definition request_uri (path : string) (query : option string) : string :=
  match query with
  | Some q =>
      if String.eqb q "" then path
      else if String.prefix "?" q then path +:+ q
      else path +:+ "?" +:+ q
  | None => path
  end.

(** What one reply leads to inside the [try] block of the loop. *)
Definition handle_response (outcome : FetchOutcome) : result JSON :=
  match outcome with
  | Rejected m => Throw (NetworkError m)
  | Responded response =>
      if negb (response_ok response) || (status response =? 202) then
        let errorBody := text response in
        let errorData := json response in
        let err := oget "error" errorData in
        if truthy err then
          Throw (ApiError {| err_message := error_message (oget "description" err);
                             statusCode := status response;
                             err_code := oget "code" err;
                             description := oget "description" err;
                             rawBody := errorBody;
                             range := oget "range" (oget "extra" err) |})
        else
          Throw (ApiError {| err_message := "HTTP " +:+ decimal (status response) +:+ ": " +:+ errorBody;
                             statusCode := status response;
                             err_code := None;
                             description := None;
                             rawBody := errorBody;
                             range := None |})
      else
        match json response with
        | None => Throw SyntaxError
        | Some result =>
            match get "data" result with
            | Some data => Ok data
            | None => Ok result
            end
        end
  end.

(** The test of the [catch] block: a [MixinRouteAPIError] with a status
    from 400 to 499. *)
Definition is_client_error (e : error) : bool :=
  match e with
  | ApiError a => (400 <=? statusCode a) && (statusCode a <? 500)
  | _ => false
  end.

(** The [for] loop of [doRequest]: [remaining] iterations are left,
    [attempt] is the loop counter. *)
Fixpoint attempts (remaining : nat) (attempt : Z) (lastError : option error)
    (c : t) (req : Request) (w : World) : result JSON * World :=
  match remaining with
  | O =>
      (Throw (match lastError with
              | Some e => e
              | None => PlainError "Request failed"
              end), w)
  | S remaining' =>
      let '(outcome, w1) := fetch_route req w in
      match handle_response outcome with
      | Ok value => (Ok value, w1)
      | Throw e =>
          if is_client_error e then (Throw e, w1)
          else
            let w2 := if attempt <? retryCount c then record (Slept (retryDelay c)) w1 else w1 in
            attempts remaining' (attempt + 1) (Some e) c req w2
      end
  end.

(** [doRequest(method, path, query, body)]; [body] is the JSON text of the
    body when there is one. *)
Definition doRequest (c : t) (method path : string) (query body : option string) (w : World)
  : result JSON * t * World :=
  let uri := request_uri path query in
  let bodyString := match body with Some b => b | None => "" end in
  let timestamp := now w / 1000 in
  let '(sig, c1, w1) := signRequest c method uri bodyString timestamp w in
  match sig with
  | Throw e => (Throw e, c1, w1)
  | Ok signature =>
      let req := {| req_method := method;
                    req_url := baseURL c +:+ uri;
                    req_headers := [("Content-Type", "application/json");
                                    ("MR-ACCESS-TIMESTAMP", decimal timestamp);
                                    ("MR-ACCESS-SIGN", signature)];
                    req_body := if String.eqb bodyString "" then None else Some bodyString |} in
      let '(r, w2) := attempts (Z.to_nat (retryCount c + 1)) 0 None c req w1 in
      (r, c1, w2)
  end.

Definition get_ (c : t) (path : string) (query : option string) (w : World) :=
  doRequest c "GET" path query None w.

Definition post (c : t) (path : string) (body : option string) (w : World) :=
  doRequest c "POST" path None body w.

End Web3Client.

(** ** [URLSearchParams] and the API methods of [Web3Client] *)

Module URLSearchParams.
Import Bytes.

Definition hex_digit (n : Z) : ascii :=
  nth (Z.to_nat n) (list_ascii_of_string "0123456789ABCDEF") "0"%char.

(** The bytes that the [application/x-www-form-urlencoded] serializer
    leaves as they are: ASCII letters and digits, [*], [-], [.] and [_]. *)
Definition unreserved (c : ascii) : bool :=
  let n := code c in
  ((65 <=? n) && (n <=? 90)) || ((97 <=? n) && (n <=? 122)) || ((48 <=? n) && (n <=? 57))
  || (n =? 42) || (n =? 45) || (n =? 46) || (n =? 95).

(** One byte of the UTF-8 text: kept, [+] for a space, or [%XX]. *)
Definition encode_char (c : ascii) : list ascii :=
  let n := code c in
  if unreserved c then [c]
  else if n =? 32 then ["+"%char]
  else ["%"%char; hex_digit (n / 16); hex_digit (n mod 16)].

Definition encode (s : string) : string :=
  string_of_list_ascii (flat_map encode_char (list_ascii_of_string s)).

Definition pair_text (p : string * string) : string :=
  encode (fst p) +:+ "=" +:+ encode (snd p).

(** [new URLSearchParams(record).toString()], the record as the list of
    its entries in the order they are written *)
Definition toString (params : list (string * string)) : string :=
  JS.join "&" (map pair_text params).

End URLSearchParams.

Module Web3ClientAPI.
Import Web3Client.

(** [getQuote(inputMint, outputMint, amount)] *)
Definition getQuote (c : t) (inputMint outputMint amount : string) (w : World)
  : result JS.JSON * t * World :=
  let query := URLSearchParams.toString
                 [("inputMint", inputMint); ("outputMint", outputMint);
                  ("amount", amount); ("source", "mixin")] in
  get_ c "/web3/quote" (Some query) w.

End Web3ClientAPI.

(** ** [RouteAPISigner] ([route-signing]) *)

Module RouteAPISigner.
Import Bytes JS.

Record t := {
  keystore : Keystore;
  sharedKeyCache : gmap string (list Z)
}.

(** [new RouteAPISigner(keystore)] *)
Definition create (keystore : Keystore) : t :=
  {| keystore := keystore; sharedKeyCache := ∅ |}.

(** [getSharedKey(botUserId)], with what it writes to the console.  On a
    miss with a [server_public_key] the method reaches
    [ed25519.edwardsToMontgomeryPriv(privateKeySeed)]: the curve object
    imported from [@noble/curves/ed25519] has no such member, the call
    throws a [TypeError] outside every [try], and [sharedKeyCache.set] is
    never reached. *)
Definition getSharedKey (s : t) (botUserId : string) : result (list Z) * t * list Event :=
  match sharedKeyCache s !! botUserId with
  | Some cached => (Ok cached, s, [])
  | None =>
      match server_public_key (keystore s) with
      | None =>
          (Throw (PlainError "Cannot determine session public key"), s,
           [ConsoleError "Failed to get Route bot session public key:"])
      | Some spk =>
          let pubKeyBuffer := from_hex spk in
          let sessionPublicKey := Base64.base64URLEncode pubKeyBuffer in
          let publicKeyBytes := Base64.base64URLDecode sessionPublicKey in
          let privateKeySeed := from_hex (session_private_key (keystore s)) in
          (Throw (LibraryError "TypeError"), s, [])
      end
  end.

(** [signRequest(timestamp, botUserId, method, uri, body = "")] *)
Definition signRequest (s : t) (timestamp : Z) (botUserId method uri : string)
    (body : option string) : result string * t * list Event :=
  let body := match body with Some b => b | None => "" end in
  let '(key, s1, log) := getSharedKey s botUserId in
  match key with
  | Throw e => (Throw e, s1, log)
  | Ok sharedKey =>
      let data := decimal timestamp +:+ toUpperCase method +:+ uri +:+ body in
      let hash := SHA2.hmac_sha256 sharedKey (utf8 data) in
      let combined := utf8 (app_id (keystore s)) ++ hash in
      (Ok (Base64.base64URLEncode combined), s1, log)
  end.

End RouteAPISigner.

(** ** Route API types ([mixin-route.types]) *)

Module RouteTypes.

Record QuoteRespView := {
  inputMint : string;
  inAmount : string;
  outputMint : string;
  outAmount : string;
  payload : string
}.

Record SwapRequest := {
  payer : string;
  req_inputMint : string;
  req_outputMint : string;
  req_inputAmount : string;
  req_payload : string;
  referral : option string
}.

Record SwapRespView := { tx : string; quote : QuoteRespView }.

Record SwapTx := {
  trace : string;
  payee : string;
  tx_asset : string;
  amount : string;
  memo : string;
  orderId : string
}.

(** What [new URL(s)] gives: the path and the decoded query parameters. *)
Record URL := { pathname : string; searchParams : list (string * string) }.

(** [s.replace(pat, rep)]: the first occurrence only *)
Definition replace_first (pat rep s : string) : string :=
  match String.index 0 pat s with
  | Some i =>
      String.substring 0 i s +:+ rep
      +:+ String.substring (i + String.length pat) (String.length s - i - String.length pat) s
  | None => s
  end.

Fixpoint split_fuel (fuel : nat) (sep s : string) : list string :=
  match fuel with
  | O => [s]
  | S fuel' =>
      match String.index 0 sep s with
      | Some i =>
          String.substring 0 i s
          :: split_fuel fuel' sep
               (String.substring (i + String.length sep)
                  (String.length s - i - String.length sep) s)
      | None => [s]
      end
  end.

(** [s.split(sep)] for a separator that is not empty *)
Definition split (sep s : string) : list string := split_fuel (String.length s) sep s.

(** [a || ""] on what [searchParams.get] returns *)
Definition or_empty (o : option string) : string :=
  match o with Some v => v | None => "" end.

Section Decode.
(** The platform's URL parser; [None] when [new URL] throws. *)
Variable parseURL : string -> option URL.

(** [decodeSwapTx(txUrl)] *)
Definition decodeSwapTx (txUrl : string) : result SwapTx :=
  let urlStr := replace_first "mixin://" "http://" txUrl in
  match parseURL urlStr with
  | None => Throw (PlainError "Failed to decode tx: Invalid URL")
  | Some url =>
      let parts := split "/pay/" (pathname url) in
      let bad_uid := Throw (PlainError ("Failed to decode tx: Invalid uid in path: " +:+ pathname url)) in
      if (length parts <? 2)%nat then bad_uid
      else
        let uid := nth 1 parts "" in
        if String.eqb uid "" then bad_uid
        else
          match JS.assoc "amount" (searchParams url) with
          | None | Some "" => Throw (PlainError "Failed to decode tx: Invalid amount in query")
          | Some amount =>
              let memo := or_empty (JS.assoc "memo" (searchParams url)) in
              Ok {| trace := or_empty (JS.assoc "trace" (searchParams url));
                    payee := uid;
                    tx_asset := or_empty (JS.assoc "asset" (searchParams url));
                    amount := amount;
                    memo := memo;
                    orderId := memo |}
          end
  end.
End Decode.

End RouteTypes.

(** ** The application store and what the client code does to the outside *)

Module Store.
Import RouteTypes.

Record Asset := { symbol : string; asset_name : string; price_usd : string; icon_url : string }.

Record Balance := { total_amount : string; asset : option Asset }.

Record TokenView := { assetId : string; token_name : string; token_symbol : string; icon : string }.

Record User := { user_id : string }.

(** [balance.asset?.symbol || ""] and [balance.asset?.icon_url || ""] *)
Definition symbol_of (b : Balance) : string :=
  match asset b with Some a => symbol a | None => "" end.

Definition icon_of (b : Balance) : string :=
  match asset b with Some a => icon_url a | None => "" end.

(** [`${balance.asset?.symbol}`] *)
Definition symbol_text (b : Balance) : string :=
  match asset b with Some a => symbol a | None => "undefined" end.

(** A request to the Route API. *)
Inductive Call :=
| QuoteCall (inputAssetId outputAssetId amount : string)
| SwapCall (request : SwapRequest).

(** What is done to the outside: requests, toasts, and the first argument
    of [console.error]. *)
Inductive Effect :=
| Network (call : Call)
| LedgerFetch (traceId : string)
| ToastError (message : string)
| ToastSuccess (message : string)
| Console (message : string).

Definition is_network (e : Effect) : bool :=
  match e with Network _ => true | _ => false end.

(** A request to the ledger for the transaction of [trace]. *)
Definition is_fetch_of (trace : string) (e : Effect) : bool :=
  match e with LedgerFetch t => String.eqb t trace | _ => false end.

End Store.

(** ** [MixinSwapService] ([services/mixin-swap]) *)

Module SwapService.
Import RouteTypes Store.

(** The client, seen from the service: what [getQuote] and [swap] settle
    to for each request. *)
Record Client := {
  getQuote : string -> string -> string -> result QuoteRespView;
  swap : SwapRequest -> result SwapRespView
}.

Record SwapParams := {
  payerUserId : string;
  inputAssetId : string;
  outputAssetId : string;
  inputAmount : string;
  referralUserId : option string
}.

Definition has_code (e : error) (code : Z) : bool :=
  match e with
  | ApiError a => match err_code a with Some (JS.JNumber n) => n =? code | _ => false end
  | _ => false
  end.

Definition range_of (e : error) : option JS.JSON :=
  match e with
  | ApiError a => range a
  | _ => None
  end.

(** The [catch] block of [getSwapQuote]: three error codes are turned into
    plain errors; any other error is logged and thrown again. *)
Definition quote_failure (e : error) : error * list Effect :=
  if has_code e 10614 then
    (PlainError ("Amount out of range. Min: "
                 +:+ Web3Client.template (JS.oget "min" (range_of e))
                 +:+ ", Max: "
                 +:+ Web3Client.template (JS.oget "max" (range_of e))), [])
  else if has_code e 10615 then
    (PlainError "No available quote found for this swap pair", [])
  else if has_code e 10611 then
    (PlainError "Invalid swap configuration", [])
  else (e, [Console "Failed to get swap quote:"]).

(** [getSwapQuote(inputAssetId, outputAssetId, amount)] *)
Definition getSwapQuote (client : Client) (inputAssetId outputAssetId amount : string)
  : result QuoteRespView * list Effect :=
  let request := Network (QuoteCall inputAssetId outputAssetId amount) in
  match getQuote client inputAssetId outputAssetId amount with
  | Ok q => (Ok q, [request])
  | Throw e => let '(e', log) := quote_failure e in (Throw e', request :: log)
  end.

(** The request that [createSwap] builds. *)
Definition swap_request (params : SwapParams) (payload : string) : SwapRequest :=
  {| payer := payerUserId params;
     req_inputMint := inputAssetId params;
     req_outputMint := outputAssetId params;
     req_inputAmount := inputAmount params;
     req_payload := payload;
     referral := referralUserId params |}.

(** [createSwap(params)] *)
Definition createSwap (client : Client) (params : SwapParams) (payload : string)
  : result SwapRespView * list Effect :=
  let request := swap_request params payload in
  match swap client request with
  | Ok s => (Ok s, [Network (SwapCall request)])
  | Throw e => (Throw e, [Network (SwapCall request); Console "Failed to create swap:"])
  end.

(** [executeSwap(params)]: the quote, then the order with the payload of
    the quote. *)
Definition executeSwap (client : Client) (params : SwapParams)
  : result (QuoteRespView * SwapRespView) * list Effect :=
  match getSwapQuote client (inputAssetId params) (outputAssetId params) (inputAmount params) with
  | (Throw e, log) => (Throw e, log)
  | (Ok q, log) =>
      match createSwap client params (payload q) with
      | (Throw e, log') => (Throw e, log ++ log')
      | (Ok s, log') => (Ok (q, s), log ++ log')
      end
  end.

End SwapService.

(** ** [Promise.all] over callbacks that quote, then order

    Both panels map an [async] callback over a list and wait for all of
    them.  A callback runs until its next [await]; the replies arrive in
    any order. *)

Module Fanout.
Import RouteTypes SwapService Store.

Definition present {A} (l : list (option A)) : list A :=
  flat_map (fun o => match o with Some a => [a] | None => [] end) l.

Section Tasks.
Context {Order : Type}.
Variable parseURL : string -> option URL.
Variable client : Client.

(** What a callback asks [executeSwap] for, what its [catch] block does,
    and the order it returns from the quote, the reply and the decoded
    payment link. *)
Record Job := {
  params : SwapParams;
  failed : list Effect;
  order_of : QuoteRespView -> SwapRespView -> SwapTx -> Order
}.

(** The callback run on its own, from the call to the value it returns;
    [None] is the callback that returns [null] before it asks for
    anything. *)
Definition callback (job : option Job) : option Order * list Effect :=
  match job with
  | None => (None, [])
  | Some j =>
      match executeSwap client (params j) with
      | (Throw _, log) => (None, log ++ failed j)
      | (Ok (q, s), log) =>
          match decodeSwapTx parseURL (tx s) with
          | Throw _ => (None, log ++ failed j)
          | Ok txInfo => (Some (order_of j q s txInfo), log)
          end
      end
  end.

(** The same callback between two [await]s: waiting for the reply to its
    quote request, waiting for the reply to its order, returned. *)
Inductive Task :=
| AwaitQuote (job : Job) (reply : result QuoteRespView)
| AwaitSwap (job : Job) (q : QuoteRespView) (reply : result SwapRespView)
| Settled (order : option Order).

(** From the call to the first [await]: the quote is requested. *)
Definition launch (job : option Job) : Task * list Effect :=
  match job with
  | None => (Settled None, [])
  | Some j =>
      (AwaitQuote j (getQuote client (inputAssetId (params j)) (outputAssetId (params j))
                       (inputAmount (params j))),
       [Network (QuoteCall (inputAssetId (params j)) (outputAssetId (params j))
                   (inputAmount (params j)))])
  end.

(** From one [await] to the next, when the reply is there: the rest of
    [getSwapQuote] and the request of [createSwap], or the rest of
    [createSwap] and of the callback. *)
Definition resume (t : Task) : Task * list Effect :=
  match t with
  | AwaitQuote j (Throw e) => (Settled None, snd (quote_failure e) ++ failed j)
  | AwaitQuote j (Ok q) =>
      let request := swap_request (params j) (payload q) in
      (AwaitSwap j q (swap client request), [Network (SwapCall request)])
  | AwaitSwap j q (Throw _) => (Settled None, Console "Failed to create swap:" :: failed j)
  | AwaitSwap j q (Ok s) =>
      match decodeSwapTx parseURL (tx s) with
      | Throw _ => (Settled None, failed j)
      | Ok txInfo => (Settled (Some (order_of j q s txInfo)), [])
      end
  | Settled _ => (t, [])
  end.

(** What is left of a callback: the value it will return and what it
    will still do. *)
Definition rest_of (t : Task) : option Order * list Effect :=
  let '(t1, e1) := resume t in
  let '(t2, e2) := resume t1 in
  (match t2 with Settled o => o | _ => None end, e1 ++ e2).

(** A reply arrives for the [i]-th callback. *)
Definition deliver (acc : list Task * list Effect) (i : nat) : list Task * list Effect :=
  let '(pool, log) := acc in
  match pool !! i with
  | Some t => let '(t', es) := resume t in (<[i := t']> pool, log ++ es)
  | None => acc
  end.

(** [await Promise.all(jobs.map(callback))]: every callback is called, in
    the order of the list; the replies then arrive in the order of
    [schedule], and the ones still outstanding after it in the order of the
    callbacks. *)
Definition all (schedule : list nat) (jobs : list (option Job))
  : list (option Order) * list Effect :=
  let started := map launch jobs in
  let '(pool, log) := fold_left deliver schedule (map fst started, concat (map snd started)) in
  (map (fun t => fst (rest_of t)) pool, log ++ concat (map (fun t => snd (rest_of t)) pool)).
End Tasks.

End Fanout.

(** ** [SplitSwap]: one source asset into several targets *)

Module SplitSwap.
Import RouteTypes SwapService Store JS.

(** A target and its share.  The shares here are whole numbers, as the
    panel distributes them with [Math.floor(100 / n)] and the remainder;
    [SplitShares] below has the state with the shares that the input
    gives, which are numbers. *)
Record BuyToken := { token : TokenView; percentage : Z; price : spec_float }.

Record SwapOrder := {
  targetAssetId : string;
  targetSymbol : string;
  targetIcon : string;
  order_inputAmount : string;
  outputAmount : string;
  payUrl : string;
  order_id : string;
  traceId : string;
  isPaid : bool
}.

Record State := {
  keystore : option Keystore;
  user : option User;
  balances : gmap string Balance;
  selectedAssetId : option string;
  sellPercentage : Z;
  buyTokens : list BuyToken;
  isCalculating : bool;
  swapOrders : list SwapOrder;
  showPaymentModal : bool
}.

(** [buyTokens.reduce((sum, bt) => sum + bt.percentage, 0)] *)
Definition sum_percentages (l : list BuyToken) : Z :=
  fold_left (fun sum bt => sum + percentage bt) l 0.

(** [swapSummary.totalBuyPercentage] *)
Definition totalBuyPercentage (st : State) : Z :=
  match selectedAssetId st with
  | None => 0
  | Some id =>
      if String.eqb id "" then 0
      else
        match balances st !! id with
        | None => 0
        | Some _ => sum_percentages (buyTokens st)
        end
  end.

Definition finished (st : State) (orders : list SwapOrder) (show : bool) : State :=
  {| keystore := keystore st; user := user st; balances := balances st;
     selectedAssetId := selectedAssetId st; sellPercentage := sellPercentage st;
     buyTokens := buyTokens st; isCalculating := false;
     swapOrders := orders; showPaymentModal := show |}.

Section Panel.
Variable parseURL : string -> option URL.
Variable client : Client.
(** [process.env.MIXIN_REFER_USER_ID] *)
Variable referUserId : option string.

(** The callback of [buyTokens.map]: one order for one target. *)
Definition job (u : User) (selected : string) (totalSellAmount : spec_float)
    (buyToken : BuyToken) : option (Fanout.Job (Order := SwapOrder)) :=
  let sellAmount := div (mul totalSellAmount (of_int (percentage buyToken))) (of_int 100) in
  Some {| Fanout.params :=
            {| payerUserId := user_id u;
               inputAssetId := selected;
               outputAssetId := assetId (token buyToken);
               inputAmount := Number_toString sellAmount;
               referralUserId := referUserId |};
          Fanout.failed :=
            [Console ("Failed to create swap for " +:+ token_symbol (token buyToken) +:+ ":");
             ToastError ("创建 " +:+ token_symbol (token buyToken) +:+ " 兑换订单失败")];
          Fanout.order_of := fun q s txInfo =>
            {| targetAssetId := assetId (token buyToken);
               targetSymbol := token_symbol (token buyToken);
               targetIcon := icon (token buyToken);
               order_inputAmount := Number_toString sellAmount;
               outputAmount := outAmount q;
               payUrl := tx s;
               order_id := orderId txInfo;
               traceId := trace txInfo;
               isPaid := false |} |}.

Definition createOrder (u : User) (selected : string) (totalSellAmount : spec_float)
    (buyToken : BuyToken) : option SwapOrder * list Effect :=
  Fanout.callback parseURL client (job u selected totalSellAmount buyToken).

(** [handleCalculateSwap()]: the state after it and what it did, when the
    replies arrive in the order of [schedule]. *)
Definition handleCalculateSwap (schedule : list nat) (st : State) : State * list Effect :=
  match keystore st, user st, selectedAssetId st with
  | Some _, Some u, Some selected =>
      if String.eqb selected "" || (length (buyTokens st) =? 0)%nat then (st, [])
      else if negb (totalBuyPercentage st =? 100)
      then (st, [ToastError "买入代币的百分比总和必须为 100%"])
      else
        match balances st !! selected with
        | None => (finished st [] (showPaymentModal st), [])
        | Some balance =>
            let totalAmount := parseFloat (total_amount balance) in
            let totalSellAmount := mul totalAmount (div (of_int (sellPercentage st)) (of_int 100)) in
            let '(results, effects) :=
              Fanout.all parseURL client schedule
                (map (job u selected totalSellAmount) (buyTokens st)) in
            let validOrders := Fanout.present results in
            if (0 <? length validOrders)%nat
            then (finished st validOrders true, effects)
            else (finished st [] (showPaymentModal st),
                  effects ++ [ToastError "所有订单创建失败"])
        end
  | _, _, _ => (st, [])
  end.
End Panel.

End SplitSwap.

(** ** The split panel with the shares as the input gives them *)

(** [SplitSwap] above has the shares that the panel itself distributes,
    [Math.floor(100 / n)] and the remainder: whole numbers.  The input next
    to a target hands over [Number(e.target.value)] held between 0 and 100,
    which is any number of that range ([step] restrains what the browser
    calls valid, not what [onChange] receives), and the state keeps it as
    it is.  Here the shares are the numbers of the state. *)
Module SplitShares.
Import RouteTypes SwapService Store JS.

Record BuyToken := { token : TokenView; percentage : spec_float; price : spec_float }.

Record State := {
  keystore : option Keystore;
  user : option User;
  balances : gmap string Balance;
  selectedAssetId : option string;
  sellPercentage : Z;
  buyTokens : list BuyToken;
  isCalculating : bool;
  swapOrders : list SplitSwap.SwapOrder;
  showPaymentModal : bool
}.

Definition with_buyTokens (st : State) (l : list BuyToken) : State :=
  {| keystore := keystore st; user := user st; balances := balances st;
     selectedAssetId := selectedAssetId st; sellPercentage := sellPercentage st;
     buyTokens := l; isCalculating := isCalculating st;
     swapOrders := swapOrders st; showPaymentModal := showPaymentModal st |}.

(** The argument that [onChange] of the share input passes:
    [Math.max(0, Math.min(100, Number(e.target.value)))]. *)
Definition share_of_input (value : string) : spec_float :=
  Math_max (of_int 0) (Math_min (of_int 100) (Number_of_value value)).

(** [handleUpdatePercentage(assetId, percentage)] *)
Definition handleUpdatePercentage (id : string) (share : spec_float) (st : State) : State :=
  with_buyTokens st
    (map (fun bt =>
            if String.eqb (assetId (token bt)) id
            then {| token := token bt; percentage := share; price := price bt |}
            else bt)
       (buyTokens st)).

(** [buyTokens.reduce((sum, bt) => sum + bt.percentage, 0)] *)
Definition sum_percentages (l : list BuyToken) : spec_float :=
  fold_left (fun sum bt => add sum (percentage bt)) l (of_int 0).

(** [swapSummary.totalBuyPercentage] *)
Definition totalBuyPercentage (st : State) : spec_float :=
  match selectedAssetId st with
  | None => of_int 0
  | Some id =>
      if String.eqb id "" then of_int 0
      else
        match balances st !! id with
        | None => of_int 0
        | Some _ => sum_percentages (buyTokens st)
        end
  end.

Definition finished (st : State) (orders : list SplitSwap.SwapOrder) (show : bool) : State :=
  {| keystore := keystore st; user := user st; balances := balances st;
     selectedAssetId := selectedAssetId st; sellPercentage := sellPercentage st;
     buyTokens := buyTokens st; isCalculating := false;
     swapOrders := orders; showPaymentModal := show |}.

Section Panel.
Variable parseURL : string -> option URL.
Variable client : Client.
(** [process.env.MIXIN_REFER_USER_ID] *)
Variable referUserId : option string.

(** The callback of [buyTokens.map]: one order for one target. *)
Definition job (u : User) (selected : string) (totalSellAmount : spec_float)
    (buyToken : BuyToken) : option (Fanout.Job (Order := SplitSwap.SwapOrder)) :=
  let sellAmount := div (mul totalSellAmount (percentage buyToken)) (of_int 100) in
  Some {| Fanout.params :=
            {| payerUserId := user_id u;
               inputAssetId := selected;
               outputAssetId := assetId (token buyToken);
               inputAmount := Number_toString sellAmount;
               referralUserId := referUserId |};
          Fanout.failed :=
            [Console ("Failed to create swap for " +:+ token_symbol (token buyToken) +:+ ":");
             ToastError ("创建 " +:+ token_symbol (token buyToken) +:+ " 兑换订单失败")];
          Fanout.order_of := fun q s txInfo =>
            {| SplitSwap.targetAssetId := assetId (token buyToken);
               SplitSwap.targetSymbol := token_symbol (token buyToken);
               SplitSwap.targetIcon := icon (token buyToken);
               SplitSwap.order_inputAmount := Number_toString sellAmount;
               SplitSwap.outputAmount := outAmount q;
               SplitSwap.payUrl := tx s;
               SplitSwap.order_id := orderId txInfo;
               SplitSwap.traceId := trace txInfo;
               SplitSwap.isPaid := false |} |}.

(** [handleCalculateSwap()]: the state after it and what it did, when the
    replies arrive in the order of [schedule]. *)
Definition handleCalculateSwap (schedule : list nat) (st : State) : State * list Effect :=
  match keystore st, user st, selectedAssetId st with
  | Some _, Some u, Some selected =>
      if String.eqb selected "" || (length (buyTokens st) =? 0)%nat then (st, [])
      else if negb (strict_equal (totalBuyPercentage st) (of_int 100))
      then (st, [ToastError "买入代币的百分比总和必须为 100%"])
      else
        match balances st !! selected with
        | None => (finished st [] (showPaymentModal st), [])
        | Some balance =>
            let totalAmount := parseFloat (total_amount balance) in
            let totalSellAmount := mul totalAmount (div (of_int (sellPercentage st)) (of_int 100)) in
            let '(results, effects) :=
              Fanout.all parseURL client schedule
                (map (job u selected totalSellAmount) (buyTokens st)) in
            let validOrders := Fanout.present results in
            if (0 <? length validOrders)%nat
            then (finished st validOrders true, effects)
            else (finished st [] (showPaymentModal st),
                  effects ++ [ToastError "所有订单创建失败"])
        end
  | _, _, _ => (st, [])
  end.
End Panel.

End SplitShares.

(** ** [BulkSwap]: several source assets into one target *)

Module BulkSwap.
Import RouteTypes SwapService Store JS.

Record SwapOrder := {
  order_assetId : string;
  order_symbol : string;
  order_icon : string;
  order_inputAmount : string;
  outputAmount : string;
  payUrl : string;
  order_id : string;
  traceId : string;
  isPaid : bool
}.

Record State := {
  keystore : option Keystore;
  user : option User;
  balances : gmap string Balance;
  (** the [Set] of selected asset ids, in insertion order *)
  selectedAssetIds : list string;
  swapPercentage : Z;
  outputToken : option TokenView;
  isCalculating : bool;
  swapOrders : list SwapOrder;
  showPaymentModal : bool
}.

Definition finished (st : State) (orders : list SwapOrder) (show : bool) : State :=
  {| keystore := keystore st; user := user st; balances := balances st;
     selectedAssetIds := selectedAssetIds st; swapPercentage := swapPercentage st;
     outputToken := outputToken st; isCalculating := false;
     swapOrders := orders; showPaymentModal := show |}.

(** [((totalAmount * swapPercentage) / 100).toString()] *)
Definition inputAmountOf (total_amount : string) (swapPercentage : Z) : string :=
  let totalAmount := parseFloat total_amount in
  Number_toString (div (mul totalAmount (of_int swapPercentage)) (of_int 100)).

Section Panel.
Variable parseURL : string -> option URL.
Variable client : Client.
(** [process.env.MIXIN_REFER_USER_ID] *)
Variable referUserId : option string.

(** The callback of [Array.from(selectedAssetIds).map]: one order for one
    source asset. *)
Definition job (st : State) (u : User) (out : TokenView) (assetId_ : string)
  : option (Fanout.Job (Order := SwapOrder)) :=
  match balances st !! assetId_ with
  | None => None
  | Some balance =>
      let inputAmount := inputAmountOf (total_amount balance) (swapPercentage st) in
      Some {| Fanout.params :=
                {| payerUserId := user_id u;
                   inputAssetId := assetId_;
                   outputAssetId := assetId out;
                   SwapService.inputAmount := inputAmount;
                   referralUserId := referUserId |};
              Fanout.failed :=
                [Console ("Failed to create swap for " +:+ symbol_text balance +:+ ":");
                 ToastError ("创建 " +:+ symbol_text balance +:+ " 兑换订单失败")];
              Fanout.order_of := fun q s txInfo =>
                {| order_assetId := assetId_;
                   order_symbol := symbol_of balance;
                   order_icon := icon_of balance;
                   order_inputAmount := inputAmount;
                   outputAmount := outAmount q;
                   payUrl := tx s;
                   order_id := orderId txInfo;
                   traceId := trace txInfo;
                   isPaid := false |} |}
  end.

Definition createOrder (st : State) (u : User) (out : TokenView) (assetId_ : string)
  : option SwapOrder * list Effect :=
  Fanout.callback parseURL client (job st u out assetId_).

(** [handleCalculateSwap()]: the state after it and what it did, when the
    replies arrive in the order of [schedule]. *)
Definition handleCalculateSwap (schedule : list nat) (st : State) : State * list Effect :=
  match keystore st, user st, outputToken st with
  | Some _, Some u, Some out =>
      if (length (selectedAssetIds st) =? 0)%nat then (st, [])
      else
        let '(results, effects) :=
          Fanout.all parseURL client schedule (map (job st u out) (selectedAssetIds st)) in
        let validOrders := Fanout.present results in
        if (0 <? length validOrders)%nat
        then (finished st validOrders true, effects)
        else (finished st [] (showPaymentModal st),
              effects ++ [ToastError "所有订单创建失败"])
  | _, _, _ => (st, [])
  end.
End Panel.

End BulkSwap.

(** ** [SplitSwap]: the list of targets *)

Module SplitTargets.
Import Store JS SplitSwap.

(** What the handlers of the target list do to the outside: the price
    request of [getAssetInfo], or something shown or logged. *)
Inductive Action :=
| AssetInfoCall (assetId : string)
| Shown (e : Effect).

Definition with_buyTokens (st : State) (tokens : list BuyToken) : State :=
  {| keystore := keystore st; user := user st; balances := balances st;
     selectedAssetId := selectedAssetId st; sellPercentage := sellPercentage st;
     buyTokens := tokens; isCalculating := isCalculating st;
     swapOrders := swapOrders st; showPaymentModal := showPaymentModal st |}.

(** The automatic distribution, written three times in the panel:
    [Math.floor(100 / n)] for every target and the remainder for the
    first.  The panel computes it for lists that are not empty only. *)
Definition distribute (tokens : list BuyToken) : list BuyToken :=
  let totalTokens := Z.of_nat (length tokens) in
  let equalPercentage := 100 / totalTokens in
  let remainder := 100 - equalPercentage * totalTokens in
  imap (fun index bt =>
          {| token := token bt;
             percentage := equalPercentage + (if (index =? 0)%nat then remainder else 0);
             price := price bt |}) tokens.

(** [assetInfo.current_price || "0"] *)
Definition price_text (current_price : option string) : string :=
  match current_price with
  | Some p => if String.eqb p "" then "0" else p
  | None => "0"
  end.

(** The two checks of [handleAddBuyToken], made before the price is asked
    for, on the targets and the source asset of the render in which the
    handler was made: the message shown when the asset is refused. *)
Definition refused (token_ : TokenView) (st : State) : option Effect :=
  if existsb (fun bt => String.eqb (assetId (token bt)) (assetId token_)) (buyTokens st)
  then Some (ToastError "该代币已添加")
  else if match selectedAssetId st with
          | Some selected => String.eqb selected (assetId token_)
          | None => false
          end
  then Some (ToastError "不能兑换成相同的资产")
  else None.

(** [handleAddBuyToken(token)].  [st] is the state the handler is called
    in; [info] is what [getAssetInfo] settles to, the [current_price] of the
    asset or a failure; [later] is the state by then: the update given to
    [setBuyTokens] is applied to the targets of that state ([prev]), not to
    those the checks have seen. *)
Definition handleAddBuyToken (info : result (option string)) (token_ : TokenView)
    (st later : State) : State * list Action :=
  match refused token_ st with
  | Some message => (st, [Shown message])
  | None =>
      match info with
      | Ok current_price =>
          let price_ := parseFloat (price_text current_price) in
          let newTokens :=
            buyTokens later ++ [{| token := token_; percentage := 0; price := price_ |}] in
          (with_buyTokens later (distribute newTokens),
           [AssetInfoCall (assetId token_);
            Shown (ToastSuccess ("已添加 " +:+ token_symbol token_ +:+ "，自动平均分配份额"))])
      | Throw _ =>
          (later, [AssetInfoCall (assetId token_);
                   Shown (Console "Failed to get asset info:");
                   Shown (Console "Failed to fetch token price:");
                   Shown (ToastError ("获取 " +:+ token_symbol token_ +:+ " 价格失败"))])
      end
  end.

(** [handleRemoveBuyToken(assetId)] *)
Definition handleRemoveBuyToken (assetId_ : string) (st : State) : State :=
  let filtered :=
    List.filter (fun bt => negb (String.eqb (assetId (token bt)) assetId_)) (buyTokens st) in
  with_buyTokens st (if (length filtered =? 0)%nat then [] else distribute filtered).

(** [handleUpdatePercentage(assetId, percentage)] *)
Definition handleUpdatePercentage (assetId_ : string) (percentage_ : Z) (st : State) : State :=
  with_buyTokens st
    (map (fun bt =>
            if String.eqb (assetId (token bt)) assetId_
            then {| token := token bt; percentage := percentage_; price := price bt |}
            else bt) (buyTokens st)).

(** [handleAutoDistribute()]: the handler does not wait for anything, so
    the targets it counts and the targets it updates are those of one
    state. *)
Definition handleAutoDistribute (st : State) : State :=
  if (length (buyTokens st) =? 0)%nat then st
  else with_buyTokens st (distribute (buyTokens st)).

End SplitTargets.

(** ** [BulkSwap]: the selection *)

Module BulkSelection.
Import Store JS BulkSwap.

Definition with_selection (st : State) (ids : list string) : State :=
  {| keystore := keystore st; user := user st; balances := balances st;
     selectedAssetIds := ids; swapPercentage := swapPercentage st;
     outputToken := outputToken st; isCalculating := isCalculating st;
     swapOrders := swapOrders st; showPaymentModal := showPaymentModal st |}.

Definition with_outputToken (st : State) (out : option TokenView) : State :=
  {| keystore := keystore st; user := user st; balances := balances st;
     selectedAssetIds := selectedAssetIds st; swapPercentage := swapPercentage st;
     outputToken := out; isCalculating := isCalculating st;
     swapOrders := swapOrders st; showPaymentModal := showPaymentModal st |}.

(** [x < y] on numbers: false when either is [NaN]. *)
Definition lt (x y : spec_float) : bool := SFltb x y.

(** [parseFloat(balance.total_amount) *
     parseFloat(balance.asset?.price_usd || "0")] *)
Definition value_of (balance : Balance) : spec_float :=
  mul (parseFloat (total_amount balance))
    (parseFloat (match asset balance with
                 | Some a => if String.eqb (price_usd a) "" then "0" else price_usd a
                 | None => "0"
                 end)).

(** [set.has(id)], [set.delete(id)] and [set.add(id)] on the selection, a
    [Set] kept as the list of its members in the order of insertion. *)
Definition has (ids : list string) (id : string) : bool := existsb (String.eqb id) ids.

Definition delete (ids : list string) (id : string) : list string :=
  List.filter (fun x => negb (String.eqb id x)) ids.

Definition add (ids : list string) (id : string) : list string :=
  if has ids id then ids else ids ++ [id].

(** [handleToggleAsset(assetId)] *)
Definition handleToggleAsset (assetId_ : string) (st : State) : State * list Effect :=
  match balances st !! assetId_ with
  | None => (st, [])
  | Some balance =>
      if lt (value_of balance) (of_int 1)
      then (st, [ToastError "资产价值需要大于 $1 才能兑换"])
      else if match outputToken st with
              | Some out => String.eqb assetId_ (assetId out)
              | None => false
              end
      then (st, [ToastError "不能兑换成相同的资产"])
      else if has (selectedAssetIds st) assetId_
      then (with_selection st (delete (selectedAssetIds st) assetId_), [])
      else (with_selection st (add (selectedAssetIds st) assetId_), [])
  end.

(** [setOutputToken(token)], followed by the effect that depends on
    [outputToken?.assetId]: when the id changes and the new target is
    selected, it is taken out of the selection. *)
Definition setOutputToken (token_ : TokenView) (st : State) : State * list Effect :=
  let st1 := with_outputToken st (Some token_) in
  let changed :=
    match outputToken st with
    | Some out => negb (String.eqb (assetId out) (assetId token_))
    | None => true
    end in
  if changed && has (selectedAssetIds st1) (assetId token_)
  then (with_selection st1 (delete (selectedAssetIds st1) (assetId token_)),
        [ToastSuccess ("已自动取消选择 " +:+ token_symbol token_ +:+ "，不能兑换成相同的资产")])
  else (st1, []).

End BulkSelection.

(** ** [BulkSwap]: asking the Route API for the state of the orders *)

Module BulkStatus.
Import Store BulkSwap.

(** What the handlers do to the outside: the request of [getSwapOrder], or
    something shown or logged. *)
Inductive Action :=
| OrderStatusCall (orderId : string)
| Shown (e : Effect).

Definition with_orders (st : State) (orders : list SwapOrder) : State :=
  {| keystore := keystore st; user := user st; balances := balances st;
     selectedAssetIds := selectedAssetIds st; swapPercentage := swapPercentage st;
     outputToken := outputToken st; isCalculating := isCalculating st;
     swapOrders := orders; showPaymentModal := showPaymentModal st |}.

(** [{ ...o, isPaid }] *)
Definition with_isPaid (o : SwapOrder) (paid : bool) : SwapOrder :=
  {| order_assetId := order_assetId o; order_symbol := order_symbol o;
     order_icon := order_icon o; order_inputAmount := order_inputAmount o;
     outputAmount := outputAmount o; payUrl := payUrl o; order_id := order_id o;
     traceId := traceId o; isPaid := paid |}.

(** [order.state === "success"], for the [state] of the order that
    [getSwapOrder] gives, when it has one *)
Definition is_success (state : option string) : bool :=
  match state with
  | Some s => String.eqb s "success"
  | None => false
  end.

(** The updater given to [setSwapOrders], on one order *)
Definition set_paid (orderId_ : string) (paid : bool) (o : SwapOrder) : SwapOrder :=
  if String.eqb (order_id o) orderId_ then with_isPaid o paid else o.

(** [handleCheckOrderStatus(orderId)] from the reply on: the state, what is
    shown or logged, and whether the value returned has the state
    ["success"]. *)
Definition settle (orderId_ : string) (reply : result (option string)) (st : State)
  : State * list Action * bool :=
  match reply with
  | Ok state =>
      let paid := is_success state in
      (with_orders st (map (set_paid orderId_ paid) (swapOrders st)),
       if paid then [Shown (ToastSuccess "支付成功！")] else [],
       paid)
  | Throw _ =>
      (st,
       [Shown (Console "Failed to get swap order:");
        Shown (Console "Failed to check order status:")],
       false)
  end.

(** [handleCheckOrderStatus(orderId)] *)
Definition handleCheckOrderStatus (reply : result (option string)) (orderId_ : string)
    (st : State) : State * list Action * bool :=
  match keystore st with
  | None => (st, [], false)
  | Some _ =>
      let '(st', shown, success) := settle orderId_ reply st in
      (st', OrderStatusCall orderId_ :: shown, success)
  end.

(** The order in which the replies to [n] requests arrive: as [schedule]
    says, each request once, then the ones it leaves out in the order of
    the requests. *)
Definition arrival (schedule : list nat) (n : nat) : list nat :=
  let first := nodup Nat.eq_dec (List.filter (fun i => (i <? n)%nat) schedule) in
  first ++ List.filter (fun i => negb (existsb (Nat.eqb i) first)) (seq 0 n).

(** The reply to the [i]-th request arrives. *)
Definition deliver (replies : nat -> result (option string)) (ids : list string)
    (acc : State * list Action * list bool) (i : nat) : State * list Action * list bool :=
  let '(st, log, results) := acc in
  match ids !! i with
  | Some orderId_ =>
      let '(st', shown, success) := settle orderId_ (replies i) st in
      (st', log ++ shown, <[i := success]> results)
  | None => acc
  end.

(** What [allPaid] leads to *)
Definition closed (st : State) : State :=
  {| keystore := keystore st; user := user st; balances := balances st;
     selectedAssetIds := []; swapPercentage := swapPercentage st;
     outputToken := outputToken st; isCalculating := isCalculating st;
     swapOrders := []; showPaymentModal := false |}.

(** [handleCheckAllOrders()], when the reply to the [i]-th request is
    [replies i] and the replies arrive in the order of [schedule].
    [isCheckingStatus] is true while the handler runs and false when it
    ends; it is not part of the state. *)
Definition handleCheckAllOrders (replies : nat -> result (option string))
    (schedule : list nat) (st : State) : State * list Action :=
  let ids := map order_id (swapOrders st) in
  match keystore st with
  | None =>
      (* every callback returns [undefined] at once *)
      if forallb (fun _ => false) ids
      then (closed st, [Shown (ToastSuccess "所有订单已支付完成！")])
      else (st, [])
  | Some _ =>
      let '(st1, log, results) :=
        fold_left (deliver replies ids) (arrival schedule (length ids))
          (st, map OrderStatusCall ids, repeat false (length ids)) in
      if forallb (fun success => success) results
      then (closed st1, log ++ [Shown (ToastSuccess "所有订单已支付完成！")])
      else (st1, log)
  end.

End BulkStatus.

(** ** The payment polling effect of [BulkSwap] *)

Module Polling.
Import Store BulkSwap.

(** What [mixinClient.utxo.fetchTransaction(traceId)] settles to: a
    transaction with its state, nothing, or a rejection whose
    [error?.response?.status] is given. *)
Inductive LedgerReply :=
| Transaction (state : string)
| NoTransaction
| LedgerError (status : option Z).

(** The component state the effect reads and writes, and the effect's own
    variables: [pollingFlags], whether the interval is set, whether
    [setSwapOrders] ran since the effect started, the number of ledger
    requests made, and what was shown or logged. *)
Record State := {
  swapOrders : list SwapOrder;
  showPaymentModal : bool;
  pollingFlags : gmap string bool;
  polling : bool;
  rerender : bool;
  fetches : nat;
  effects : list Effect
}.

Definition mark_paid (trace : string) (o : SwapOrder) : SwapOrder :=
  if String.eqb (traceId o) trace then
    {| order_assetId := order_assetId o; order_symbol := order_symbol o;
       order_icon := order_icon o; order_inputAmount := order_inputAmount o;
       outputAmount := outputAmount o; payUrl := payUrl o; order_id := order_id o;
       traceId := traceId o; isPaid := true |}
  else o.

Section Effect.
(** The ledger: the reply to the [n]-th request, for a trace id. *)
Variable ledger : nat -> string -> LedgerReply.

(** [checkPaymentStatus(order)] up to its first [await]: the two guards,
    the flag, the request. *)
Definition begin (acc : State * list (SwapOrder * LedgerReply)) (order : SwapOrder)
  : State * list (SwapOrder * LedgerReply) :=
  let '(st, pending) := acc in
  match pollingFlags st !! traceId order with
  | Some true => acc
  | _ =>
      if isPaid order then acc
      else
        ({| swapOrders := swapOrders st; showPaymentModal := showPaymentModal st;
            pollingFlags := <[traceId order := true]> (pollingFlags st);
            polling := polling st; rerender := rerender st;
            fetches := S (fetches st);
            effects := effects st ++ [LedgerFetch (traceId order)] |},
         pending ++ [(order, ledger (fetches st) (traceId order))])
  end.

(** The rest of [checkPaymentStatus(order)]: [try], [catch], [finally]. *)
Definition finish (st : State) (settled : SwapOrder * LedgerReply) : State :=
  let '(order, reply) := settled in
  let flags := delete (traceId order) (pollingFlags st) in
  match reply with
  | Transaction state =>
      if String.eqb state "spent" then
        {| swapOrders := map (mark_paid (traceId order)) (swapOrders st);
           showPaymentModal := showPaymentModal st;
           pollingFlags := flags; polling := polling st; rerender := true;
           fetches := fetches st;
           effects := effects st ++ [ToastSuccess (order_symbol order +:+ " 支付成功！")] |}
      else
        {| swapOrders := swapOrders st; showPaymentModal := showPaymentModal st;
           pollingFlags := flags; polling := polling st; rerender := rerender st;
           fetches := fetches st; effects := effects st |}
  | NoTransaction =>
      {| swapOrders := swapOrders st; showPaymentModal := showPaymentModal st;
         pollingFlags := flags; polling := polling st; rerender := rerender st;
         fetches := fetches st; effects := effects st |}
  | LedgerError status =>
      {| swapOrders := swapOrders st; showPaymentModal := showPaymentModal st;
         pollingFlags := flags; polling := polling st; rerender := rerender st;
         fetches := fetches st;
         effects :=
           match status with
           | Some 404 => effects st
           | _ => effects st ++ [Console ("Error checking payment for " +:+ order_symbol order +:+ ":")]
           end |}
  end.

(** [checkAllPayments()]: every order is started, then every request
    settles; the requests of a round are taken to settle before the
    interval fires again. *)
Definition checkAllPayments (st : State) : State :=
  let '(st1, pending) := fold_left begin (swapOrders st) (st, []) in
  fold_left finish pending st1.

(** The cleanup of the effect, and the effect body. *)
Definition cleanup (st : State) : State :=
  {| swapOrders := swapOrders st; showPaymentModal := showPaymentModal st;
     pollingFlags := ∅; polling := false; rerender := false;
     fetches := fetches st; effects := effects st |}.

Definition start (st : State) : State :=
  {| swapOrders := swapOrders st; showPaymentModal := showPaymentModal st;
     pollingFlags := ∅; polling := true; rerender := false;
     fetches := fetches st; effects := effects st |}.

(** The effect runs when the modal is shown or the orders change: an
    immediate check, then the interval.  A check that marks an order paid
    changes the orders, so the effect is cleaned up and runs again; here it
    does so when the round is over, where React does it while the other
    requests of the round are pending.  The two agree on the rounds in
    which no order is marked. *)
Fixpoint runEffect (fuel : nat) (st : State) : State :=
  if negb (showPaymentModal st) || (length (swapOrders st) =? 0)%nat then cleanup st
  else
    let st1 := checkAllPayments (start st) in
    if rerender st1 then
      match fuel with
      | O => st1
      | S fuel' => runEffect fuel' (cleanup st1)
      end
    else st1.

(** The interval fires. *)
Definition tick (st : State) : State :=
  if polling st then
    let st1 := checkAllPayments st in
    if rerender st1 then runEffect (length (swapOrders st1)) (cleanup st1) else st1
  else st.

(** The interval fires [n] times. *)
Definition ticks (n : nat) (st : State) : State := Nat.iter n tick st.
End Effect.

End Polling.

(** ** Sample data

    The Ed25519 key pair of RFC 8032, section 7.1, test 1, and the
    Curve25519 base point. *)

Module Samples.

Definition keystore : Keystore :=
  {| app_id := "7b9f5d1c-2e64-4c3a-9f0e-5a1d3c8b6e42";
     session_id := "0c6d2a5e-8f13-4b7a-a1d9-3e5f7c9b2d41";
     server_public_key :=
       Some "d75a980182b10ab7d54bfed3c964073a0ee172f3daa62325af021a68f707511a";
     session_private_key :=
       "9d61b19deffd5a60ba844af492ec2cc44449c5697b326919703bac031cae7f60" |}.

(** The same keystore with the last byte of the seed missing. *)
Definition short_keystore : Keystore :=
  {| app_id := app_id keystore;
     session_id := session_id keystore;
     server_public_key := server_public_key keystore;
     session_private_key :=
       "9d61b19deffd5a60ba844af492ec2cc44449c5697b326919703bac031cae7f" |}.

(** A second principal: the seed of RFC 8032, section 7.1, test 2. *)
Definition other_keystore : Keystore :=
  {| app_id := "f2a4c6e8-1b3d-4f5a-8c7e-9d0b2a4c6e81";
     session_id := "5d7f9b1c-3e2a-4c6b-8d0f-1a3c5e7f9b2d";
     server_public_key :=
       Some "3d4017c3e843895a92b70aa74d1b7ebc9c982ccf2ec4968cc0cd55f12af4660c";
     session_private_key :=
       "4ccd089b28ff96da9db6c346ec114e0f5b8a319f35aba624da8cf6ed4fb8a6fb" |}.

(** An Ed25519 public key, as bytes and in URL-safe Base64. *)
Definition edwards_key : list Z :=
  Bytes.from_hex "d75a980182b10ab7d54bfed3c964073a0ee172f3daa62325af021a68f707511a".

Definition edwards_key_base64 : string := "11qYAYKxCrfVS_7TyWQHOg7hcvPapiMlrwIaaPcHURo".

(** Thirty-two zero bytes in URL-safe Base64: the point [u = 0], of low
    order. *)
Definition zero_key_base64 : string := "AAAAAAAAAAAAAAAAAAAAAAAAAAAAAAAAAAAAAAAAAAA".

(** The Curve25519 base point [u = 9] in URL-safe Base64. *)
Definition base_point_base64 : string := "CQAAAAAAAAAAAAAAAAAAAAAAAAAAAAAAAAAAAAAAAAA".

(** A URL parser for tests: every string is the payment link of the order
    named after it. *)
Definition link_parser (s : string) : option RouteTypes.URL :=
  Some {| RouteTypes.pathname := "/pay/6a87e67f-02fb-47cf-b31f-32a13dd5b3d9";
          RouteTypes.searchParams := [("asset", "asset"); ("amount", "1");
                                      ("memo", "order-" +:+ s); ("trace", "trace-" +:+ s)] |}.

(** A Route API that quotes 2 for 1 and answers every order with a payment
    link, except for the asset ["broken"], which it cannot quote. *)
Definition route_client : SwapService.Client :=
  {| SwapService.getQuote := fun inputMint outputMint amount =>
       if String.eqb inputMint "broken" then Throw (NetworkError "connection reset")
       else Ok {| RouteTypes.inputMint := inputMint; RouteTypes.inAmount := amount;
                  RouteTypes.outputMint := outputMint; RouteTypes.outAmount := "2";
                  RouteTypes.payload := "P" |};
     SwapService.swap := fun request =>
       Ok {| RouteTypes.tx := RouteTypes.req_inputMint request;
             RouteTypes.quote :=
               {| RouteTypes.inputMint := RouteTypes.req_inputMint request;
                  RouteTypes.inAmount := RouteTypes.req_inputAmount request;
                  RouteTypes.outputMint := RouteTypes.req_outputMint request;
                  RouteTypes.outAmount := "2";
                  RouteTypes.payload := RouteTypes.req_payload request |} |} |}.

Definition balance_of (amount symbol : string) : Store.Balance :=
  {| Store.total_amount := amount;
     Store.asset := Some {| Store.symbol := symbol; Store.asset_name := symbol;
                            Store.price_usd := "1"; Store.icon_url := "" |} |}.

Definition token_of (id : string) : Store.TokenView :=
  {| Store.assetId := id; Store.token_name := id; Store.token_symbol := id; Store.icon := "" |}.

(** The bulk panel with three assets selected, 90% of each to be swapped
    into ["out"]. *)
Definition bulk_state : BulkSwap.State :=
  {| BulkSwap.keystore := Some keystore;
     BulkSwap.user := Some {| Store.user_id := "payer" |};
     BulkSwap.balances :=
       {[ "good" := balance_of "1.1" "GOOD";
          "broken" := balance_of "3" "BRK";
          "fine" := balance_of "0.57" "FINE" ]};
     BulkSwap.selectedAssetIds := ["good"; "broken"; "fine"];
     BulkSwap.swapPercentage := 90;
     BulkSwap.outputToken := Some (token_of "out");
     BulkSwap.isCalculating := false;
     BulkSwap.swapOrders := [];
     BulkSwap.showPaymentModal := false |}.

(** The split panel: all of 0.57 ["src"] to be swapped into the given
    targets. *)
Definition split_state (targets : list (string * Z)) : SplitSwap.State :=
  {| SplitSwap.keystore := Some keystore;
     SplitSwap.user := Some {| Store.user_id := "payer" |};
     SplitSwap.balances := {[ "src" := balance_of "0.57" "SRC" ]};
     SplitSwap.selectedAssetId := Some "src";
     SplitSwap.sellPercentage := 100;
     SplitSwap.buyTokens :=
       map (fun '(id, share) =>
              {| SplitSwap.token := token_of id; SplitSwap.percentage := share;
                 SplitSwap.price := JS.of_int 1 |}) targets;
     SplitSwap.isCalculating := false;
     SplitSwap.swapOrders := [];
     SplitSwap.showPaymentModal := false |}.

(** The same panel with two targets, ["a"] and ["b"], after the texts
    [a] and [b] have been typed into their share inputs. *)
Definition share_state (a b : string) : SplitShares.State :=
  let panel :=
    {| SplitShares.keystore := Some keystore;
       SplitShares.user := Some {| Store.user_id := "payer" |};
       SplitShares.balances := {[ "src" := balance_of "0.57" "SRC" ]};
       SplitShares.selectedAssetId := Some "src";
       SplitShares.sellPercentage := 100;
       SplitShares.buyTokens :=
         [ {| SplitShares.token := token_of "a"; SplitShares.percentage := JS.of_int 50;
              SplitShares.price := JS.of_int 1 |};
           {| SplitShares.token := token_of "b"; SplitShares.percentage := JS.of_int 50;
              SplitShares.price := JS.of_int 1 |} ];
       SplitShares.isCalculating := false;
       SplitShares.swapOrders := [];
       SplitShares.showPaymentModal := false |} in
  SplitShares.handleUpdatePercentage "b" (SplitShares.share_of_input b)
    (SplitShares.handleUpdatePercentage "a" (SplitShares.share_of_input a) panel).

(** The payment modal of the bulk panel, open on the two orders that the
    Route API accepts for [bulk_state], and a ledger that has none of the
    payments: it answers 404 about the first order, and about the second
    first 502 and then that there is no transaction. *)
Definition polling_state : Polling.State :=
  {| Polling.swapOrders :=
       BulkSwap.swapOrders
         (fst (BulkSwap.handleCalculateSwap link_parser route_client None [] bulk_state));
     Polling.showPaymentModal := true;
     Polling.pollingFlags := ∅;
     Polling.polling := true;
     Polling.rerender := false;
     Polling.fetches := 0;
     Polling.effects := [] |}.

Definition failing_ledger (n : nat) (trace : string) : Polling.LedgerReply :=
  if String.eqb trace "trace-good" then Polling.LedgerError (Some 404)
  else if (n <? 2)%nat then Polling.LedgerError (Some 502)
  else Polling.NoTransaction.

Definition quoted (s : string) : string := Web3Client.dquote +:+ s +:+ Web3Client.dquote.

(** A client whose shared key is settled to the bytes 0 to 31. *)
Definition settled_client (retries : Z) : Web3Client.t :=
  Web3Client.with_promise
    (Web3Client.create keystore
       {| Web3Client.opt_baseURL := None; Web3Client.opt_timeout := None;
          Web3Client.opt_retryCount := Some retries; Web3Client.opt_retryDelay := None |})
    (Ok (map Z.of_nat (seq 0 32))).

(** A world in which the session service and the Route API give the listed
    replies, then refuse connections. *)
Definition world (sessions replies : list FetchOutcome) : World :=
  {| cachedRouteBotPublicKey := None;
     now := 1700000000123;
     mixin_api := fun n => nth n sessions (Rejected "connection refused");
     mixin_calls := 0;
     route_api := fun n => nth n replies (Rejected "connection refused");
     route_calls := 0;
     events := [] |}.

(** [{"data":"payload"}] with status 200 *)
Definition success_reply : FetchOutcome :=
  Responded {| status := 200;
               text := "{" +:+ quoted "data" +:+ ":" +:+ quoted "payload" +:+ "}";
               json := Some (JS.JObject [("data", JS.JString "payload")]) |}.

(** A reply of a gateway: a status and a body that is not JSON *)
Definition plain_reply (code : Z) (body : string) : FetchOutcome :=
  Responded {| status := code; text := body; json := None |}.

(** [{"error":{"code":10615,"description":"pending"}}] with status 202 *)
Definition accepted_reply : FetchOutcome :=
  Responded {| status := 202;
               text := "{" +:+ quoted "error" +:+ ":{" +:+ quoted "code" +:+ ":10615,"
                       +:+ quoted "description" +:+ ":" +:+ quoted "pending" +:+ "}}";
               json := Some (JS.JObject
                               [("error", JS.JObject [("code", JS.JNumber 10615);
                                                      ("description", JS.JString "pending")])]) |}.

(** [{"data":[{"public_key":k}]}] with status 200: a reply of
    [/sessions/fetch] *)
Definition session_reply (k : string) : FetchOutcome :=
  Responded {| status := 200;
               text := "{" +:+ quoted "data" +:+ ":[{" +:+ quoted "public_key" +:+ ":"
                       +:+ quoted k +:+ "}]}";
               json := Some (JS.JObject
                               [("data", JS.JArray [JS.JObject [("public_key", JS.JString k)]])]) |}.

End Samples.

Module LedgerSamples.
Import Samples.

(** A ledger on which the payment of the first order of [polling_state]
    is spent and the other is not there yet. *)
Definition paying_ledger (n : nat) (trace : string) : Polling.LedgerReply :=
  if String.eqb trace "trace-good" then Polling.Transaction "spent"
  else Polling.LedgerError (Some 404).

(** [polling_state] after a check on a ledger where every payment is
    spent. *)
Definition all_paid_state : Polling.State :=
  Eval vm_compute in
    Polling.checkAllPayments (fun _ _ => Polling.Transaction "spent") polling_state.

End LedgerSamples.

(** ** The words of the statements

    Predicates and abbreviations that the facts below are stated with. *)

(** *** Sextets *)

Module Base64Terms.
Import Bytes Base64.

Definition is_sextet (s : Z) : Prop := 0 <= s < 64.

(** Everything there is to know about one sextet and its character. *)
Definition sextet_ok (s : Z) : bool :=
  let c := char_of_sextet s in
  match sextet_of_char (of_url (to_url c)) with
  | Some s' => (s' =? s) && negb (is_pad (to_url c)) && negb (is_pad c)
               && Ascii.eqb (of_url (to_url c)) c
  | None => false
  end.

End Base64Terms.

(** *** The ladder state of the fast ladder, read as integers *)

Module Curve25519Terms.

Definition lift (st : Fast25519.ladder_state) : Curve25519.ladder_state :=
  Curve25519.Ladder (BigZ.to_Z (Fast25519.x2 st)) (BigZ.to_Z (Fast25519.z2 st))
                    (BigZ.to_Z (Fast25519.x3 st)) (BigZ.to_Z (Fast25519.z3 st)) (Fast25519.swap st).

End Curve25519Terms.

(** *** The clamp, byte by byte *)

Module KeyExchangeTerms.

Definition clamp_low (b : Z) : Z := Z.land b 248.

Definition clamp_high (b : Z) : Z := Z.lor (Z.land b 127) 64.

End KeyExchangeTerms.

(** *** What a signature is *)

Module SigningTerms.
Import Bytes JS.

(** The string that is signed. *)
Definition canonical (timestamp : Z) (method uri body : string) : string :=
  decimal timestamp +:+ toUpperCase method +:+ uri +:+ body.

(** What it is for [sig] to be the signature of a request under [key] for
    the principal [appId]. *)
Definition signs (key : list Z) (appId : string) (timestamp : Z) (method uri body sig : string)
  : Prop :=
  let digest := SHA2.hmac_sha256 key (utf8 (canonical timestamp method uri body)) in
  sig = Base64.base64URLEncode (utf8 appId ++ digest)
  /\ Base64.base64URLDecode sig = utf8 appId ++ digest
  /\ length (Base64.base64URLDecode sig) = (String.length appId + 32)%nat.

End SigningTerms.

(** *** Requests, runs of the retry loop, kinds of replies *)

Module TransportTerms.
Import JS Web3Client SigningTerms.

(** Two worlds with the same Route API side. *)
Definition same_route (w w' : World) : Prop :=
  route_api w' = route_api w /\ route_calls w' = route_calls w.

(** The request [doRequest] sends. *)
Definition request_of (c : t) (method path : string) (query body : option string)
    (timestamp : Z) (signature : string) : Request :=
  let bodyString := match body with Some b => b | None => "" end in
  {| req_method := method;
     req_url := baseURL c +:+ request_uri path query;
     req_headers := [("Content-Type", "application/json");
                     ("MR-ACCESS-TIMESTAMP", decimal timestamp);
                     ("MR-ACCESS-SIGN", signature)];
     req_body := if String.eqb bodyString "" then None else Some bodyString |}.

(** The events of a run of the loop that makes [k + 1] requests: a request,
    then [k] times a pause of [retryDelay] and a request. *)
Definition trace (c : t) (req : Request) (k : nat) : list Event :=
  Fetched req :: concat (repeat [Slept (retryDelay c); Fetched req] k).

(** The replies after which the loop goes on, when iterations are left:
    a rejected [fetch], a reply that is an error and has no status from 400
    to 499, a reply that is a success and whose body is not JSON. *)
Definition retryable (o : FetchOutcome) : bool :=
  match o with
  | Rejected _ => true
  | Responded r =>
      if negb (response_ok r) || (status r =? 202)
      then negb ((400 <=? status r) && (status r <? 500))
      else match json r with None => true | Some _ => false end
  end.

(** [body || ""] *)
Definition body_text (body : option string) : string :=
  match body with Some b => b | None => "" end.

(** [response.ok] false, or status 202 *)
Definition unsuccessful (r : Response) : Prop :=
  response_ok r = false \/ status r = 202.

End TransportTerms.

(** *** Requests and clients of one source asset *)

Module FanoutTerms.
Import RouteTypes SwapService Store Fanout.


End FanoutTerms.

(** *** Shares as real numbers *)

Module ShareTerms.
Import JS SplitShares.

(** The real number that a binary64 value stands for; [NaN] and the
    infinities stand for none. *)
Definition exact (x : spec_float) : option Q :=
  match x with
  | S754_zero _ => Some 0%Q
  | S754_finite s m e =>
      Some (Qred (inject_Z (if s then Z.neg m else Z.pos m) * Qpower 2 e))
  | _ => None
  end.

(** The sum of the shares, as real numbers. *)
Definition exact_sum (l : list BuyToken) : option Q :=
  fold_left (fun sum bt =>
               match sum, exact (percentage bt) with
               | Some a, Some b => Some (Qred (a + b))
               | _, _ => None
               end) l (Some 0%Q).

End ShareTerms.

(** *** Rounds of polling *)

Module PollingTerms.
Import Store BulkSwap Polling.

Definition trace_of (p : SwapOrder * LedgerReply) : string := traceId (fst p).

(** A reply that does not say that the payment is made: a failure, no
    transaction, or a transaction that is not spent. *)
Definition unpaid (r : LedgerReply) : Prop := r <> Transaction "spent".

(** What the [catch] block writes for a reply about an order. *)
Definition logged (order : SwapOrder) (r : LedgerReply) : list Effect :=
  match r with
  | LedgerError (Some 404) => []
  | LedgerError _ => [Console ("Error checking payment for " +:+ order_symbol order +:+ ":")]
  | _ => []
  end.

Definition fetch_or_log (e : Effect) : Prop :=
  match e with LedgerFetch _ | Console _ => True | _ => False end.

Definition fetch_only (e : Effect) : Prop :=
  match e with LedgerFetch _ => True | _ => False end.

(** What the two phases of a round leave alone. *)
Definition same_view (st st' : State) : Prop :=
  swapOrders st' = swapOrders st
  /\ showPaymentModal st' = showPaymentModal st
  /\ polling st' = polling st
  /\ rerender st' = rerender st.

End PollingTerms.

(** *** Characters of the codecs *)

Module CodecTerms.
Import Bytes.

(** A character that needs no escaping in a URL: a letter, a digit, [-]
    or [_]. *)
Definition url_safe (c : ascii) : bool :=
  let n := code c in
  ((65 <=? n) && (n <=? 90)) || ((97 <=? n) && (n <=? 122)) || ((48 <=? n) && (n <=? 57))
  || (n =? 45) || (n =? 95).

End CodecTerms.

(** *** Queries, paths and calls of the signer *)

Module QueryTerms.
Import Bytes URLSearchParams.

(** The characters of an encoded value. *)
Definition form_safe (c : ascii) : bool :=
  unreserved c || Ascii.eqb c "+"%char || Ascii.eqb c "%"%char.

(** The characters of a query of encoded names and values. *)
Definition query_char (c : ascii) : bool :=
  form_safe c || Ascii.eqb c "&"%char || Ascii.eqb c "="%char.

(** A query that the setter of [url.search] puts behind a [?] as it is:
    none, or one of such characters only. *)
Definition plain_query (query : option string) : bool :=
  match query with
  | None => true
  | Some q => forallb query_char (list_ascii_of_string q)
  end.

(** Letters, digits, [-], [_] and [/]. *)
Definition path_char (c : ascii) : bool :=
  let n := code c in
  ((65 <=? n) && (n <=? 90)) || ((97 <=? n) && (n <=? 122)) || ((48 <=? n) && (n <=? 57))
  || (n =? 45) || (n =? 95) || (n =? 47).

(** A path that [new URL(path, base)] takes as the path of the url as it
    is: one slash, not two, and then such characters only, so that there
    is nothing to encode, no dot segment to resolve, and no [?] or [#] to
    end it. *)
Definition plain_path (path : string) : bool :=
  match list_ascii_of_string path with
  | "/"%char :: rest =>
      match rest with
      | "/"%char :: _ => false
      | _ => forallb path_char rest
      end
  | _ => false
  end.

(** The uri of a quote request. *)
Definition quote_uri (inputMint outputMint amount : string) : string :=
  "/web3/quote?inputMint=" +:+ encode inputMint
  +:+ "&outputMint=" +:+ encode outputMint
  +:+ "&amount=" +:+ encode amount
  +:+ "&source=mixin".

End QueryTerms.

Module RouteSignerTerms.
Import RouteAPISigner.

(** One call of [signRequest]. *)
Record Call := {
  call_timestamp : Z;
  call_bot : string;
  call_method : string;
  call_uri : string;
  call_body : option string
}.



End RouteSignerTerms.

(** *** Targets and selections *)

Module SplitTargetsTerms.
Import Store SplitSwap.

(** The asset ids of the targets. *)
Definition target_ids (st : State) : list string :=
  map (fun bt => assetId (token bt)) (buyTokens st).

End SplitTargetsTerms.

Module BulkSelectionTerms.
Import Store BulkSwap.

(** A selection as the handlers keep it: no asset twice, every asset with
    a balance in the store, and the target not among them. *)
Definition well_selected (st : State) : Prop :=
  List.NoDup (selectedAssetIds st)
  /\ Forall (fun id => exists balance, balances st !! id = Some balance) (selectedAssetIds st)
  /\ (forall out, outputToken st = Some out -> ~ In (assetId out) (selectedAssetIds st)).

End BulkSelectionTerms.

(** *** Orders and the replies about them *)

Module BulkStatusTerms.
Import Store BulkSwap BulkStatus.

(** An order after the reply to the request about it. *)
Definition answered (reply : result (option string)) (o : SwapOrder) : SwapOrder :=
  match reply with
  | Ok state => with_isPaid o (is_success state)
  | Throw _ => o
  end.

(** The reply says that the order is done. *)
Definition success (reply : result (option string)) : bool :=
  match reply with
  | Ok state => is_success state
  | Throw _ => false
  end.

(** The orders while the replies arrive: the orders that have been
    answered are as their replies say, the others as they were. *)
Definition partly (replies : nat -> result (option string)) (done : list nat)
    (orders : list SwapOrder) : list SwapOrder :=
  imap (fun i o => if existsb (Nat.eqb i) done then answered (replies i) o else o) orders.

End BulkStatusTerms.

(** *** What a round of polling leaves *)

Module RoundTerms.
Import Store BulkSwap Polling PollingTerms.

(** An order with its payment seen. *)
Definition paid (o : SwapOrder) : SwapOrder :=
  {| order_assetId := order_assetId o; order_symbol := order_symbol o;
     order_icon := order_icon o; order_inputAmount := order_inputAmount o;
     outputAmount := outputAmount o; payUrl := payUrl o; order_id := order_id o;
     traceId := traceId o; isPaid := true |}.

(** A reply that says that the payment is made. *)
Definition spent (r : LedgerReply) : bool :=
  match r with Transaction state => String.eqb state "spent" | _ => false end.

(** An order after the replies [asked]: paid when one of them says that
    its trace is spent. *)
Definition settled_by (asked : list (SwapOrder * LedgerReply)) (o : SwapOrder) : SwapOrder :=
  if existsb (fun p => spent (snd p) && String.eqb (traceId o) (trace_of p)) asked
  then paid o else o.

(** What is shown or logged for a reply. *)
Definition reported (p : SwapOrder * LedgerReply) : list Effect :=
  if spent (snd p) then [ToastSuccess (order_symbol (fst p) +:+ " 支付成功！")]
  else logged (fst p) (snd p).

End RoundTerms.

(** * Facts

    From here on: what holds of the definitions above. *)

(** ** Lengths and ranges *)

Module BytesFacts.
Import Bytes.

Lemma code_is_byte c : is_byte (code c).
Proof.
  unfold is_byte, code.
  pose proof (N_ascii_bounded c). lia.
Qed.

Lemma chr_code c : chr (code c) = c.
Proof. unfold chr, code. rewrite N2Z.id. apply ascii_N_embedding. Qed.

Lemma utf8_is_bytes s : Forall is_byte (utf8 s).
Proof.
  unfold utf8. induction (list_ascii_of_string s) as [|c cs IH]; simpl.
  - constructor.
  - constructor; [apply code_is_byte | exact IH].
Qed.

Lemma length_utf8 s : length (utf8 s) = String.length s.
Proof.
  unfold utf8. rewrite length_map.
  induction s as [|c s IH]; simpl; [reflexivity | now rewrite IH].
Qed.

Lemma length_le_bytes n x : length (le_bytes n x) = n.
Proof. revert x. induction n as [|n IH]; intros x; simpl; [reflexivity | now rewrite IH]. Qed.

Lemma length_be_bytes n x : length (be_bytes n x) = n.
Proof. unfold be_bytes. rewrite length_rev. apply length_le_bytes. Qed.

Lemma le_bytes_is_bytes n x : Forall is_byte (le_bytes n x).
Proof.
  revert x. induction n as [|n IH]; intros x; simpl; constructor.
  - unfold is_byte. lia.
  - apply IH.
Qed.

Lemma be_bytes_is_bytes n x : Forall is_byte (be_bytes n x).
Proof. unfold be_bytes. apply Forall_rev, le_bytes_is_bytes. Qed.

End BytesFacts.

Module SHA2Facts.
Import Bytes BytesFacts SHA2.

Lemma length_digest w wbytes K H0 bs0 bs1 ss0 ss1 msg :
  length (digest w wbytes K H0 bs0 bs1 ss0 ss1 msg) = (8 * wbytes)%nat.
Proof.
  unfold digest.
  set (final := fold_left _ _ _).
  cbn [list_of_state map concat].
  rewrite !length_app, !length_be_bytes. simpl. lia.
Qed.

Lemma digest_is_bytes w wbytes K H0 bs0 bs1 ss0 ss1 msg :
  Forall is_byte (digest w wbytes K H0 bs0 bs1 ss0 ss1 msg).
Proof.
  unfold digest.
  set (final := fold_left _ _ _).
  cbn [list_of_state map concat].
  repeat (apply Forall_app; split; [apply be_bytes_is_bytes |]).
  constructor.
Qed.

Lemma length_sha512 msg : length (sha512 msg) = 64%nat.
Proof. apply length_digest. Qed.

Lemma length_sha256 msg : length (sha256 msg) = 32%nat.
Proof. apply length_digest. Qed.

Lemma length_hmac_sha256 key msg : length (hmac_sha256 key msg) = 32%nat.
Proof. unfold hmac_sha256, hmac. apply length_digest. Qed.

Lemma hmac_sha256_is_bytes key msg : Forall is_byte (hmac_sha256 key msg).
Proof. unfold hmac_sha256, hmac. apply digest_is_bytes. Qed.

(** Known answers: FIPS 180-4 on ["abc"], RFC 4231, test case 2. *)
Example sha256_abc :
  sha256 (utf8 "abc")
  = from_hex "ba7816bf8f01cfea414140de5dae2223b00361a396177a9cb410ff61f20015ad".
Proof. vm_compute. reflexivity. Qed.

Example sha512_abc :
  sha512 (utf8 "abc")
  = from_hex ("ddaf35a193617abacc417349ae20413112e6fa4e89a97ea20a9eeee64b55d39a"
              ++ "2192992a274fc1a836ba3c23a3feebbd454d4423643ce80e2a9ac94fa54ca49f").
Proof. vm_compute. reflexivity. Qed.

Example hmac_sha256_rfc4231 :
  hmac_sha256 (utf8 "Jefe") (utf8 "what do ya want for nothing?")
  = from_hex "5bdcc146bf60754e6a042426089575c75a003f089d2739839dec58b964ec3843".
Proof. vm_compute. reflexivity. Qed.

End SHA2Facts.

(** ** Base64 round trip *)

Module Base64Facts.
Import Bytes BytesFacts Base64.
Export Base64Terms.

Lemma sextets_all_ok : forallb sextet_ok (map Z.of_nat (seq 0 64)) = true.
Proof. vm_compute. reflexivity. Qed.

Lemma sextet_ok_spec s : is_sextet s -> sextet_ok s = true.
Proof.
  intros Hs.
  pose proof sextets_all_ok as H.
  rewrite forallb_forall in H. apply H.
  apply in_map_iff. exists (Z.to_nat s). split; [unfold is_sextet in Hs; lia |].
  apply in_seq. unfold is_sextet in Hs. lia.
Qed.

Lemma sextet_facts s :
  is_sextet s ->
  sextet_of_char (char_of_sextet s) = Some s
  /\ is_pad (to_url (char_of_sextet s)) = false
  /\ is_pad (char_of_sextet s) = false
  /\ of_url (to_url (char_of_sextet s)) = char_of_sextet s.
Proof.
  intros Hs. apply sextet_ok_spec in Hs. unfold sextet_ok in Hs.
  destruct (sextet_of_char (of_url (to_url (char_of_sextet s)))) as [s'|] eqn:E;
    [| discriminate].
  rewrite !andb_true_iff, !negb_true_iff in Hs.
  destruct Hs as [[[H1 H2] H3] H4].
  apply Ascii.eqb_eq in H4. apply Z.eqb_eq in H1. subst s'.
  rewrite H4 in E. auto.
Qed.

(** Induction three bytes at a time. *)
Lemma list_ind3 {A} (P : list A -> Prop) :
  P [] -> (forall a, P [a]) -> (forall a b, P [a; b]) ->
  (forall a b c l, P l -> P (a :: b :: c :: l)) ->
  forall l, P l.
Proof.
  intros H0 H1 H2 H3 l.
  assert (H : P l /\ (forall a, P (a :: l)) /\ (forall a b, P (a :: b :: l))).
  { induction l as [|x l [IH0 [IH1 IH2]]]; [auto |].
    split; [apply IH1 |]. split; [intros a; apply IH2 |]. intros a b. now apply H3. }
  apply H.
Qed.

Lemma sextets_are_sextets bs :
  Forall is_byte bs -> Forall is_sextet (sextets_of_bytes bs).
Proof.
  induction bs as [| a | a b | a b c l IH] using list_ind3; intros Hb.
  - constructor.
  - inversion Hb as [|? ? Ha _]; subst. unfold is_byte in Ha.
    repeat constructor; unfold is_sextet; lia.
  - inversion Hb as [|? ? Ha Hb']; subst. inversion Hb' as [|? ? Hb1 _]; subst.
    unfold is_byte in *.
    repeat constructor; unfold is_sextet; lia.
  - inversion Hb as [|? ? Ha Hb']; subst. inversion Hb' as [|? ? Hb1 Hb'']; subst.
    inversion Hb'' as [|? ? Hc Hl]; subst.
    unfold is_byte in *.
    change (sextets_of_bytes (a :: b :: c :: l))
      with (a / 4 :: (a mod 4) * 16 + b / 16 :: (b mod 16) * 4 + c / 64 :: c mod 64
            :: sextets_of_bytes l).
    repeat (constructor; [unfold is_sextet; lia |]).
    now apply IH.
Qed.

Lemma bytes_of_sextets_of_bytes bs :
  Forall is_byte bs -> bytes_of_sextets (sextets_of_bytes bs) = bs.
Proof.
  induction bs as [| a | a b | a b c l IH] using list_ind3; intros Hb.
  - reflexivity.
  - inversion Hb as [|? ? Ha _]; subst. unfold is_byte in Ha.
    cbn [sextets_of_bytes bytes_of_sextets]. f_equal. lia.
  - inversion Hb as [|? ? Ha Hb']; subst. inversion Hb' as [|? ? Hb1 _]; subst.
    unfold is_byte in *.
    cbn [sextets_of_bytes bytes_of_sextets]. repeat f_equal; lia.
  - inversion Hb as [|? ? Ha Hb']; subst. inversion Hb' as [|? ? Hb1 Hb'']; subst.
    inversion Hb'' as [|? ? Hc Hl]; subst.
    unfold is_byte in *.
    change (sextets_of_bytes (a :: b :: c :: l))
      with (a / 4 :: (a mod 4) * 16 + b / 16 :: (b mod 16) * 4 + c / 64 :: c mod 64
            :: sextets_of_bytes l).
    change (bytes_of_sextets (?s0 :: ?s1 :: ?s2 :: ?s3 :: ?rest))
      with (s0 * 4 + s1 / 16 :: (s1 mod 16) * 16 + s2 / 4 :: (s2 mod 4) * 64 + s3
            :: bytes_of_sextets rest).
    rewrite IH by assumption.
    repeat f_equal; lia.
Qed.

Lemma known_sextets_chars ss :
  Forall is_sextet ss -> known_sextets (map char_of_sextet ss) = ss.
Proof.
  induction 1 as [|s ss Hs _ IH]; simpl; [reflexivity |].
  destruct (sextet_facts s Hs) as [-> _]. now rewrite IH.
Qed.

Lemma until_pad_chars ss n :
  Forall is_sextet ss ->
  until_pad (map char_of_sextet ss ++ repeat "="%char n) = map char_of_sextet ss.
Proof.
  induction 1 as [|s ss Hs _ IH]; simpl.
  - destruct n; reflexivity.
  - destruct (sextet_facts s Hs) as (_ & _ & -> & _). now rewrite IH.
Qed.

Lemma filter_url_chars ss n :
  Forall is_sextet ss ->
  List.filter (fun c => negb (is_pad c)) (map to_url (map char_of_sextet ss ++ repeat "="%char n))
  = map to_url (map char_of_sextet ss).
Proof.
  induction 1 as [|s ss Hs _ IH]; simpl.
  - induction n as [|n IHn]; simpl; [reflexivity | exact IHn].
  - destruct (sextet_facts s Hs) as (_ & -> & _ & _). simpl. now rewrite IH.
Qed.

Lemma of_url_chars ss n :
  Forall is_sextet ss ->
  map of_url (map to_url (map char_of_sextet ss) ++ repeat "="%char n)
  = map char_of_sextet ss ++ repeat "="%char n.
Proof.
  induction 1 as [|s ss Hs _ IH]; simpl.
  - induction n as [|n IHn]; simpl; [reflexivity | now rewrite IHn].
  - destruct (sextet_facts s Hs) as (_ & _ & _ & ->). now rewrite IH.
Qed.

(** Encoding then decoding gives the bytes back. *)
Lemma base64URL_roundtrip bs :
  Forall is_byte bs -> base64URLDecode (base64URLEncode bs) = bs.
Proof.
  intros Hb.
  pose proof (sextets_are_sextets bs Hb) as Hs.
  unfold base64URLDecode, base64URLEncode, toBase64, padding.
  rewrite list_ascii_of_string_of_list_ascii.
  rewrite filter_url_chars by assumption.
  set (cs := map to_url (map char_of_sextet (sextets_of_bytes bs))).
  assert (Hpad : forall n, fromBase64 (map of_url (cs ++ repeat "="%char n)) = bs).
  { intros n. unfold cs, fromBase64.
    rewrite of_url_chars, until_pad_chars, known_sextets_chars by assumption.
    now apply bytes_of_sextets_of_bytes. }
  destruct (length cs mod 4 =? 0)%nat.
  - rewrite <- (app_nil_r cs). apply (Hpad 0%nat).
  - apply Hpad.
Qed.

End Base64Facts.

(** ** The two ladders agree *)

Module Curve25519Facts.
Export Curve25519Terms.

Local Notation "[[ x ]]" := (BigZ.to_Z x) (at level 0, x at level 99).

Lemma pB_spec : [[Fast25519.pB]] = Curve25519.p.
Proof. vm_compute. reflexivity. Qed.

Lemma a24B_spec : [[Fast25519.a24B]] = Curve25519.a24.
Proof. vm_compute. reflexivity. Qed.

Lemma fadd_spec a b : [[Fast25519.fadd a b]] = Curve25519.fadd [[a]] [[b]].
Proof.
  unfold Fast25519.fadd, Curve25519.fadd.
  now rewrite BigZ.spec_modulo, BigZ.spec_add, pB_spec.
Qed.

Lemma fsub_spec a b : [[Fast25519.fsub a b]] = Curve25519.fsub [[a]] [[b]].
Proof.
  unfold Fast25519.fsub, Curve25519.fsub.
  now rewrite BigZ.spec_modulo, BigZ.spec_sub, pB_spec.
Qed.

Lemma fmul_spec a b : [[Fast25519.fmul a b]] = Curve25519.fmul [[a]] [[b]].
Proof.
  unfold Fast25519.fmul, Curve25519.fmul.
  now rewrite BigZ.spec_modulo, BigZ.spec_mul, pB_spec.
Qed.

Create Rewrite HintDb fast25519.
#[local] Hint Rewrite fadd_spec fsub_spec fmul_spec a24B_spec : fast25519.

Lemma pow_mod_spec x e : [[Fast25519.pow_mod x e]] = Curve25519.pow_mod [[x]] e.
Proof.
  induction e as [e IH | e IH |]; cbn [Fast25519.pow_mod Curve25519.pow_mod].
  - now rewrite !fmul_spec, IH.
  - now rewrite fmul_spec, IH.
  - now rewrite BigZ.spec_modulo, pB_spec.
Qed.

Lemma pow_spec x e : Curve25519.pow_mod x e = Fast25519.pow x e.
Proof. unfold Fast25519.pow. now rewrite pow_mod_spec, BigZ.spec_of_Z. Qed.

Lemma ladder_step_spec x1 kt st :
  lift (Fast25519.ladder_step x1 kt st) = Curve25519.ladder_step [[x1]] kt (lift st).
Proof.
  destruct st as [x2 z2 x3 z3 s].
  unfold Fast25519.ladder_step, Curve25519.ladder_step, lift.
  cbn [Fast25519.x2 Fast25519.z2 Fast25519.x3 Fast25519.z3 Fast25519.swap
       Curve25519.x2 Curve25519.z2 Curve25519.x3 Curve25519.z3 Curve25519.swap].
  destruct (xorb s kt); cbn [Curve25519.cswap];
    cbn [Fast25519.x2 Fast25519.z2 Fast25519.x3 Fast25519.z3 Fast25519.swap];
    autorewrite with fast25519; reflexivity.
Qed.

Lemma ladder_spec bits k x1 st :
  lift (Fast25519.ladder bits k x1 st) = Curve25519.ladder bits k [[x1]] (lift st).
Proof.
  revert st. induction bits as [|t IH]; intros st; cbn [Fast25519.ladder Curve25519.ladder].
  - reflexivity.
  - now rewrite IH, ladder_step_spec.
Qed.

Lemma montgomeryLadder_spec u k :
  Curve25519.montgomeryLadder u k = Fast25519.montgomeryLadder u k.
Proof.
  unfold Curve25519.montgomeryLadder, Fast25519.montgomeryLadder.
  set (uB := BigZ.of_Z u).
  assert (H : Curve25519.ladder 255 k u (Curve25519.Ladder 1 0 u 1 false)
              = lift (Fast25519.ladder 255 k uB (Fast25519.Ladder 1%bigZ 0%bigZ uB 1%bigZ false))).
  { rewrite ladder_spec. unfold lift, uB.
    cbn [Fast25519.x2 Fast25519.z2 Fast25519.x3 Fast25519.z3 Fast25519.swap].
    now rewrite BigZ.spec_of_Z. }
  rewrite H.
  destruct (Fast25519.ladder 255 k uB _) as [x2 z2 x3 z3 s].
  unfold lift.
  cbn [Fast25519.x2 Fast25519.z2 Fast25519.x3 Fast25519.z3 Fast25519.swap
       Curve25519.x2 Curve25519.z2 Curve25519.x3 Curve25519.z3 Curve25519.swap].
  destruct s; cbn [Curve25519.cswap]; unfold Curve25519.inv;
    now rewrite fmul_spec, pow_mod_spec.
Qed.

Lemma getSharedSecret_fast priv pub :
  Curve25519.getSharedSecret priv pub = Fast25519.getSharedSecret priv pub.
Proof.
  unfold Curve25519.getSharedSecret, Fast25519.getSharedSecret.
  now rewrite montgomeryLadder_spec.
Qed.

Lemma edwardsToMontgomery_fast pub :
  Curve25519.edwardsToMontgomery pub = Fast25519.edwardsToMontgomery pub.
Proof.
  unfold Curve25519.edwardsToMontgomery, Fast25519.edwardsToMontgomery,
    Curve25519.is_square, Curve25519.inv.
  now rewrite !pow_spec.
Qed.

(** RFC 7748, section 5.2, first test vector. *)
Example x25519_rfc7748 :
  Curve25519.getSharedSecret
    (Bytes.from_hex "a546e36bf0527c9d3b16154b82465edd62144c0ac1fc5a18506a2244ba449ac4")
    (Bytes.from_hex "e6db6867583030db3594c1a424b15f7c726624ec26b3353b10a903a6d0ab1c4c")
  = Ok (Bytes.from_hex "c3da55379de9c6908e94ea4df28d084f32eccf03491c71f754b4075577a28552").
Proof. rewrite getSharedSecret_fast. vm_compute. reflexivity. Qed.

(** The Ed25519 base point has Montgomery u-coordinate 9. *)
Example base_point_to_montgomery :
  Curve25519.edwardsToMontgomery
    (Bytes.from_hex "5866666666666666666666666666666666666666666666666666666666666666")
  = Some (Bytes.le_bytes 32 9).
Proof. rewrite edwardsToMontgomery_fast. vm_compute. reflexivity. Qed.

End Curve25519Facts.

(** ** The shared secret *)

Module KeyExchangeFacts.
Import Bytes BytesFacts SHA2Facts Curve25519Facts KeyExchange.
Export KeyExchangeTerms.

Lemma clamp_low_bits b i : 0 <= i < 3 -> Z.testbit (clamp_low b) i = false.
Proof.
  intros Hi. unfold clamp_low. rewrite Z.land_spec.
  assert (H : i = 0 \/ i = 1 \/ i = 2) by lia.
  destruct H as [-> | [-> | ->]]; apply andb_false_r.
Qed.

Lemma clamp_high_bit7 b : Z.testbit (clamp_high b) 7 = false.
Proof. unfold clamp_high. rewrite Z.lor_spec, Z.land_spec. now rewrite andb_false_r. Qed.

Lemma clamp_high_bit6 b : Z.testbit (clamp_high b) 6 = true.
Proof. unfold clamp_high. rewrite Z.lor_spec. apply orb_true_r. Qed.

Lemma clamp_low_idem b : clamp_low (clamp_low b) = clamp_low b.
Proof.
  unfold clamp_low. apply Z.bits_inj'. intros n _.
  rewrite !Z.land_spec. btauto.
Qed.

Lemma clamp_high_idem b : clamp_high (clamp_high b) = clamp_high b.
Proof.
  unfold clamp_high. apply Z.bits_inj'. intros n _.
  rewrite !Z.lor_spec, !Z.land_spec, !Z.lor_spec, !Z.land_spec. btauto.
Qed.

Lemma adjustScalarBytes_alt k :
  Curve25519.adjustScalarBytes k = alter clamp_high 31%nat (alter clamp_low 0%nat k).
Proof. reflexivity. Qed.

Lemma alter_commute {A} (f g : A -> A) i j (l : list A) :
  i <> j -> alter f i (alter g j l) = alter g j (alter f i l).
Proof.
  intros Hij. apply list_eq. intros n.
  rewrite !list_lookup_alter.
  repeat case_decide; subst; try congruence; now rewrite ?list_lookup_alter_ne by congruence.
Qed.

Lemma alter_alter {A} (f g : A -> A) i (l : list A) :
  alter f i (alter g i l) = alter (fun a => f (g a)) i l.
Proof.
  apply list_eq. intros n.
  rewrite !list_lookup_alter.
  repeat case_decide; subst; try congruence; try reflexivity.
  now destruct (l !! n).
Qed.

Lemma alter_idem {A} (f : A -> A) i (l : list A) :
  (forall a, f (f a) = f a) -> alter f i (alter f i l) = alter f i l.
Proof.
  intros Hf. rewrite alter_alter. apply list_eq. intros n.
  rewrite !list_lookup_alter. case_decide; [| reflexivity].
  destruct (l !! i); simpl; [now rewrite Hf | reflexivity].
Qed.

Lemma adjustScalarBytes_idem k :
  Curve25519.adjustScalarBytes (Curve25519.adjustScalarBytes k) = Curve25519.adjustScalarBytes k.
Proof.
  rewrite !adjustScalarBytes_alt.
  rewrite (alter_commute clamp_low clamp_high 0%nat 31%nat) by lia.
  rewrite (alter_idem clamp_low) by apply clamp_low_idem.
  now rewrite (alter_idem clamp_high) by apply clamp_high_idem.
Qed.

(** The source clamps in three assignments, the library in two. *)
Lemma ed25519PrivateToCurve25519_clamp key :
  ed25519PrivateToCurve25519 key
  = Curve25519.adjustScalarBytes (firstn 32 (SHA2.sha512 (firstn 32 key))).
Proof.
  unfold ed25519PrivateToCurve25519. rewrite adjustScalarBytes_alt.
  now rewrite alter_alter.
Qed.

Lemma length_scalar key : length (ed25519PrivateToCurve25519 key) = 32%nat.
Proof.
  unfold ed25519PrivateToCurve25519.
  rewrite !length_alter, length_firstn, length_sha512. reflexivity.
Qed.

Lemma ed25519PrivateToCurve25519_prefix key :
  ed25519PrivateToCurve25519 (firstn 32 key) = ed25519PrivateToCurve25519 key.
Proof.
  unfold ed25519PrivateToCurve25519. now rewrite firstn_firstn, Nat.min_id.
Qed.

Lemma getSharedSecret_ok priv pub secret :
  Curve25519.getSharedSecret priv pub = Ok secret ->
  length pub = 32%nat /\ length priv = 32%nat
  /\ secret = le_bytes 32 (Curve25519.montgomeryLadder (Curve25519.decodeUCoordinate pub)
                             (Curve25519.decodeScalar priv)).
Proof.
  unfold Curve25519.getSharedSecret.
  set (pu := Curve25519.montgomeryLadder _ _).
  destruct (Nat.eqb_spec (length pub) 32) as [Hpub | _]; cbn [negb]; [| discriminate].
  destruct (Nat.eqb_spec (length priv) 32) as [Hpriv | _]; cbn [negb]; [| discriminate].
  destruct (pu =? 0); [discriminate |].
  intros H. injection H as <-. auto.
Qed.

Lemma getSharedSecret_bad_length priv pub :
  length pub <> 32%nat ->
  Curve25519.getSharedSecret priv pub = Throw (LibraryError "invalid public key length").
Proof.
  intros H. unfold Curve25519.getSharedSecret.
  destruct (Nat.eqb_spec (length pub) 32) as [Hpub | _]; [contradiction | reflexivity].
Qed.

Lemma lookup_scalar key i :
  ed25519PrivateToCurve25519 key !! i
  = if decide (i = 31%nat) then clamp_high <$> SHA2.sha512 (firstn 32 key) !! 31%nat
    else if decide (i = 0%nat) then clamp_low <$> SHA2.sha512 (firstn 32 key) !! 0%nat
    else firstn 32 (SHA2.sha512 (firstn 32 key)) !! i.
Proof.
  rewrite ed25519PrivateToCurve25519_clamp, adjustScalarBytes_alt.
  rewrite !list_lookup_alter.
  repeat case_decide; subst; try congruence; try reflexivity;
    now rewrite (lookup_take_lt _ 32) by lia.
Qed.

(** What [generateSharedKey] returns, case by case: the length of the
    decoded key is the only length that counts, the scalar being 32 bytes
    long whatever the seed. *)
Lemma generateSharedKey_cases keystore routeBotPublicKey :
  let scalar := ed25519PrivateToCurve25519 (from_hex (session_private_key keystore)) in
  let remote := Base64.base64URLDecode routeBotPublicKey in
  let product :=
    Curve25519.montgomeryLadder (Curve25519.decodeUCoordinate remote) (le_int scalar) in
  generateSharedKey keystore routeBotPublicKey
  = if negb (length remote =? 32)%nat then Throw (LibraryError "invalid public key length")
    else if product =? 0 then Throw (LibraryError "invalid private or public key received")
    else Ok (le_bytes 32 product).
Proof.
  intros scalar remote product.
  assert (Hscalar : Curve25519.decodeScalar scalar = le_int scalar).
  { unfold Curve25519.decodeScalar, scalar.
    now rewrite ed25519PrivateToCurve25519_clamp, adjustScalarBytes_idem. }
  unfold generateSharedKey, Curve25519.getSharedSecret.
  fold scalar. fold remote. rewrite Hscalar. fold product.
  destruct (negb (length remote =? 32)%nat); [reflexivity |].
  unfold scalar. now rewrite length_scalar.
Qed.

(** C1 (amended): for every keystore and every counterparty key, the private
    scalar is the first 32 bytes of SHA-512 of the first 32 bytes of the
    seed, with bits 0 to 2 of byte 0 cleared, bit 7 of byte 31 cleared and
    bit 6 of byte 31 set; the counterparty's key, decoded from URL-safe
    Base64, is passed to X25519 as the Montgomery u-coordinate as it is,
    without a conversion from Edwards form.  When the key decodes to 32
    bytes, the result is the 32-byte X25519 product of the two, unless that
    product is zero, where the X25519 call of the library throws; when it
    does not, the call throws as well. *)
Theorem generateSharedKey_derivation (keystore : Keystore) (routeBotPublicKey : string) :
  let seed := from_hex (session_private_key keystore) in
  let digest := SHA2.sha512 (firstn 32 seed) in
  let scalar := ed25519PrivateToCurve25519 seed in
  let remote := Base64.base64URLDecode routeBotPublicKey in
  (length scalar = 32%nat
   /\ scalar !! 0%nat = clamp_low <$> digest !! 0%nat
   /\ scalar !! 31%nat = clamp_high <$> digest !! 31%nat
   /\ (forall i, (0 < i < 31)%nat -> scalar !! i = digest !! i))
  /\ (forall b, (forall i, 0 <= i < 3 -> Z.testbit (clamp_low b) i = false)
                /\ Z.testbit (clamp_high b) 7 = false
                /\ Z.testbit (clamp_high b) 6 = true)
  /\ generateSharedKey keystore routeBotPublicKey = Curve25519.getSharedSecret scalar remote
  /\ (forall secret,
        generateSharedKey keystore routeBotPublicKey = Ok secret ->
        length remote = 32%nat
        /\ length secret = 32%nat
        /\ secret = le_bytes 32 (Curve25519.montgomeryLadder
                                   (Curve25519.decodeUCoordinate remote) (le_int scalar)))
  /\ (length remote = 32%nat ->
      let product :=
        Curve25519.montgomeryLadder (Curve25519.decodeUCoordinate remote) (le_int scalar) in
      generateSharedKey keystore routeBotPublicKey
      = if product =? 0 then Throw (LibraryError "invalid private or public key received")
        else Ok (le_bytes 32 product))
  /\ (length remote <> 32%nat ->
      generateSharedKey keystore routeBotPublicKey
      = Throw (LibraryError "invalid public key length")).
Proof.
  intros seed digest scalar remote.
  split; [| split; [| split; [| split; [| split]]]].
  - split; [apply length_scalar |].
    unfold scalar, digest. rewrite !lookup_scalar.
    split; [| split].
    + now repeat case_decide.
    + now repeat case_decide.
    + intros i Hi. rewrite lookup_scalar. repeat case_decide; try lia.
      now rewrite (lookup_take_lt _ 32) by lia.
  - intros b. split; [apply clamp_low_bits |]. split; [apply clamp_high_bit7 | apply clamp_high_bit6].
  - reflexivity.
  - intros secret Hsecret.
    apply getSharedSecret_ok in Hsecret as (Hremote & _ & ->).
    split; [exact Hremote |]. split; [apply length_le_bytes |].
    unfold Curve25519.decodeScalar.
    now rewrite ed25519PrivateToCurve25519_clamp, adjustScalarBytes_idem.
  - intros Hlen product. rewrite generateSharedKey_cases.
    fold seed. fold scalar. fold remote. fold product.
    now rewrite Hlen.
  - intros Hlen. now apply getSharedSecret_bad_length.
Qed.

(** The key of 32 zero bytes is such a key: the product is zero. *)
Lemma generateSharedKey_zero_key :
  length (Base64.base64URLDecode Samples.zero_key_base64) = 32%nat
  /\ generateSharedKey Samples.keystore Samples.zero_key_base64
     = Throw (LibraryError "invalid private or public key received").
Proof.
  split; [reflexivity |].
  unfold generateSharedKey. rewrite getSharedSecret_fast. vm_compute. reflexivity.
Qed.

(** C1, as stated, fails: on the key pair of RFC 8032 the code's secret is
    not the secret of the derivation that first converts the counterparty's
    Ed25519 point to its Montgomery u-coordinate. *)
Lemma generateSharedKey_skips_point_conversion :
  generateSharedKey Samples.keystore Samples.edwards_key_base64
  = Ok (from_hex "028132c60d93ef376db539e1b83c19c16de432f4bf256ec9546b6ab8a1a2ee59")
  /\ deriveSharedSecret_spec (from_hex (session_private_key Samples.keystore)) Samples.edwards_key
     = Ok (from_hex "022cccd18cdf0c00245beccdc0acb557d2119d28419548e228788b44fe428a36")
  /\ generateSharedKey Samples.keystore Samples.edwards_key_base64
     <> deriveSharedSecret_spec (from_hex (session_private_key Samples.keystore)) Samples.edwards_key.
Proof.
  assert (H1 : generateSharedKey Samples.keystore Samples.edwards_key_base64
               = Ok (from_hex "028132c60d93ef376db539e1b83c19c16de432f4bf256ec9546b6ab8a1a2ee59")).
  { unfold generateSharedKey. rewrite getSharedSecret_fast. vm_compute. reflexivity. }
  assert (H2 : deriveSharedSecret_spec (from_hex (session_private_key Samples.keystore))
                 Samples.edwards_key
               = Ok (from_hex "022cccd18cdf0c00245beccdc0acb557d2119d28419548e228788b44fe428a36")).
  { unfold deriveSharedSecret_spec. rewrite edwardsToMontgomery_fast.
    replace (Fast25519.edwardsToMontgomery Samples.edwards_key)
      with (Some (from_hex "d85e07ec22b0ad881537c2f44d662d1a143cf830c57aca4305d85c7a90f6b62e"))
      by (vm_compute; reflexivity).
    rewrite getSharedSecret_fast. vm_compute. reflexivity. }
  split; [exact H1 |]. split; [exact H2 |].
  rewrite H1, H2. vm_compute. discriminate.
Qed.

(** The second draft of the client hashes the seed with SHA-256, whatever
    its comment says: on the seed of RFC 8032 its scalar is the clamped
    SHA-256 digest, not the scalar of the client. *)
Lemma second_draft_hashes_with_sha256 :
  ed25519PrivateToCurve25519_v2 (from_hex (session_private_key Samples.keystore))
  = from_hex "604d50ab64864c20a12b3c4656d46b4a48f69ef7c47ecdc8415cd28316b22e75"
  /\ ed25519PrivateToCurve25519 (from_hex (session_private_key Samples.keystore))
     = from_hex "307c83864f2833cb427a2ef1c00a013cfdff2768d980c0a3a520f006904de94f".
Proof. vm_compute. split; reflexivity. Qed.

End KeyExchangeFacts.

(** ** Signing *)

Module SigningFacts.
Import Bytes BytesFacts SHA2Facts Base64Facts JS.
Export SigningTerms.

Lemma sign_with_signs key appId method uri body timestamp :
  signs key appId timestamp method uri body
        (Web3Client.sign_with key appId method uri body timestamp).
Proof.
  unfold signs, Web3Client.sign_with, canonical.
  set (digest := SHA2.hmac_sha256 _ _).
  assert (Hb : Forall is_byte (utf8 appId ++ digest)).
  { apply Forall_app. split; [apply utf8_is_bytes | apply hmac_sha256_is_bytes]. }
  split; [reflexivity |].
  rewrite (base64URL_roundtrip _ Hb).
  split; [reflexivity |].
  unfold digest. now rewrite length_app, length_utf8, length_hmac_sha256.
Qed.




End SigningFacts.

(** ** The transport: retries and replies *)

Module TransportFacts.
Import JS Web3Client SigningFacts.
Export TransportTerms.

Ltac break_match :=
  repeat match goal with
         | |- context [match ?x with _ => _ end] => destruct x eqn:?
         end.

Lemma same_route_refl w : same_route w w.
Proof. split; reflexivity. Qed.

Lemma read_session_route outcome w : same_route w (snd (read_session outcome w)).
Proof. unfold read_session. break_match; cbn [snd]; split; reflexivity. Qed.

Lemma fetchUserSession_route userId ks w : same_route w (snd (fetchUserSession userId ks w)).
Proof.
  unfold fetchUserSession. break_match; cbn [snd]; try apply same_route_refl.
  all: match goal with
       | H : read_session ?o ?w1 = (_, ?w2) |- _ =>
           pose proof (read_session_route o w1) as Hr; rewrite H in Hr; cbn [snd] in Hr
       end.
  all: match goal with
       | H : fetch_mixin _ _ = (_, _) |- _ => unfold fetch_mixin in H; injection H as _ <-
       end.
  all: destruct Hr as [Ha Hc]; split; cbn; assumption.
Qed.

Lemma getSharedKey_route c w : same_route w (snd (getSharedKey c w)).
Proof.
  unfold getSharedKey. destruct (sharedKeyPromise c); [apply same_route_refl |].
  pose proof (fetchUserSession_route (clientID c) (keystore c) w) as H.
  destruct (fetchUserSession _ _ w) as [pk w1]. exact H.
Qed.

Lemma signRequest_route c method uri body timestamp w :
  same_route w (snd (signRequest c method uri body timestamp w)).
Proof.
  unfold signRequest.
  pose proof (getSharedKey_route c w) as H.
  destruct (getSharedKey c w) as [[[key | e] c1] w1]; exact H.
Qed.

Lemma doRequest_unfold c method path query body w :
  doRequest c method path query body w
  = let bodyString := match body with Some b => b | None => "" end in
    let timestamp := now w / 1000 in
    match signRequest c method (request_uri path query) bodyString timestamp w with
    | (Throw e, c1, w1) => (Throw e, c1, w1)
    | (Ok signature, c1, w1) =>
        let r := attempts (Z.to_nat (retryCount c + 1)) 0 None c
                          (request_of c method path query body timestamp signature) w1 in
        (fst r, c1, snd r)
    end.
Proof.
  unfold doRequest, request_of.
  destruct (signRequest _ _ _ _ _ _) as [[[sig | e] c1] w1]; [| reflexivity].
  cbv zeta. now destruct (attempts _ _ _ _ _ _).
Qed.

Lemma trace_S c req k :
  trace c req (S k) = Fetched req :: Slept (retryDelay c) :: trace c req k.
Proof. reflexivity. Qed.

Lemma fetch_route_spec req w :
  fetch_route req w
  = (route_api w (route_calls w),
     {| cachedRouteBotPublicKey := cachedRouteBotPublicKey w; now := now w;
        mixin_api := mixin_api w; mixin_calls := mixin_calls w;
        route_api := route_api w; route_calls := S (route_calls w);
        events := events w ++ [Fetched req] |}).
Proof. reflexivity. Qed.

(** The loop, run from iteration [attempt] with as many iterations left as
    the bound allows: it makes between one and [retryCount - attempt + 1]
    requests, all to consecutive replies, and leaves the trace above. *)
Lemma attempts_run c req :
  forall remaining attempt lastError w,
    Z.of_nat remaining = retryCount c + 1 - attempt ->
    (0 < remaining)%nat ->
    let r := attempts remaining attempt lastError c req w in
    exists k,
      (k < remaining)%nat
      /\ route_calls (snd r) = (route_calls w + S k)%nat
      /\ route_api (snd r) = route_api w
      /\ events (snd r) = events w ++ trace c req k
      /\ (forall i, (i < k)%nat ->
            exists e, handle_response (route_api w (route_calls w + i)%nat) = Throw e
                      /\ is_client_error e = false)
      /\ fst r = match handle_response (route_api w (route_calls w + k)%nat) with
                 | Ok v => Ok v
                 | Throw e => Throw e
                 end
      /\ ((forall v, fst r <> Ok v) ->
            (exists e, fst r = Throw e /\ is_client_error e = true) \/ S k = remaining).
Proof.
  induction remaining as [|n IH]; intros attempt lastError w Hn Hpos; [lia |].
  cbn [attempts]. rewrite fetch_route_spec.
  set (w1 := {| cachedRouteBotPublicKey := _ |}).
  assert (Hc1 : route_calls w1 = S (route_calls w)) by reflexivity.
  assert (Ha1 : route_api w1 = route_api w) by reflexivity.
  assert (He1 : events w1 = events w ++ trace c req 0) by reflexivity.
  destruct (handle_response (route_api w (route_calls w))) as [v | e] eqn:Hh.
  - exists 0%nat. cbn [fst snd]. rewrite Nat.add_0_r, Hh.
    split_and!; [lia | lia | assumption | assumption | intros i Hi; lia | reflexivity |].
    intros Hv. now contradiction (Hv v).
  - destruct (is_client_error e) eqn:Hc.
    + exists 0%nat. cbn [fst snd]. rewrite Nat.add_0_r, Hh.
      split_and!; [lia | lia | assumption | assumption | intros i Hi; lia | reflexivity |].
      intros _. left. now exists e.
    + destruct n as [|n'].
      * (* the last iteration *)
        assert (Hlast : (attempt <? retryCount c) = false) by (apply Z.ltb_ge; lia).
        rewrite Hlast. cbn [attempts fst snd].
        exists 0%nat. rewrite Nat.add_0_r, Hh.
        split_and!; [lia | lia | assumption | assumption | intros i Hi; lia | reflexivity |].
        intros _. now right.
      * assert (Hmore : (attempt <? retryCount c) = true) by (apply Z.ltb_lt; lia).
        rewrite Hmore.
        set (w2 := record (Slept (retryDelay c)) w1).
        specialize (IH (attempt + 1) (Some e) w2 ltac:(lia) ltac:(lia)).
        cbv zeta in IH. destruct IH as (k & Hk & Hcalls & Hapi & Hev & Hfail & Hres & Hend).
        exists (S k).
        assert (Hc2 : route_calls w2 = S (route_calls w)) by reflexivity.
        assert (Ha2 : route_api w2 = route_api w) by reflexivity.
        assert (He2 : events w2 = (events w ++ [Fetched req]) ++ [Slept (retryDelay c)])
          by reflexivity.
        split_and!.
        -- lia.
        -- rewrite Hcalls, Hc2. lia.
        -- now rewrite Hapi.
        -- rewrite Hev, He2, trace_S. rewrite <- !app_assoc. reflexivity.
        -- intros i Hi. destruct i as [|i].
           ++ exists e. rewrite Nat.add_0_r. auto.
           ++ destruct (Hfail i ltac:(lia)) as (e' & He' & Hce').
              exists e'. rewrite Ha2, Hc2 in He'.
              replace (route_calls w + S i)%nat with (S (route_calls w) + i)%nat by lia. auto.
        -- rewrite Hres, Ha2, Hc2.
           now replace (route_calls w + S k)%nat with (S (route_calls w) + k)%nat by lia.
        -- intros Hv. destruct (Hend Hv) as [He | He]; [now left | right; lia].
Qed.

Lemma retryable_spec o :
  retryable o = true
  <-> exists e, handle_response o = Throw e /\ is_client_error e = false.
Proof.
  unfold retryable, handle_response.
  destruct o as [m | r].
  - split; [eauto | reflexivity].
  - destruct (negb (response_ok r) || (status r =? 202)) eqn:Herr.
    + destruct (truthy (oget "error" (json r))); cbn [is_client_error statusCode].
      * split; [intros H; eexists; split; [reflexivity |]; cbn; now apply negb_true_iff in H |].
        intros (e & He & Hc). injection He as <-. cbn in Hc. now rewrite Hc.
      * split; [intros H; eexists; split; [reflexivity |]; cbn; now apply negb_true_iff in H |].
        intros (e & He & Hc). injection He as <-. cbn in Hc. now rewrite Hc.
    + destruct (json r) as [v |].
      * split; [discriminate |]. intros (e & He & _). now destruct (get "data" v).
      * split; [eauto | reflexivity].
Qed.

Lemma signRequest_settled c key method uri body timestamp w :
  sharedKeyPromise c = Some (Ok key) ->
  signRequest c method uri body timestamp w
  = (Ok (sign_with key (app_id (keystore c)) method uri body timestamp), c, w).
Proof. intros H. unfold signRequest, getSharedKey. now rewrite H. Qed.

(** What a reply with a status from 500 to 599 leads to. *)
Lemma handle_server_error r :
  500 <= status r <= 599 ->
  exists a, handle_response (Responded r) = Throw (ApiError a)
            /\ statusCode a = status r /\ rawBody a = text r
            /\ is_client_error (ApiError a) = false.
Proof.
  intros Hs. unfold handle_response.
  assert (Hok : response_ok r = false).
  { unfold response_ok. apply andb_false_iff. right. apply Z.leb_gt. lia. }
  rewrite Hok. cbn [negb orb].
  destruct (truthy _); eexists; (split; [reflexivity |]); cbn;
    (split; [reflexivity |]); (split; [reflexivity |]);
    apply andb_false_iff; right; apply Z.ltb_ge; lia.
Qed.

Lemma handle_success r v :
  response_ok r = true -> status r <> 202 -> json r = Some v ->
  handle_response (Responded r) = Ok (match get "data" v with Some d => d | None => v end).
Proof.
  intros Hok Hs Hj. unfold handle_response. rewrite Hok, Hj.
  apply Z.eqb_neq in Hs. rewrite Hs. cbn [negb orb]. now destruct (get "data" v).
Qed.

(** The loop as [doRequest] runs it, once the request is signed. *)
Lemma doRequest_run c method path query body w sig c1 w1 :
  0 <= retryCount c ->
  signRequest c method (request_uri path query) (body_text body) (now w / 1000) w
  = (Ok sig, c1, w1) ->
  exists k res w',
    doRequest c method path query body w = (res, c1, w')
    /\ Z.of_nat k <= retryCount c
    /\ route_calls w' = (route_calls w + S k)%nat
    /\ events w' = events w1
                   ++ trace c (request_of c method path query body (now w / 1000) sig) k
    /\ (forall i, (i < k)%nat -> retryable (route_api w (route_calls w + i)%nat) = true)
    /\ res = handle_response (route_api w (route_calls w + k)%nat)
    /\ ((forall v, res <> Ok v) ->
        (exists e, res = Throw e /\ is_client_error e = true) \/ Z.of_nat k = retryCount c).
Proof.
  intros Hr Hsig.
  pose proof (signRequest_route c method (request_uri path query) (body_text body)
                (now w / 1000) w) as [Hapi Hcalls].
  rewrite Hsig in Hapi, Hcalls. cbn [snd] in Hapi, Hcalls.
  rewrite doRequest_unfold. fold (body_text body). cbv zeta. rewrite Hsig.
  set (req := request_of _ _ _ _ _ _ _).
  destruct (attempts_run c req (Z.to_nat (retryCount c + 1)) 0 None w1 ltac:(lia) ltac:(lia))
    as (k & Hk & Hc & Ha & He & Hfail & Hres & Hend).
  set (r := attempts _ _ _ _ _ _) in *.
  exists k, (fst r), (snd r).
  rewrite Hcalls, Hapi in *.
  split_and!; try assumption; try reflexivity.
  - lia.
  - intros i Hi. apply retryable_spec. now apply Hfail.
  - rewrite Hres. now destruct (handle_response _).
  - intros Hv. destruct (Hend Hv) as [H | H]; [now left | right; lia].
Qed.

(** C3 (amended): with a retry count [r >= 0], a request makes at most
    [r + 1] attempts, with a pause of the same [retryDelay] between any two;
    a reply with a status from 400 to 499 ends the request at once; every
    other failure is followed by another attempt while attempts are left:
    a rejected [fetch] and a 5xx reply, and also a 202 reply, any other
    reply that is not a success, and a success whose body is not JSON.
    With [r = 3], three 5xx replies and then a 2xx reply give the payload
    of the 2xx reply; with [r = 1], two 5xx replies make the request fail
    after two attempts. *)
Theorem retry_policy :
  (forall c method path query body w sig c1 w1,
     0 <= retryCount c ->
     signRequest c method (request_uri path query) (body_text body) (now w / 1000) w
     = (Ok sig, c1, w1) ->
     exists k res w',
       doRequest c method path query body w = (res, c1, w')
       /\ Z.of_nat k <= retryCount c
       /\ route_calls w' = (route_calls w + S k)%nat
       /\ events w' = events w1
                      ++ trace c (request_of c method path query body (now w / 1000) sig) k
       /\ (forall i, (i < k)%nat -> retryable (route_api w (route_calls w + i)%nat) = true)
       /\ res = handle_response (route_api w (route_calls w + k)%nat)
       /\ ((forall v, res <> Ok v) ->
           (exists e, res = Throw e /\ is_client_error e = true) \/ Z.of_nat k = retryCount c))
  /\ (forall o, retryable o = true
                <-> exists e, handle_response o = Throw e /\ is_client_error e = false)
  /\ (forall m, retryable (Rejected m) = true)
  /\ (forall r, 500 <= status r <= 599 -> retryable (Responded r) = true)
  /\ (forall r, 400 <= status r < 500 -> retryable (Responded r) = false)
  /\ (forall r, status r = 202 -> retryable (Responded r) = true)
  /\ (forall c method path query body w sig c1 w1 r1 r2 r3 r4 v,
        retryCount c = 3 ->
        signRequest c method (request_uri path query) (body_text body) (now w / 1000) w
        = (Ok sig, c1, w1) ->
        route_api w (route_calls w) = Responded r1 -> 500 <= status r1 <= 599 ->
        route_api w (route_calls w + 1)%nat = Responded r2 -> 500 <= status r2 <= 599 ->
        route_api w (route_calls w + 2)%nat = Responded r3 -> 500 <= status r3 <= 599 ->
        route_api w (route_calls w + 3)%nat = Responded r4 ->
        response_ok r4 = true -> status r4 <> 202 -> json r4 = Some v ->
        exists w',
          doRequest c method path query body w
          = (Ok (match get "data" v with Some d => d | None => v end), c1, w')
          /\ route_calls w' = (route_calls w + 4)%nat)
  /\ (forall c method path query body w sig c1 w1 r1 r2,
        retryCount c = 1 ->
        signRequest c method (request_uri path query) (body_text body) (now w / 1000) w
        = (Ok sig, c1, w1) ->
        route_api w (route_calls w) = Responded r1 -> 500 <= status r1 <= 599 ->
        route_api w (route_calls w + 1)%nat = Responded r2 -> 500 <= status r2 <= 599 ->
        exists a w',
          doRequest c method path query body w = (Throw (ApiError a), c1, w')
          /\ statusCode a = status r2
          /\ route_calls w' = (route_calls w + 2)%nat).
Proof.
  split_and!.
  - apply doRequest_run.
  - apply retryable_spec.
  - reflexivity.
  - intros r Hs. apply retryable_spec.
    destruct (handle_server_error r Hs) as (a & Ha & _ & _ & Hc). eauto.
  - intros r Hs. unfold retryable.
    assert (Hok : response_ok r = false).
    { unfold response_ok. apply andb_false_iff. right. apply Z.leb_gt. lia. }
    rewrite Hok. cbn [negb orb]. apply negb_false_iff, andb_true_iff.
    split; [apply Z.leb_le | apply Z.ltb_lt]; lia.
  - intros r Hs. unfold retryable. rewrite Hs. cbn [Z.eqb Pos.eqb].
    now rewrite orb_true_r.
  - intros c method path query body w sig c1 w1 r1 r2 r3 r4 v Hr Hsig
           H1 S1 H2 S2 H3 S3 H4 Hok Hs Hj.
    destruct (doRequest_run c method path query body w sig c1 w1 ltac:(lia) Hsig)
      as (k & res & w' & Hdo & Hk & Hcalls & _ & _ & Hres & Hend).
    assert (Hk3 : k = 3%nat).
    { destruct (handle_server_error r1 S1) as (a1 & E1 & _ & _ & C1).
      destruct (handle_server_error r2 S2) as (a2 & E2 & _ & _ & C2).
      destruct (handle_server_error r3 S3) as (a3 & E3 & _ & _ & C3).
      assert (Hcases : (k = 0 \/ k = 1 \/ k = 2 \/ k = 3)%nat) by lia.
      destruct Hcases as [-> | [-> | [-> | ->]]]; [| | | reflexivity]; exfalso.
      - rewrite Nat.add_0_r, H1, E1 in Hres. subst res.
        destruct Hend as [(e & He & Hc) | Hc]; [discriminate | | lia].
        injection He as <-. congruence.
      - rewrite H2, E2 in Hres. subst res.
        destruct Hend as [(e & He & Hc) | Hc]; [discriminate | | lia].
        injection He as <-. congruence.
      - rewrite H3, E3 in Hres. subst res.
        destruct Hend as [(e & He & Hc) | Hc]; [discriminate | | lia].
        injection He as <-. congruence. }
    subst k. rewrite H4, (handle_success r4 v Hok Hs Hj) in Hres. subst res.
    exists w'. split; [exact Hdo | lia].
  - intros c method path query body w sig c1 w1 r1 r2 Hr Hsig H1 S1 H2 S2.
    destruct (doRequest_run c method path query body w sig c1 w1 ltac:(lia) Hsig)
      as (k & res & w' & Hdo & Hk & Hcalls & _ & _ & Hres & Hend).
    destruct (handle_server_error r1 S1) as (a1 & E1 & _ & _ & C1).
    destruct (handle_server_error r2 S2) as (a2 & E2 & A2 & _ & C2).
    assert (Hk1 : k = 1%nat).
    { assert (Hcases : (k = 0 \/ k = 1)%nat) by lia.
      destruct Hcases as [-> | ->]; [exfalso | reflexivity].
      rewrite Nat.add_0_r, H1, E1 in Hres. subst res.
      destruct Hend as [(e & He & Hc) | Hc]; [discriminate | | lia].
      injection He as <-. congruence. }
    subst k. rewrite H2, E2 in Hres. subst res.
    exists a2, w'. split; [exact Hdo |]. split; [exact A2 | lia].
Qed.

Lemma retry_policy_witness :
  exists w',
    doRequest (Samples.settled_client 3) "GET" "/web3/tokens" (Some "source=mixin") None
      (Samples.world [] [Samples.plain_reply 500 "Internal Server Error";
                         Samples.plain_reply 502 "Bad Gateway";
                         Samples.plain_reply 503 "Service Unavailable";
                         Samples.success_reply])
    = (Ok (JString "payload"), Samples.settled_client 3, w')
    /\ route_calls w' = 4%nat.
Proof.
  refine (proj1 (proj2 (proj2 (proj2 (proj2 (proj2 (proj2 retry_policy))))))
            (Samples.settled_client 3) "GET" "/web3/tokens" (Some "source=mixin") None
            (Samples.world [] [Samples.plain_reply 500 "Internal Server Error";
                               Samples.plain_reply 502 "Bad Gateway";
                               Samples.plain_reply 503 "Service Unavailable";
                               Samples.success_reply])
            _ _ _
            {| status := 500; text := "Internal Server Error"; json := None |}
            {| status := 502; text := "Bad Gateway"; json := None |}
            {| status := 503; text := "Service Unavailable"; json := None |}
            {| status := 200;
               text := "{" +:+ Samples.quoted "data" +:+ ":" +:+ Samples.quoted "payload" +:+ "}";
               json := Some (JObject [("data", JString "payload")]) |}
            (JObject [("data", JString "payload")])
            _ _ _ _ _ _ _ _ _ _ _ _).
  - reflexivity.
  - apply signRequest_settled. reflexivity.
  - reflexivity.
  - cbn. lia.
  - reflexivity.
  - cbn. lia.
  - reflexivity.
  - cbn. lia.
  - reflexivity.
  - reflexivity.
  - cbn. lia.
  - reflexivity.
Defined.

(** C3, as stated, fails: with one retry allowed, a 202 reply, which is
    neither a transport failure nor a 5xx reply, is followed by a pause and
    a second attempt, whose payload is returned. *)
Lemma retry_after_accepted :
  exists sig w',
    doRequest (Samples.settled_client 1) "GET" "/web3/quote" None None
      (Samples.world [] [Samples.accepted_reply; Samples.success_reply])
    = (Ok (JString "payload"), Samples.settled_client 1, w')
    /\ route_calls w' = 2%nat
    /\ events w'
       = [Fetched (request_of (Samples.settled_client 1) "GET" "/web3/quote" None None
                              1700000000 sig);
          Slept 1000;
          Fetched (request_of (Samples.settled_client 1) "GET" "/web3/quote" None None
                              1700000000 sig)].
Proof.
  eexists. eexists. vm_compute. split_and!; reflexivity.
Qed.

Lemma unsuccessful_test r :
  unsuccessful r -> negb (response_ok r) || (status r =? 202) = true.
Proof.
  intros [H | H]; [now rewrite H | rewrite H; apply orb_true_r].
Qed.

(** C4 (amended): a success reply whose JSON has a [data] member returns
    that member alone, and any other JSON is returned whole; an unsuccessful
    reply (not 2xx, or 202) whose body is JSON with a truthy [error] member
    is thrown as a [MixinRouteAPIError] with the status, the [code], the
    [description] and [extra.range] of that member, and the raw body in
    [rawBody]; any other unsuccessful reply is thrown as a
    [MixinRouteAPIError] whose message is ["HTTP <status>: <body>"], with
    the status and the raw body and neither code nor description.  With no
    retry configured, that is what the caller of [doRequest] gets. *)
Theorem response_handling :
  (forall r v,
     response_ok r = true -> status r <> 202 -> json r = Some v ->
     handle_response (Responded r)
     = Ok (match get "data" v with Some data => data | None => v end))
  /\ (forall r err,
        unsuccessful r -> oget "error" (json r) = Some err -> truthy (Some err) = true ->
        handle_response (Responded r)
        = Throw (ApiError {| err_message := error_message (get "description" err);
                             statusCode := status r;
                             err_code := get "code" err;
                             description := get "description" err;
                             rawBody := text r;
                             range := oget "range" (get "extra" err) |}))
  /\ (forall r,
        unsuccessful r -> truthy (oget "error" (json r)) = false ->
        handle_response (Responded r)
        = Throw (ApiError {| err_message := "HTTP " +:+ decimal (status r) +:+ ": " +:+ text r;
                             statusCode := status r;
                             err_code := None;
                             description := None;
                             rawBody := text r;
                             range := None |}))
  /\ (forall c method path query body w sig c1 w1,
        retryCount c = 0 ->
        signRequest c method (request_uri path query) (body_text body) (now w / 1000) w
        = (Ok sig, c1, w1) ->
        exists w',
          doRequest c method path query body w
          = (handle_response (route_api w (route_calls w)), c1, w')
          /\ route_calls w' = S (route_calls w)).
Proof.
  split_and!.
  - apply handle_success.
  - intros r err Hu He Ht. unfold handle_response.
    rewrite (unsuccessful_test r Hu), He, Ht. reflexivity.
  - intros r Hu Ht. unfold handle_response.
    rewrite (unsuccessful_test r Hu), Ht. reflexivity.
  - intros c method path query body w sig c1 w1 Hr Hsig.
    destruct (doRequest_run c method path query body w sig c1 w1 ltac:(lia) Hsig)
      as (k & res & w' & Hdo & Hk & Hcalls & _ & _ & Hres & _).
    assert (k = 0%nat) by lia. subst k.
    rewrite Nat.add_0_r in Hres. subst res.
    exists w'. split; [exact Hdo | lia].
Qed.

Lemma response_handling_witness :
  handle_response Samples.accepted_reply
  = Throw (ApiError {| err_message := "pending";
                       statusCode := 202;
                       err_code := Some (JNumber 10615);
                       description := Some (JString "pending");
                       rawBody := "{" +:+ Samples.quoted "error" +:+ ":{" +:+ Samples.quoted "code"
                                  +:+ ":10615," +:+ Samples.quoted "description" +:+ ":"
                                  +:+ Samples.quoted "pending" +:+ "}}";
                       range := None |}).
Proof.
  refine (proj1 (proj2 response_handling) _
            (JObject [("code", JNumber 10615); ("description", JString "pending")]) _ _ _).
  - right. reflexivity.
  - reflexivity.
  - reflexivity.
Defined.

(** C4, as stated, fails: a 500 reply whose body is not an error envelope is
    thrown with the raw body as its message and as its [rawBody], and with
    no code and no description. *)
Lemma raw_body_surfaced :
  exists w',
    doRequest (Samples.settled_client 0) "GET" "/web3/tokens" (Some "source=mixin") None
      (Samples.world [] [Samples.plain_reply 500 "Internal Server Error"])
    = (Throw (ApiError {| err_message := "HTTP 500: Internal Server Error";
                          statusCode := 500;
                          err_code := None;
                          description := None;
                          rawBody := "Internal Server Error";
                          range := None |}),
       Samples.settled_client 0, w').
Proof. eexists. vm_compute. reflexivity. Qed.

(** A failure to sign ends the request before the loop: nothing is sent to
    the Route API and nothing is retried. *)
Lemma doRequest_sign_failure c method path query body w e c1 w1 :
  signRequest c method (request_uri path query) (body_text body) (now w / 1000) w
  = (Throw e, c1, w1) ->
  doRequest c method path query body w = (Throw e, c1, w1)
  /\ route_calls w1 = route_calls w
  /\ route_api w1 = route_api w.
Proof.
  intros Hsig.
  pose proof (signRequest_route c method (request_uri path query) (body_text body)
                (now w / 1000) w) as [Hapi Hcalls].
  rewrite Hsig in Hapi, Hcalls. cbn [snd] in Hapi, Hcalls.
  rewrite doRequest_unfold. fold (body_text body). cbv zeta. rewrite Hsig. auto.
Qed.

(** A rejected promise stays: the next call rejects with the same error and
    does nothing. *)
Lemma getSharedKey_rejected c w e :
  sharedKeyPromise c = Some (Throw e) -> getSharedKey c w = (Throw e, c, w).
Proof. intros H. unfold getSharedKey. now rewrite H. Qed.

Lemma getSharedKey_keeps c w :
  sharedKeyPromise (snd (fst (getSharedKey c w))) = Some (fst (fst (getSharedKey c w))).
Proof.
  unfold getSharedKey. destruct (sharedKeyPromise c) as [r |] eqn:Hp; cbn [fst snd].
  - exact Hp.
  - now destruct (fetchUserSession _ _ _).
Qed.

End TransportFacts.

(** ** Key material of the wrong length, and where keys are kept *)

Module KeyCacheFacts.
Import Bytes BytesFacts Curve25519Facts KeyExchange KeyExchangeFacts Web3Client TransportFacts.

(** C9 (amended): the derivation checks no length itself.  Of the seed only
    the first 32 bytes are read, so two seeds that agree on them give the
    same result, and the seed is never the reason of a failure: the
    derivation fails when the counterparty's key does not decode to 32
    bytes, where the X25519 call of the library throws, or else with the
    error of the library about a product that is zero.  Whatever makes the signing fail, the
    request ends with that error before anything is sent to the Route API,
    and the client keeps the rejected promise, so later requests fail with
    the same error. *)
Theorem key_length_handling :
  (forall keystore keystore' pk,
     firstn 32 (from_hex (session_private_key keystore))
     = firstn 32 (from_hex (session_private_key keystore')) ->
     generateSharedKey keystore pk = generateSharedKey keystore' pk)
  /\ (forall keystore pk e,
        generateSharedKey keystore pk = Throw e ->
        (length (Base64.base64URLDecode pk) <> 32%nat
         /\ e = LibraryError "invalid public key length")
        \/ (length (Base64.base64URLDecode pk) = 32%nat
            /\ Curve25519.montgomeryLadder
                 (Curve25519.decodeUCoordinate (Base64.base64URLDecode pk))
                 (le_int (ed25519PrivateToCurve25519 (from_hex (session_private_key keystore))))
               = 0
            /\ e = LibraryError "invalid private or public key received"))
  /\ (forall keystore pk,
        length (Base64.base64URLDecode pk) <> 32%nat ->
        generateSharedKey keystore pk = Throw (LibraryError "invalid public key length"))
  /\ (forall c method path query body w e c1 w1,
        signRequest c method (request_uri path query) (body_text body) (now w / 1000) w
        = (Throw e, c1, w1) ->
        doRequest c method path query body w = (Throw e, c1, w1)
        /\ route_calls w1 = route_calls w)
  /\ (forall c w e,
        sharedKeyPromise c = Some (Throw e) -> getSharedKey c w = (Throw e, c, w)).
Proof.
  split_and!.
  - intros ks ks' pk H. unfold generateSharedKey.
    rewrite <- (ed25519PrivateToCurve25519_prefix (from_hex (session_private_key ks))).
    rewrite <- (ed25519PrivateToCurve25519_prefix (from_hex (session_private_key ks'))).
    now rewrite H.
  - intros ks pk e. rewrite generateSharedKey_cases. cbv zeta.
    destruct (Nat.eqb_spec (length (Base64.base64URLDecode pk)) 32) as [Hlen | Hlen];
      cbn [negb].
    + destruct (Z.eqb_spec
                  (Curve25519.montgomeryLadder
                     (Curve25519.decodeUCoordinate (Base64.base64URLDecode pk))
                     (le_int (ed25519PrivateToCurve25519 (from_hex (session_private_key ks)))))
                  0) as [Hzero | _]; [| discriminate].
      intros [= <-]. right. auto.
    + intros [= <-]. left. auto.
  - intros ks pk H. unfold generateSharedKey. now apply getSharedSecret_bad_length.
  - intros c method path query body w e c1 w1 H.
    destruct (doRequest_sign_failure c method path query body w e c1 w1 H) as (H1 & H2 & _).
    auto.
  - apply getSharedKey_rejected.
Qed.

Lemma key_length_handling_witness :
  length (Base64.base64URLDecode "AAAA") = 3%nat
  /\ generateSharedKey Samples.keystore "AAAA" = Throw (LibraryError "invalid public key length").
Proof.
  split; [reflexivity |].
  apply (proj1 (proj2 (proj2 key_length_handling))).
  vm_compute. discriminate.
Defined.

(** C9, as stated, fails: a seed of 31 bytes and the Curve25519 base point
    give a secret, not a failure. *)
Lemma short_seed_accepted :
  length (from_hex (session_private_key Samples.short_keystore)) = 31%nat
  /\ length (Base64.base64URLDecode Samples.base_point_base64) = 32%nat
  /\ generateSharedKey Samples.short_keystore Samples.base_point_base64
     = Ok (from_hex "07d87be8df40e94a6788545f9833a5c3641e1cf4ba74ed4d5895512ac04ed927").
Proof.
  split; [reflexivity |]. split; [reflexivity |].
  unfold generateSharedKey. rewrite getSharedSecret_fast. vm_compute. reflexivity.
Qed.

(** Once the module-level key is set, key resolution leaves it as it is. *)
Lemma fetchUserSession_cached userId ks w k :
  cachedRouteBotPublicKey w = Some k ->
  fetchUserSession userId ks w = (Ok (Base64.base64URLEncode k), w).
Proof. intros H. unfold fetchUserSession. now rewrite H. Qed.

(** C10 (amended): the derived secret is kept by the instance: a new client
    has none, and a client whose promise is settled answers from it whatever
    the state of the process.  The counterparty's public key is kept in one
    variable of the module: when it is set, a client without a promise
    derives its secret from its own keystore and that key, sends nothing,
    and leaves the variable as it is.  [RouteAPISigner] keeps its secrets in
    a map of the instance, empty when the signer is made and read before
    anything else. *)
Theorem key_cache_ownership :
  (forall keystore options, sharedKeyPromise (create keystore options) = None)
  /\ (forall c w r, sharedKeyPromise c = Some r -> getSharedKey c w = (r, c, w))
  /\ (forall c w k,
        sharedKeyPromise c = None ->
        cachedRouteBotPublicKey w = Some k ->
        let secret := generateSharedKey (keystore c) (Base64.base64URLEncode k) in
        getSharedKey c w = (secret, with_promise c secret, w))
  /\ (forall keystore, RouteAPISigner.sharedKeyCache (RouteAPISigner.create keystore) = ∅)
  /\ (forall s botUserId cached,
        RouteAPISigner.sharedKeyCache s !! botUserId = Some cached ->
        RouteAPISigner.getSharedKey s botUserId = (Ok cached, s, []))
  /\ (forall s botUserId key s' log,
        RouteAPISigner.getSharedKey s botUserId = (Ok key, s', log) ->
        RouteAPISigner.sharedKeyCache s' !! botUserId = Some key).
Proof.
  split_and!.
  - reflexivity.
  - intros c w r H. unfold getSharedKey. now rewrite H.
  - intros c w k Hp Hk secret. unfold getSharedKey. rewrite Hp.
    now rewrite (fetchUserSession_cached _ _ _ _ Hk).
  - reflexivity.
  - intros s bot cached H. unfold RouteAPISigner.getSharedKey. now rewrite H.
  - intros s bot key s' log. unfold RouteAPISigner.getSharedKey.
    destruct (RouteAPISigner.sharedKeyCache s !! bot) as [cached |] eqn:Hc.
    + intros H. injection H as <- <- <-. exact Hc.
    + destruct (server_public_key _); discriminate.
Qed.

Lemma key_cache_ownership_witness :
  let w := set_cached Samples.edwards_key (Samples.world [] []) in
  let c := create Samples.other_keystore no_options in
  let secret := generateSharedKey Samples.other_keystore
                  (Base64.base64URLEncode Samples.edwards_key) in
  getSharedKey c w = (secret, with_promise c secret, w).
Proof.
  apply (proj1 (proj2 (proj2 key_cache_ownership))); reflexivity.
Defined.

Lemma first_fetch :
  exists w1,
    fetchUserSession MIXIN_ROUTE_CLIENT_ID Samples.keystore
      (Samples.world [Samples.session_reply Samples.edwards_key_base64;
                      Samples.session_reply Samples.base_point_base64] [])
    = (Ok Samples.edwards_key_base64, w1)
    /\ cachedRouteBotPublicKey w1 = Some Samples.edwards_key
    /\ mixin_calls w1 = 1%nat.
Proof. eexists. vm_compute. split_and!; reflexivity. Qed.

Lemma edwards_key_encoded :
  Base64.base64URLEncode Samples.edwards_key = Samples.edwards_key_base64.
Proof. vm_compute. reflexivity. Qed.

(** C10, as stated, fails: after one client has fetched the counterparty's
    key, a client made later for another principal is answered from the
    module-level variable: it sends nothing, although the service would now
    give another key. *)
Lemma second_client_reads_cached_key :
  let w0 := Samples.world [Samples.session_reply Samples.edwards_key_base64;
                           Samples.session_reply Samples.base_point_base64] [] in
  let c1 := create Samples.keystore no_options in
  let c2 := create Samples.other_keystore no_options in
  let secret1 := generateSharedKey Samples.keystore Samples.edwards_key_base64 in
  let secret2 := generateSharedKey Samples.other_keystore Samples.edwards_key_base64 in
  exists w1,
    getSharedKey c1 w0 = (secret1, with_promise c1 secret1, w1)
    /\ cachedRouteBotPublicKey w1 = Some Samples.edwards_key
    /\ mixin_calls w1 = 1%nat
    /\ getSharedKey c2 w1 = (secret2, with_promise c2 secret2, w1).
Proof.
  cbv zeta.
  destruct first_fetch as (w1 & Hf & Hk & Hc).
  exists w1. split_and!; [| exact Hk | exact Hc |].
  - unfold getSharedKey, create. cbn [sharedKeyPromise clientID keystore].
    rewrite Hf. reflexivity.
  - unfold getSharedKey, create. cbn [sharedKeyPromise clientID keystore].
    rewrite (fetchUserSession_cached _ _ _ _ Hk), edwards_key_encoded.
    reflexivity.
Qed.

End KeyCacheFacts.

(** ** Callbacks that run side by side *)

Module FanoutFacts.
Import RouteTypes SwapService Store Fanout.
Export FanoutTerms.


Lemma getSwapQuote_request client i o a :
  exists log, snd (getSwapQuote client i o a) = Network (QuoteCall i o a) :: log.
Proof.
  unfold getSwapQuote. destruct (getQuote client i o a) as [q | e]; [now eexists |].
  destruct (quote_failure e). now eexists.
Qed.

Section Tasks.
Context {Order : Type}.
Variable parseURL : string -> option URL.
Variable client : Client.

Local Abbreviation callback := (callback (Order := Order) parseURL client).
Local Abbreviation launch := (launch (Order := Order) client).
Local Abbreviation resume := (resume (Order := Order) parseURL client).
Local Abbreviation rest_of := (rest_of (Order := Order) parseURL client).
Local Abbreviation deliver := (deliver (Order := Order) parseURL client).
Local Abbreviation all := (all (Order := Order) parseURL client).



Lemma deliver_log acc i : exists es, snd (deliver acc i) = snd acc ++ es.
Proof.
  destruct acc as [pool log]. unfold Fanout.deliver.
  destruct (pool !! i) as [t |]; [| exists []; cbn; now rewrite app_nil_r].
  destruct (resume t) as [t' es]. now exists es.
Qed.



Lemma run_log schedule : forall acc,
  exists es, snd (fold_left deliver schedule acc) = snd acc ++ es.
Proof.
  induction schedule as [| i schedule IH]; intros acc; cbn [fold_left].
  - exists []. now rewrite app_nil_r.
  - destruct (IH (deliver acc i)) as (es & ->).
    destruct (deliver_log acc i) as (es' & ->).
    exists (es' ++ es). now rewrite app_assoc.
Qed.






(** Every callback has made its first request before any reply is
    handled. *)
Lemma all_launched_first schedule jobs :
  exists rest,
    snd (all schedule jobs) = concat (map (fun j => snd (launch j)) jobs) ++ rest.
Proof.
  unfold Fanout.all.
  destruct (run_log schedule
              (map fst (map launch jobs), concat (map snd (map launch jobs)))) as (es & H).
  destruct (fold_left _ _ _) as [pool log]. cbn [fst snd] in *. subst log.
  rewrite map_map. eexists. rewrite <- app_assoc. reflexivity.
Qed.

Lemma launch_request j :
  snd (launch (Some j))
  = [Network (QuoteCall (inputAssetId (params j)) (outputAssetId (params j))
                (inputAmount (params j)))].
Proof. reflexivity. Qed.



End Tasks.


End FanoutFacts.

(** ** Split mode: the orders of the whole-number shares *)

Module SplitFacts.
Import RouteTypes SwapService Store JS SplitSwap.

Lemma totalBuyPercentage_cases st :
  totalBuyPercentage st = 0 \/ totalBuyPercentage st = sum_percentages (buyTokens st).
Proof.
  unfold totalBuyPercentage.
  destruct (selectedAssetId st) as [id |]; [| now left].
  destruct (String.eqb id ""); [now left |].
  destruct (balances st !! id); [now right | now left].
Qed.


(** With the shares at 100 and the source asset in the store, a quote is
    requested for every target. *)
Lemma split_hundred_requests parseURL client referUserId schedule st ks u selected balance bt :
  keystore st = Some ks -> user st = Some u ->
  selectedAssetId st = Some selected -> selected <> "" ->
  balances st !! selected = Some balance ->
  sum_percentages (buyTokens st) = 100 ->
  In bt (buyTokens st) ->
  exists amount,
    In (Network (QuoteCall selected (assetId (token bt)) amount))
       (snd (handleCalculateSwap parseURL client referUserId schedule st)).
Proof.
  intros Hks Hu Hsel Hne Hbal Hsum Hin.
  assert (Hlen : (length (buyTokens st) =? 0)%nat = false).
  { apply Nat.eqb_neq. destruct (buyTokens st); [contradiction | discriminate]. }
  apply String.eqb_neq in Hne.
  assert (Htot : (totalBuyPercentage st =? 100) = true).
  { apply Z.eqb_eq. unfold totalBuyPercentage. now rewrite Hsel, Hne, Hbal. }
  unfold handleCalculateSwap. rewrite Hks, Hu, Hsel, Hne, Hlen, Htot, Hbal. cbn [orb negb].
  set (total := mul _ _).
  destruct (FanoutFacts.all_launched_first parseURL client schedule
              (map (job referUserId u selected total) (buyTokens st))) as (rest & Hrest).
  destruct (Fanout.all parseURL client schedule _) as [results effects].
  cbn [snd] in Hrest. subst effects.
  exists (Number_toString (div (mul total (of_int (percentage bt))) (of_int 100))).
  assert (Hcall : In (Network (QuoteCall selected (assetId (token bt))
                                 (Number_toString
                                    (div (mul total (of_int (percentage bt))) (of_int 100)))))
                     (concat (map (fun j => snd (Fanout.launch client j))
                                (map (job referUserId u selected total) (buyTokens st))))).
  { apply in_concat. eexists. split.
    - rewrite map_map. apply in_map_iff. exists bt. split; [reflexivity | exact Hin].
    - unfold job. rewrite FanoutFacts.launch_request. cbn. left. reflexivity. }
  destruct (0 <? length _)%nat; cbn [snd]; repeat (apply in_or_app; left); exact Hcall.
Qed.

End SplitFacts.

(** ** Split mode: the shares must add up *)

Module SplitSharesFacts.
Import RouteTypes SwapService Store JS SplitShares.
Export ShareTerms.

Lemma total_of_shares st :
  totalBuyPercentage st = of_int 0 \/ totalBuyPercentage st = sum_percentages (buyTokens st).
Proof.
  unfold totalBuyPercentage.
  destruct (selectedAssetId st) as [id |]; [| now left].
  destruct (String.eqb id ""); [now left |].
  destruct (balances st !! id); [now right | now left].
Qed.

(** C5 (amended): in split mode, when the shares of the targets, added as
    binary64 numbers in the order of the list from 0 on, do not give the
    number 100, [handleCalculateSwap] leaves the state as it was, so that
    no order is created, and does nothing else than, at most, show the
    message that the shares must add up to 100%: no request is made. *)
Theorem split_requires_hundred parseURL client referUserId schedule st :
  strict_equal (sum_percentages (buyTokens st)) (of_int 100) = false ->
  fst (handleCalculateSwap parseURL client referUserId schedule st) = st
  /\ (snd (handleCalculateSwap parseURL client referUserId schedule st) = []
      \/ snd (handleCalculateSwap parseURL client referUserId schedule st)
         = [ToastError "买入代币的百分比总和必须为 100%"])
  /\ Forall (fun e => is_network e = false)
       (snd (handleCalculateSwap parseURL client referUserId schedule st)).
Proof.
  intros Hsum.
  assert (Hne : strict_equal (totalBuyPercentage st) (of_int 100) = false).
  { destruct (total_of_shares st) as [H | H]; rewrite H; [reflexivity | exact Hsum]. }
  unfold handleCalculateSwap.
  destruct (keystore st); [| cbn; auto].
  destruct (user st); [| cbn; auto].
  destruct (selectedAssetId st); [| cbn; auto].
  destruct (_ || _); [cbn; auto |].
  rewrite Hne. cbn. split_and!; auto.
Qed.

Lemma split_requires_hundred_witness :
  map (fun bt => exact (percentage bt)) (buyTokens (Samples.share_state "30" "60.5"))
  = [Some 30%Q; Some (121 # 2)%Q]
  /\ handleCalculateSwap Samples.link_parser Samples.route_client None [1; 0]%nat
       (Samples.share_state "30" "60.5")
     = (Samples.share_state "30" "60.5",
        [ToastError "买入代币的百分比总和必须为 100%"]).
Proof.
  split; [vm_compute; reflexivity |].
  destruct (split_requires_hundred Samples.link_parser Samples.route_client None [1; 0]%nat
              (Samples.share_state "30" "60.5") ltac:(vm_compute; reflexivity))
    as (Hstate & _ & _).
  rewrite <- Hstate at 2. vm_compute. reflexivity.
Defined.

(** With a share sum of 100 in binary64 and the source asset in the store,
    a quote is requested for every target. *)
Lemma shares_hundred_requests parseURL client referUserId schedule st ks u selected balance bt :
  keystore st = Some ks -> user st = Some u ->
  selectedAssetId st = Some selected -> selected <> "" ->
  balances st !! selected = Some balance ->
  strict_equal (sum_percentages (buyTokens st)) (of_int 100) = true ->
  In bt (buyTokens st) ->
  exists amount,
    In (Network (QuoteCall selected (assetId (token bt)) amount))
       (snd (handleCalculateSwap parseURL client referUserId schedule st)).
Proof.
  intros Hks Hu Hsel Hne Hbal Hsum Hin.
  assert (Hlen : (length (buyTokens st) =? 0)%nat = false).
  { apply Nat.eqb_neq. destruct (buyTokens st); [contradiction | discriminate]. }
  apply String.eqb_neq in Hne.
  assert (Htot : strict_equal (totalBuyPercentage st) (of_int 100) = true).
  { unfold totalBuyPercentage. now rewrite Hsel, Hne, Hbal. }
  unfold handleCalculateSwap. rewrite Hks, Hu, Hsel, Hne, Hlen, Htot, Hbal. cbn [orb negb].
  set (total := mul _ _).
  destruct (FanoutFacts.all_launched_first parseURL client schedule
              (map (job referUserId u selected total) (buyTokens st))) as (rest & Hrest).
  destruct (Fanout.all parseURL client schedule _) as [results effects].
  cbn [snd] in Hrest. subst effects.
  exists (Number_toString (div (mul total (percentage bt)) (of_int 100))).
  assert (Hcall : In (Network (QuoteCall selected (assetId (token bt))
                                 (Number_toString
                                    (div (mul total (percentage bt)) (of_int 100)))))
                     (concat (map (fun j => snd (Fanout.launch client j))
                                (map (job referUserId u selected total) (buyTokens st))))).
  { apply in_concat. eexists. split.
    - rewrite map_map. apply in_map_iff. exists bt. split; [reflexivity | exact Hin].
    - unfold job. rewrite FanoutFacts.launch_request. cbn. left. reflexivity. }
  destruct (0 <? length _)%nat; cbn [snd]; repeat (apply in_or_app; left); exact Hcall.
Qed.

(** C5, as stated, fails: with 100 and 1e-15 typed into the share inputs,
    the shares of the state add up to more than 100, their binary64 sum is
    100, both quotes are requested and both orders are created. *)
Lemma tiny_share_executed :
  let st := Samples.share_state "100" "1e-15" in
  let after := handleCalculateSwap Samples.link_parser Samples.route_client None [1; 0]%nat st in
  map (fun bt => exact (percentage bt)) (buyTokens st)
  = [Some 100%Q; Some (2535301200456459 # 2535301200456458802993406410752)%Q]
  /\ exact_sum (buyTokens st)
     = Some (253530120045645882834641841531659 # 2535301200456458802993406410752)%Q
  /\ (100 < 253530120045645882834641841531659 # 2535301200456458802993406410752)%Q
  /\ sum_percentages (buyTokens st) = of_int 100
  /\ In (Network (QuoteCall "src" "a" "0.57")) (snd after)
  /\ In (Network (QuoteCall "src" "b" "5.7e-18")) (snd after)
  /\ map SplitSwap.targetAssetId (swapOrders (fst after)) = ["a"; "b"].
Proof.
  cbv zeta. split_and!.
  - vm_compute. reflexivity.
  - vm_compute. reflexivity.
  - reflexivity.
  - vm_compute. reflexivity.
  - vm_compute. tauto.
  - vm_compute. tauto.
  - vm_compute. reflexivity.
Qed.

End SplitSharesFacts.

(** ** Bulk mode: one order for each source asset *)

Module BulkFacts.
Import RouteTypes SwapService Store JS Fanout FanoutFacts BulkSwap.









(** An identifier in the selection for which the store holds no balance
    stands for no source asset: its callback returns at once, without a
    request and without a message. *)
Lemma createOrder_without_balance parseURL client referUserId st u out id :
  balances st !! id = None ->
  createOrder parseURL client referUserId st u out id = (None, []).
Proof. intros H. unfold createOrder, job. now rewrite H. Qed.

End BulkFacts.

(** ** Amounts *)

Module AmountFacts.
Import RouteTypes SwapService Store JS Fanout FanoutFacts.





End AmountFacts.

(** ** Polling for the payments *)

Module PollingFacts.
Import Store BulkSwap Polling.
Export PollingTerms.

Lemma same_view_refl st : same_view st st.
Proof. repeat split. Qed.

Lemma same_view_trans st1 st2 st3 : same_view st1 st2 -> same_view st2 st3 -> same_view st1 st3.
Proof. unfold same_view. intuition congruence. Qed.

Section Ledger.
Variable ledger : nat -> string -> LedgerReply.

(** *** The requests of a round *)

Lemma begin_cases acc order :
  begin ledger acc order = acc
  \/ (isPaid order = false
      /\ pollingFlags (fst acc) !! traceId order <> Some true
      /\ begin ledger acc order
         = ({| swapOrders := swapOrders (fst acc);
               showPaymentModal := showPaymentModal (fst acc);
               pollingFlags := <[traceId order := true]> (pollingFlags (fst acc));
               polling := polling (fst acc); rerender := rerender (fst acc);
               fetches := S (fetches (fst acc));
               effects := effects (fst acc) ++ [LedgerFetch (traceId order)] |},
            snd acc ++ [(order, ledger (fetches (fst acc)) (traceId order))])).
Proof.
  destruct acc as [st pending]. unfold begin. cbn [fst snd].
  destruct (pollingFlags st !! traceId order) as [[|] |] eqn:Hflag; [now left | |];
    (destruct (isPaid order); [now left | right; split_and!; congruence]).
Qed.

Lemma begin_raised acc order :
  isPaid order = false ->
  pollingFlags (fst (begin ledger acc order)) !! traceId order = Some true.
Proof.
  intros Hpaid. destruct (begin_cases acc order) as [H | (_ & _ & H)]; rewrite H; cbn.
  - revert H. destruct acc as [st pending]. unfold begin. cbn.
    destruct (pollingFlags st !! traceId order) as [[|] |]; [reflexivity | |];
      rewrite Hpaid; intros [= H _]; apply (f_equal fetches) in H; cbn in H; lia.
  - apply lookup_insert_eq.
Qed.

Lemma begin_spec acc order :
  exists new,
    snd (begin ledger acc order) = snd acc ++ new
    /\ same_view (fst acc) (fst (begin ledger acc order))
    /\ effects (fst (begin ledger acc order))
       = effects (fst acc) ++ map (fun p => LedgerFetch (trace_of p)) new
    /\ Forall (fun p => exists k, snd p = ledger k (trace_of p)) new
    /\ (forall t, pollingFlags (fst acc) !! t = Some true ->
                  pollingFlags (fst (begin ledger acc order)) !! t = Some true)
    /\ (forall t, is_Some (pollingFlags (fst (begin ledger acc order)) !! t) ->
                  is_Some (pollingFlags (fst acc) !! t) \/ In t (map trace_of new)).
Proof.
  destruct (begin_cases acc order) as [H | (_ & _ & H)]; rewrite H.
  - exists []. rewrite !app_nil_r. split_and!; auto using same_view_refl.
  - exists [(order, ledger (fetches (fst acc)) (traceId order))]. cbn. split_and!; auto.
    + repeat split.
    + constructor; [| constructor]. now eexists.
    + intros t Ht. destruct (decide (t = traceId order)) as [-> | Hne].
      * apply lookup_insert_eq.
      * now rewrite lookup_insert_ne by congruence.
    + intros t Ht. destruct (decide (t = traceId order)) as [-> | Hne].
      * right. left. reflexivity.
      * left. now rewrite lookup_insert_ne in Ht by congruence.
Qed.

Lemma begin_all orders : forall acc,
  exists new,
    snd (fold_left (begin ledger) orders acc) = snd acc ++ new
    /\ same_view (fst acc) (fst (fold_left (begin ledger) orders acc))
    /\ effects (fst (fold_left (begin ledger) orders acc))
       = effects (fst acc) ++ map (fun p => LedgerFetch (trace_of p)) new
    /\ Forall (fun p => exists k, snd p = ledger k (trace_of p)) new
    /\ (forall t, pollingFlags (fst acc) !! t = Some true ->
                  pollingFlags (fst (fold_left (begin ledger) orders acc)) !! t = Some true)
    /\ (forall t, is_Some (pollingFlags (fst (fold_left (begin ledger) orders acc)) !! t) ->
                  is_Some (pollingFlags (fst acc) !! t) \/ In t (map trace_of new))
    /\ (forall o, In o orders -> isPaid o = false ->
                  pollingFlags (fst (fold_left (begin ledger) orders acc)) !! traceId o
                  = Some true).
Proof.
  induction orders as [| order orders IH]; intros acc; cbn [fold_left].
  - exists []. rewrite !app_nil_r. split_and!; auto using same_view_refl. intros o [].
  - destruct (begin_spec acc order) as (new1 & Hp1 & Hv1 & He1 & Hr1 & Hm1 & Hs1).
    destruct (IH (begin ledger acc order)) as (new2 & Hp2 & Hv2 & He2 & Hr2 & Hm2 & Hs2 & Hu2).
    exists (new1 ++ new2). split_and!.
    + now rewrite Hp2, Hp1, app_assoc.
    + eauto using same_view_trans.
    + now rewrite He2, He1, map_app, app_assoc.
    + now apply Forall_app.
    + auto.
    + intros t Ht. rewrite map_app, in_app_iff.
      destruct (Hs2 t Ht) as [H | H]; [destruct (Hs1 t H) |]; auto.
    + intros o [<- | Hin] Hpaid; [| now apply Hu2].
      apply Hm2. now apply begin_raised.
Qed.

(** *** The replies of a round, when none says that a payment is made *)

Lemma finish_unpaid st order reply :
  unpaid reply ->
  same_view st (finish st (order, reply))
  /\ pollingFlags (finish st (order, reply)) = delete (traceId order) (pollingFlags st)
  /\ effects (finish st (order, reply)) = effects st ++ logged order reply.
Proof.
  intros Hunpaid. destruct reply as [state | | status]; cbn.
  - destruct (String.eqb state "spent") eqn:Hstate.
    + apply String.eqb_eq in Hstate. subst state. now destruct Hunpaid.
    + cbn. rewrite app_nil_r. repeat split.
  - rewrite app_nil_r. repeat split.
  - split_and!; try reflexivity; [repeat split |].
    destruct status as [[| p |] |]; try reflexivity.
    repeat (destruct p as [p | p |]; try reflexivity); now rewrite app_nil_r.
Qed.

Lemma logged_console order reply :
  Forall (fun e => match e with Console _ => True | _ => False end) (logged order reply).
Proof.
  destruct reply as [state | | [[| p |] |]]; repeat constructor.
  repeat (destruct p as [p | p |]; repeat constructor).
Qed.

Lemma logged_absent order reply :
  (forall status, reply = LedgerError status -> status = Some 404) ->
  logged order reply = [].
Proof.
  intros H. destruct reply as [state | | status]; try reflexivity.
  now rewrite (H status eq_refl).
Qed.

Lemma finish_all pending : forall st,
  Forall (fun p => unpaid (snd p)) pending ->
  same_view st (fold_left finish pending st)
  /\ (exists log,
        effects (fold_left finish pending st) = effects st ++ log
        /\ Forall (fun e => match e with Console _ => True | _ => False end) log
        /\ (Forall (fun p => forall status, snd p = LedgerError status -> status = Some 404)
              pending -> log = []))
  /\ (forall t, In t (map trace_of pending) ->
                pollingFlags (fold_left finish pending st) !! t = None)
  /\ (forall t, pollingFlags st !! t = None ->
                pollingFlags (fold_left finish pending st) !! t = None).
Proof.
  induction pending as [| [order reply] pending IH]; intros st Hall; cbn [fold_left].
  - split_and!; auto using same_view_refl.
    + exists []. rewrite app_nil_r. auto.
    + intros t [].
  - apply Forall_cons in Hall as [Hunpaid Hall]. cbn [snd] in Hunpaid.
    destruct (finish_unpaid st order reply Hunpaid) as (Hv & Hf & He).
    destruct (IH (finish st (order, reply)) Hall)
      as (Hv' & (log & He' & Hlog & Hquiet) & Hdel & Hnone).
    assert (Hhere : pollingFlags (finish st (order, reply)) !! traceId order = None)
      by (rewrite Hf; apply lookup_delete_eq).
    split_and!.
    + eauto using same_view_trans.
    + exists (logged order reply ++ log). split_and!.
      * now rewrite He', He, <- app_assoc.
      * apply Forall_app. split; [apply logged_console | exact Hlog].
      * intros [Hs Hrest]%Forall_cons. cbn [snd] in Hs.
        now rewrite (logged_absent order reply Hs), (Hquiet Hrest).
    + intros t [<- | Hin]; [now apply Hnone | now apply Hdel].
    + intros t Ht. apply Hnone. rewrite Hf.
      destruct (decide (t = traceId order)) as [-> | Hne];
        [apply lookup_delete_eq | now rewrite lookup_delete_ne by congruence].
Qed.

(** *** A round *)

Lemma fetched_once t new rest :
  In t (map trace_of new) ->
  (1 <= length (List.filter (is_fetch_of t)
                  (map (fun p => LedgerFetch (trace_of p)) new ++ rest)))%nat.
Proof.
  induction new as [| p new IH]; intros Hin; [destruct Hin |].
  cbn [map app List.filter]. destruct Hin as [<- | Hin].
  - cbn [is_fetch_of]. rewrite String.eqb_refl. cbn. lia.
  - destruct (is_fetch_of t _); cbn [length]; [lia | auto].
Qed.

Lemma round_of_failures st :
  (forall k t, unpaid (ledger k t)) ->
  pollingFlags st = ∅ ->
  same_view st (checkAllPayments ledger st)
  /\ pollingFlags (checkAllPayments ledger st) = ∅
  /\ exists log,
       effects (checkAllPayments ledger st) = effects st ++ log
       /\ Forall fetch_or_log log
       /\ ((forall k t status, ledger k t = LedgerError status -> status = Some 404) ->
           Forall fetch_only log)
       /\ forall o, In o (swapOrders st) -> isPaid o = false ->
                    (1 <= length (List.filter (is_fetch_of (traceId o)) log))%nat.
Proof.
  intros Hfail Hclear. unfold checkAllPayments.
  destruct (begin_all (swapOrders st) (st, [])) as (new & Hp & Hv & He & Hr & _ & Hs & Hu).
  destruct (fold_left (begin ledger) _ _) as [st1 pending]. cbn [fst snd app] in *.
  subst pending.
  assert (Hfailures : Forall (fun p => unpaid (snd p)) new).
  { eapply List.Forall_impl; [| exact Hr]. intros p (k & ->). apply Hfail. }
  destruct (finish_all new st1 Hfailures) as (Hv' & (log & He' & Hlog & Hquiet) & Hdel & Hnone).
  assert (Hraised : forall t, is_Some (pollingFlags st1 !! t) -> In t (map trace_of new)).
  { intros t Ht. destruct (Hs t Ht) as [H | H]; [| exact H].
    rewrite Hclear, lookup_empty in H. now destruct H. }
  split_and!.
  - eauto using same_view_trans.
  - apply map_empty. intros t.
    destruct (pollingFlags st1 !! t) as [b |] eqn:Ht; [| now apply Hnone].
    apply Hdel, Hraised. now rewrite Ht.
  - exists (map (fun p => LedgerFetch (trace_of p)) new ++ log). split_and!.
    + now rewrite He', He, app_assoc.
    + apply Forall_app. split.
      * apply List.Forall_forall. intros e (p & <- & _)%in_map_iff. exact I.
      * eapply List.Forall_impl; [| exact Hlog]. now intros [].
    + intros Habsent. rewrite Hquiet, app_nil_r.
      * apply List.Forall_forall. intros e (p & <- & _)%in_map_iff. exact I.
      * eapply List.Forall_impl; [| exact Hr]. intros p (k & ->). apply Habsent.
    + intros o Hin Hpaid. apply fetched_once, Hraised. rewrite (Hu o Hin Hpaid). now eexists.
Qed.

Lemma tick_of_failures st :
  (forall k t, unpaid (ledger k t)) ->
  polling st = true -> rerender st = false ->
  tick ledger st = checkAllPayments ledger st.
Proof.
  intros Hfail Hpolling Hrerender. unfold tick. rewrite Hpolling.
  assert (Hsame : rerender (checkAllPayments ledger st) = false); [| now rewrite Hsame].
  unfold checkAllPayments.
  destruct (begin_all (swapOrders st) (st, [])) as (new & Hp & Hv & _ & Hr & _).
  destruct (fold_left (begin ledger) _ _) as [st1 pending]. cbn [fst snd app] in *.
  subst pending.
  assert (Hfailures : Forall (fun p => unpaid (snd p)) new).
  { eapply List.Forall_impl; [| exact Hr]. intros p (k & ->). apply Hfail. }
  destruct (finish_all new st1 Hfailures) as (Hv' & _).
  destruct Hv as (_ & _ & _ & Hv), Hv' as (_ & _ & _ & Hv'). congruence.
Qed.

End Ledger.

(** C7: while no reply of the ledger says that a payment is made, that
    is while every request fails, with 404 or in any other way, or finds
    nothing spent, each time the interval fires the orders and the modal
    stay as they were and the polling stays on; nothing is shown to the
    user: the only things done are the requests and, for each failure other
    than 404, a line in the console; when the only failures are 404 nothing
    but the requests is done.  And polling goes on: after [n] rounds every
    order not yet paid has been asked about [n] more times. *)
Theorem polling_outlives_failures ledger n st :
  (forall k t, ledger k t <> Transaction "spent") ->
  polling st = true -> rerender st = false -> pollingFlags st = ∅ ->
  swapOrders (ticks ledger n st) = swapOrders st
  /\ showPaymentModal (ticks ledger n st) = showPaymentModal st
  /\ polling (ticks ledger n st) = true
  /\ rerender (ticks ledger n st) = false
  /\ pollingFlags (ticks ledger n st) = ∅
  /\ exists log,
       effects (ticks ledger n st) = effects st ++ log
       /\ Forall (fun e => match e with LedgerFetch _ | Console _ => True | _ => False end) log
       /\ ((forall k t status, ledger k t = LedgerError status -> status = Some 404) ->
           Forall (fun e => match e with LedgerFetch _ => True | _ => False end) log)
       /\ forall o, In o (swapOrders st) -> isPaid o = false ->
                    (n <= length (List.filter (is_fetch_of (traceId o)) log))%nat.
Proof.
  intros Hfail Hpolling Hrerender Hclear.
  induction n as [| n IH].
  - cbn. split_and!; auto. exists []. rewrite app_nil_r. split_and!; auto.
  - destruct IH as (Ho & Hm & Hp & Hr & Hc & log & He & Hlog & Hquiet & Hcount).
    change (ticks ledger (S n) st) with (tick ledger (ticks ledger n st)).
    rewrite (tick_of_failures ledger _ Hfail Hp Hr).
    destruct (round_of_failures ledger _ Hfail Hc)
      as ((Ho' & Hm' & Hp' & Hr') & Hc' & log' & He' & Hlog' & Hquiet' & Hcount').
    split_and!; try congruence.
    exists (log ++ log'). split_and!.
    + now rewrite He', He, app_assoc.
    + apply Forall_app. auto.
    + intros Habsent. apply Forall_app. auto.
    + intros o Hin Hpaid. rewrite List.filter_app, length_app.
      specialize (Hcount o Hin Hpaid). rewrite <- Ho in Hin.
      specialize (Hcount' o Hin Hpaid). lia.
Qed.

Lemma polling_outlives_failures_witness :
  polling (ticks Samples.failing_ledger 2 Samples.polling_state) = true
  /\ swapOrders (ticks Samples.failing_ledger 2 Samples.polling_state)
     = swapOrders Samples.polling_state
  /\ effects (ticks Samples.failing_ledger 2 Samples.polling_state)
     = [LedgerFetch "trace-good"; LedgerFetch "trace-fine";
        Console "Error checking payment for FINE:";
        LedgerFetch "trace-good"; LedgerFetch "trace-fine"].
Proof.
  destruct (polling_outlives_failures Samples.failing_ledger 2 Samples.polling_state)
    as (Horders & _ & Hpolling & _).
  - intros k t. unfold Samples.failing_ledger.
    destruct (String.eqb t "trace-good"); [| destruct (k <? 2)%nat]; discriminate.
  - reflexivity.
  - reflexivity.
  - reflexivity.
  - split_and!; [exact Hpolling | exact Horders | vm_compute; reflexivity].
Defined.

End PollingFacts.

(** ** More on the codecs *)

Module CodecFacts.
Import Bytes BytesFacts Base64 Base64Facts.
Export CodecTerms.

Lemma url_chars_safe :
  forallb (fun s => url_safe (to_url (char_of_sextet s))) (map Z.of_nat (seq 0 64)) = true.
Proof. vm_compute. reflexivity. Qed.

Lemma sextet_url_safe s : is_sextet s -> url_safe (to_url (char_of_sextet s)) = true.
Proof.
  intros Hs. pose proof url_chars_safe as H. rewrite forallb_forall in H.
  apply H, in_map_iff. exists (Z.to_nat s). split; [unfold is_sextet in Hs; lia |].
  apply in_seq. unfold is_sextet in Hs. lia.
Qed.

Lemma length_sextets_of_bytes bs :
  (length (sextets_of_bytes bs) = (4 * length bs + 2) / 3)%nat.
Proof.
  induction bs as [| a | a b | a b c l IH] using list_ind3; try reflexivity.
  change (sextets_of_bytes (a :: b :: c :: l))
    with (a / 4 :: (a mod 4) * 16 + b / 16 :: (b mod 16) * 4 + c / 64 :: c mod 64
          :: sextets_of_bytes l).
  cbn [length]. rewrite IH.
  replace (4 * S (S (S (length l))) + 2)%nat with (4 * 3 + (4 * length l + 2))%nat by lia.
  rewrite (Nat.div_add_l 4 3) by lia. lia.
Qed.

Lemma length_string_of_list_ascii l : String.length (string_of_list_ascii l) = length l.
Proof. induction l as [| c l IH]; cbn; [reflexivity | now rewrite IH]. Qed.

Lemma sextet_of_char_range c s : sextet_of_char c = Some s -> 0 <= s < 64.
Proof.
  unfold sextet_of_char. cbv zeta.
  repeat (match goal with
          | |- context [if ?b then _ else _] => destruct b eqn:?
          end); intros H; inversion H; subst; lia.
Qed.

Lemma known_sextets_range cs : Forall (fun s => 0 <= s < 64) (known_sextets cs).
Proof.
  induction cs as [| c cs IH]; cbn; [constructor |].
  destruct (sextet_of_char c) as [s |] eqn:Hs; [| exact IH].
  constructor; [exact (sextet_of_char_range c s Hs) | exact IH].
Qed.

Lemma bytes_of_sextets_bytes ss :
  Forall (fun s => 0 <= s < 64) ss -> Forall is_byte (bytes_of_sextets ss).
Proof.
  revert ss. fix IH 1. intros [| s0 [| s1 [| s2 [| s3 rest]]]] H; cbn.
  - constructor.
  - constructor.
  - inversion H as [| ? ? H0 Ha]; subst. inversion Ha as [| ? ? H1 _]; subst.
    repeat constructor; unfold is_byte; lia.
  - inversion H as [| ? ? H0 Ha]; subst. inversion Ha as [| ? ? H1 Hb]; subst.
    inversion Hb as [| ? ? H2 _]; subst.
    repeat constructor; unfold is_byte; lia.
  - inversion H as [| ? ? H0 Ha]; subst. inversion Ha as [| ? ? H1 Hb]; subst.
    inversion Hb as [| ? ? H2 Hc]; subst. inversion Hc as [| ? ? H3 Hrest]; subst.
    constructor; [unfold is_byte; lia |].
    constructor; [unfold is_byte; lia |].
    constructor; [unfold is_byte; lia |].
    apply IH, Hrest.
Qed.

(** What [base64URLDecode] gives is made of bytes, whatever the text. *)
Lemma base64URLDecode_bytes s : Forall is_byte (base64URLDecode s).
Proof. unfold base64URLDecode, fromBase64. apply bytes_of_sextets_bytes, known_sextets_range. Qed.

(** X1: [base64URLDecode] undoes [base64URLEncode] on every byte string:
    whatever is encoded is read back as it was, so two byte strings that
    differ are encoded differently.  Decoding never fails: every text,
    with or without padding, with or without characters outside the
    alphabet, gives bytes, and these bytes are those of their own
    encoding. *)
Theorem base64URL_decode_encode :
  (forall bs, Forall is_byte bs -> base64URLDecode (base64URLEncode bs) = bs)
  /\ (forall bs bs',
        Forall is_byte bs -> Forall is_byte bs' ->
        base64URLEncode bs = base64URLEncode bs' -> bs = bs')
  /\ (forall s, Forall is_byte (base64URLDecode s))
  /\ (forall s, base64URLDecode (base64URLEncode (base64URLDecode s)) = base64URLDecode s).
Proof.
  split_and!.
  - apply base64URL_roundtrip.
  - intros bs bs' Hb Hb' He.
    rewrite <- (base64URL_roundtrip bs Hb), <- (base64URL_roundtrip bs' Hb').
    now rewrite He.
  - apply base64URLDecode_bytes.
  - intros s. apply base64URL_roundtrip, base64URLDecode_bytes.
Qed.

Lemma base64URL_decode_encode_witness :
  base64URLDecode (base64URLEncode [251; 255; 0; 62; 1]) = [251; 255; 0; 62; 1].
Proof.
  apply (proj1 base64URL_decode_encode).
  repeat constructor; unfold is_byte; lia.
Defined.

(** X2: the output of [base64URLEncode] is made of letters, digits, [-]
    and [_] only, so it has no [+], no [/] and no padding, and it has
    [ceil(4n/3)] characters for [n] bytes. *)
Theorem base64URLEncode_url_safe bs :
  Forall is_byte bs ->
  forallb url_safe (list_ascii_of_string (base64URLEncode bs)) = true
  /\ String.length (base64URLEncode bs) = ((4 * length bs + 2) / 3)%nat.
Proof.
  intros Hb. pose proof (sextets_are_sextets bs Hb) as Hs.
  unfold base64URLEncode, toBase64, padding.
  rewrite filter_url_chars by assumption.
  rewrite list_ascii_of_string_of_list_ascii. split.
  - rewrite map_map. apply forallb_forall. intros c (s & <- & Hin)%in_map_iff.
    apply sextet_url_safe. rewrite List.Forall_forall in Hs. now apply Hs.
  - rewrite length_string_of_list_ascii, !length_map. apply length_sextets_of_bytes.
Qed.

Lemma base64URLEncode_url_safe_witness :
  forallb url_safe (list_ascii_of_string (base64URLEncode [251; 255; 0; 62; 1])) = true
  /\ String.length (base64URLEncode [251; 255; 0; 62; 1]) = 7%nat.
Proof.
  apply (base64URLEncode_url_safe [251; 255; 0; 62; 1]).
  repeat constructor; unfold is_byte; lia.
Defined.

End CodecFacts.

(** ** Payment links and the swap service *)

Module ServiceFacts.
Import RouteTypes Store SwapService.

Lemma decodeSwapTx_Ok parseURL txUrl url uid amount_ :
  parseURL (replace_first "mixin://" "http://" txUrl) = Some url ->
  nth_error (split "/pay/" (pathname url)) 1 = Some uid -> uid <> "" ->
  JS.assoc "amount" (searchParams url) = Some amount_ -> amount_ <> "" ->
  decodeSwapTx parseURL txUrl
  = Ok {| trace := or_empty (JS.assoc "trace" (searchParams url));
          payee := uid;
          tx_asset := or_empty (JS.assoc "asset" (searchParams url));
          amount := amount_;
          memo := or_empty (JS.assoc "memo" (searchParams url));
          orderId := or_empty (JS.assoc "memo" (searchParams url)) |}.
Proof.
  intros Hurl Huid Hne Hamount Hne'. unfold decodeSwapTx. rewrite Hurl.
  destruct (split "/pay/" (pathname url)) as [| p0 [| uid' rest]]; try discriminate.
  cbn in Huid. injection Huid as ->. cbn [length nth].
  apply String.eqb_neq in Hne. rewrite Hne. cbn. rewrite Hamount.
  destruct amount_; [contradiction | reflexivity].
Qed.

Lemma decodeSwapTx_cases parseURL txUrl :
  (exists url uid amount_,
     parseURL (replace_first "mixin://" "http://" txUrl) = Some url
     /\ nth_error (split "/pay/" (pathname url)) 1 = Some uid /\ uid <> ""
     /\ JS.assoc "amount" (searchParams url) = Some amount_ /\ amount_ <> ""
     /\ decodeSwapTx parseURL txUrl
        = Ok {| trace := or_empty (JS.assoc "trace" (searchParams url));
                payee := uid;
                tx_asset := or_empty (JS.assoc "asset" (searchParams url));
                amount := amount_;
                memo := or_empty (JS.assoc "memo" (searchParams url));
                orderId := or_empty (JS.assoc "memo" (searchParams url)) |})
  \/ (exists reason,
        decodeSwapTx parseURL txUrl = Throw (PlainError ("Failed to decode tx: " +:+ reason))).
Proof.
  unfold decodeSwapTx.
  destruct (parseURL _) as [url |] eqn:Hurl; [| right; now eexists].
  destruct (length (split "/pay/" (pathname url)) <? 2)%nat eqn:Hlen; [right; now eexists |].
  apply Nat.ltb_ge in Hlen.
  destruct (split "/pay/" (pathname url)) as [| p0 [| uid rest]] eqn:Hparts;
    cbn [length] in Hlen; try lia.
  cbn [nth].
  destruct (String.eqb uid "") eqn:Huid; [right; now eexists |].
  apply String.eqb_neq in Huid.
  destruct (JS.assoc "amount" (searchParams url)) as [amount_ |] eqn:Hamount;
    [| right; now eexists].
  destruct amount_ as [| c amount_]; [right; now eexists |].
  left. exists url, uid, (String c amount_). split_and!; auto; try discriminate.
  now rewrite Hparts.
Qed.

(** X3: [decodeSwapTx] returns a payment exactly for a link that the URL
    parser accepts, whose path has a payee after [/pay/] and whose query
    has an amount; the order id is then the memo, and the trace, the asset
    and the memo are read from the query and empty when missing.  Any
    other link makes it throw an error whose message starts with
    [Failed to decode tx: ]. *)
Theorem decodeSwapTx_reads_link parseURL txUrl :
  (forall r,
     decodeSwapTx parseURL txUrl = Ok r <->
     exists url,
       parseURL (replace_first "mixin://" "http://" txUrl) = Some url
       /\ nth_error (split "/pay/" (pathname url)) 1 = Some (payee r) /\ payee r <> ""
       /\ JS.assoc "amount" (searchParams url) = Some (amount r) /\ amount r <> ""
       /\ trace r = or_empty (JS.assoc "trace" (searchParams url))
       /\ tx_asset r = or_empty (JS.assoc "asset" (searchParams url))
       /\ memo r = or_empty (JS.assoc "memo" (searchParams url))
       /\ orderId r = memo r)
  /\ (forall e,
        decodeSwapTx parseURL txUrl = Throw e ->
        exists reason, e = PlainError ("Failed to decode tx: " +:+ reason)).
Proof.
  split.
  - intros r. split.
    + intros Hr.
      destruct (decodeSwapTx_cases parseURL txUrl)
        as [(url & uid & amount_ & Hurl & Huid & Hne & Hamount & Hne' & H) | (reason & H)];
        rewrite H in Hr; [| discriminate].
      injection Hr as <-. exists url. cbn. split_and!; auto.
    + intros (url & Hurl & Huid & Hne & Hamount & Hne' & Ht & Ha & Hm & Ho).
      rewrite (decodeSwapTx_Ok parseURL txUrl url _ _ Hurl Huid Hne Hamount Hne').
      destruct r as [t p a am m o]. cbn in *. congruence.
  - intros e He.
    destruct (decodeSwapTx_cases parseURL txUrl)
      as [(url & uid & amount_ & _ & _ & _ & _ & _ & H) | (reason & H)];
      rewrite H in He; [discriminate |].
    injection He as <-. now eexists.
Qed.

(** X4: [executeSwap] asks for the quote first and sends the order only
    when there is a quote; the order then carries the payload of that quote
    and the amount that was quoted, and nothing else is asked for.  When the
    quote fails nothing is ordered. *)
Theorem executeSwap_cases client params :
  let quote := QuoteCall (inputAssetId params) (outputAssetId params) (inputAmount params) in
  (exists q s,
     getQuote client (inputAssetId params) (outputAssetId params) (inputAmount params) = Ok q
     /\ swap client (swap_request params (payload q)) = Ok s
     /\ req_inputAmount (swap_request params (payload q)) = inputAmount params
     /\ executeSwap client params
        = (Ok (q, s), [Network quote; Network (SwapCall (swap_request params (payload q)))]))
  \/ (exists q e,
        getQuote client (inputAssetId params) (outputAssetId params) (inputAmount params) = Ok q
        /\ swap client (swap_request params (payload q)) = Throw e
        /\ executeSwap client params
           = (Throw e, [Network quote; Network (SwapCall (swap_request params (payload q)));
                        Console "Failed to create swap:"]))
  \/ (exists e e' log,
        getQuote client (inputAssetId params) (outputAssetId params) (inputAmount params)
        = Throw e
        /\ executeSwap client params = (Throw e', Network quote :: log)
        /\ List.filter is_network log = []).
Proof.
  intros quote. unfold executeSwap, getSwapQuote, createSwap.
  destruct (getQuote client _ _ _) as [q | e].
  - destruct (swap client _) as [s | e] eqn:Hs.
    + left. exists q, s. split_and!; auto.
    + right. left. exists q, e. split_and!; auto.
  - right. right. unfold quote_failure.
    destruct (has_code e 10614); [eexists e, _, []; split_and!; reflexivity |].
    destruct (has_code e 10615); [eexists e, _, []; split_and!; reflexivity |].
    destruct (has_code e 10611); [eexists e, _, []; split_and!; reflexivity |].
    eexists e, _, _; split_and!; reflexivity.
Qed.

End ServiceFacts.

(** ** The query of a quote request *)

Module QueryFacts.
Import Bytes BytesFacts JS Web3Client Web3ClientAPI URLSearchParams TransportFacts.
Export QueryTerms.

Lemma hex_digits_spec :
  forallb (fun n => match hexval (hex_digit n) with
                    | Some m => (m =? n) && unreserved (hex_digit n)
                    | None => false
                    end) (map Z.of_nat (seq 0 16)) = true.
Proof. vm_compute. reflexivity. Qed.

Lemma hex_digit_spec n :
  0 <= n < 16 -> hexval (hex_digit n) = Some n /\ unreserved (hex_digit n) = true.
Proof.
  intros Hn. pose proof hex_digits_spec as H. rewrite forallb_forall in H.
  specialize (H n). destruct (hexval (hex_digit n)) as [m |].
  - apply andb_true_iff in H as [Hm Hu].
    + split; [f_equal; lia | exact Hu].
    + apply in_map_iff. exists (Z.to_nat n). split; [lia | apply in_seq; lia].
  - discriminate H. apply in_map_iff. exists (Z.to_nat n). split; [lia | apply in_seq; lia].
Qed.

Lemma hexval_hex_digit n : 0 <= n < 16 -> hexval (hex_digit n) = Some n.
Proof. intros Hn. apply hex_digit_spec, Hn. Qed.

Lemma hex_digit_safe n : 0 <= n < 16 -> unreserved (hex_digit n) = true.
Proof. intros Hn. apply hex_digit_spec, Hn. Qed.

Lemma code_inj a b : code a = code b -> a = b.
Proof. intros H. rewrite <- (chr_code a), <- (chr_code b). now rewrite H. Qed.

Lemma encode_char_safe c : forallb form_safe (encode_char c) = true.
Proof.
  unfold encode_char. pose proof (code_is_byte c) as Hc. unfold is_byte in Hc.
  destruct (unreserved c) eqn:Hu.
  - cbn. unfold form_safe. now rewrite Hu.
  - destruct (code c =? 32); [reflexivity |].
    cbn [forallb]. unfold form_safe at 2 3.
    rewrite !hex_digit_safe by lia. reflexivity.
Qed.

Lemma encode_safe v : forallb form_safe (list_ascii_of_string (encode v)) = true.
Proof.
  unfold encode. rewrite list_ascii_of_string_of_list_ascii.
  induction (list_ascii_of_string v) as [| c cs IH]; [reflexivity |].
  cbn [flat_map]. rewrite forallb_app, encode_char_safe. exact IH.
Qed.

Lemma encode_unreserved v :
  forallb unreserved (list_ascii_of_string v) = true -> encode v = v.
Proof.
  intros H. unfold encode.
  rewrite <- (string_of_list_ascii_of_string v) at 2. f_equal.
  induction (list_ascii_of_string v) as [| c cs IH]; [reflexivity |].
  cbn [forallb] in H. apply andb_true_iff in H as [Hc Hcs].
  cbn [flat_map]. unfold encode_char at 1. rewrite Hc. cbn [app].
  f_equal. apply IH, Hcs.
Qed.

Lemma encode_chars_inj l1 :
  forall l2, flat_map encode_char l1 = flat_map encode_char l2 -> l1 = l2.
Proof.
  assert (Hne : forall c cs, flat_map encode_char (c :: cs) <> []).
  { intros c cs. cbn [flat_map]. unfold encode_char.
    destruct (unreserved c); [discriminate |]. destruct (code c =? 32); discriminate. }
  induction l1 as [| a l1 IH]; intros [| b l2] H.
  - reflexivity.
  - symmetry in H. now apply Hne in H.
  - now apply Hne in H.
  - cbn [flat_map] in H. unfold encode_char in H.
    pose proof (code_is_byte a) as Ha. pose proof (code_is_byte b) as Hb.
    unfold is_byte in Ha, Hb.
    destruct (unreserved a) eqn:Hua, (unreserved b) eqn:Hub.
    + cbn in H. injection H as -> H. f_equal. now apply IH.
    + destruct (code b =? 32); cbn in H; injection H as -> H;
        cbn in Hua; discriminate.
    + destruct (code a =? 32); cbn in H; injection H as <- H;
        cbn in Hub; discriminate.
    + destruct (code a =? 32) eqn:Hsa, (code b =? 32) eqn:Hsb; cbn [app] in H.
      * injection H as H. f_equal; [apply code_inj; lia | now apply IH].
      * discriminate.
      * discriminate.
      * injection H as Hh Hl H.
        apply (f_equal hexval) in Hh, Hl.
        rewrite !hexval_hex_digit in Hh, Hl by lia.
        f_equal; [apply code_inj; injection Hh; injection Hl; lia | now apply IH].
Qed.

Lemma list_ascii_of_string_inj s s' :
  list_ascii_of_string s = list_ascii_of_string s' -> s = s'.
Proof.
  intros H. rewrite <- (string_of_list_ascii_of_string s),
              <- (string_of_list_ascii_of_string s'). now rewrite H.
Qed.

Lemma encode_inj v v' : encode v = encode v' -> v = v'.
Proof.
  unfold encode. intros H. apply list_ascii_of_string_inj, encode_chars_inj.
  apply (f_equal list_ascii_of_string) in H.
  now rewrite !list_ascii_of_string_of_list_ascii in H.
Qed.

Lemma quote_request_uri i o a :
  request_uri "/web3/quote"
    (Some (toString [("inputMint", i); ("outputMint", o); ("amount", a); ("source", "mixin")]))
  = quote_uri i o a.
Proof.
  unfold toString, pair_text, quote_uri. cbn [map join fst snd].
  replace (encode "inputMint") with "inputMint" by reflexivity.
  replace (encode "outputMint") with "outputMint" by reflexivity.
  replace (encode "amount") with "amount" by reflexivity.
  replace (encode "source") with "source" by reflexivity.
  replace (encode "mixin") with "mixin" by reflexivity.
  reflexivity.
Qed.

Lemma forallb_append f (a b : string) :
  forallb f (list_ascii_of_string (a +:+ b))
  = forallb f (list_ascii_of_string a) && forallb f (list_ascii_of_string b).
Proof.
  induction a as [| c a IH]; [reflexivity |].
  change (String c a +:+ b) with (String c (a +:+ b)).
  cbn [list_ascii_of_string forallb]. rewrite <- andb_assoc. f_equal. exact IH.
Qed.

Lemma encode_query_chars v :
  forallb query_char (list_ascii_of_string (encode v)) = true.
Proof.
  pose proof (encode_safe v) as H. rewrite forallb_forall in H |- *.
  intros c Hc. unfold query_char. now rewrite (H c Hc).
Qed.

Lemma quote_query_plain i o a :
  plain_query
    (Some (toString [("inputMint", i); ("outputMint", o); ("amount", a); ("source", "mixin")]))
  = true.
Proof.
  unfold plain_query, toString, pair_text. cbn [map join fst snd].
  rewrite !forallb_append, !encode_query_chars. reflexivity.
Qed.

(** X17: with the base url that the client has when none is given,
    [getQuote] asks for [/web3/quote] with the four parameters [inputMint],
    [outputMint], [amount] and [source=mixin], in this order, each value
    form-encoded; the uri that is signed is the uri that is sent, and no
    body is sent.  The query is one that the url takes as it is: an encoded
    value is made of letters, digits, [*], [-], [.], [_], [+] and [%] only,
    so a value cannot add a parameter; a value made of unreserved
    characters is sent as it is, and two values that differ are sent
    differently. *)
Theorem getQuote_request :
  (forall c inputMint outputMint amount w sig c1 w1,
     baseURL c = MIXIN_ROUTE_API_PREFIX ->
     0 <= retryCount c ->
     signRequest c "GET" (quote_uri inputMint outputMint amount) "" (now w / 1000) w
     = (Ok sig, c1, w1) ->
     exists k res w',
       getQuote c inputMint outputMint amount w = (res, c1, w')
       /\ events w' = events w1
            ++ trace c {| req_method := "GET";
                          req_url := "https://api.route.mixin.one"
                                     +:+ quote_uri inputMint outputMint amount;
                          req_headers := [("Content-Type", "application/json");
                                          ("MR-ACCESS-TIMESTAMP", decimal (now w / 1000));
                                          ("MR-ACCESS-SIGN", sig)];
                          req_body := None |} k)
  /\ (forall inputMint outputMint amount,
        plain_path "/web3/quote" = true
        /\ plain_query
             (Some (toString [("inputMint", inputMint); ("outputMint", outputMint);
                              ("amount", amount); ("source", "mixin")])) = true)
  /\ (forall v, forallb form_safe (list_ascii_of_string (URLSearchParams.encode v)) = true)
  /\ (forall v, forallb unreserved (list_ascii_of_string v) = true ->
                URLSearchParams.encode v = v)
  /\ (forall v v', URLSearchParams.encode v = URLSearchParams.encode v' -> v = v').
Proof.
  split_and!.
  - intros c i o a w sig c1 w1 Hbase Hr Hs.
    unfold getQuote, get_.
    pose proof (doRequest_run c "GET" "/web3/quote"
                  (Some (toString [("inputMint", i); ("outputMint", o); ("amount", a);
                                   ("source", "mixin")])) None w sig c1 w1 Hr) as Hrun.
    unfold request_of in Hrun. rewrite quote_request_uri, Hbase in Hrun.
    destruct (Hrun Hs) as (k & res & w' & Hd & _ & _ & He & _).
    exists k, res, w'. split; [exact Hd | exact He].
  - intros i o a. split; [reflexivity | apply quote_query_plain].
  - apply encode_safe.
  - apply encode_unreserved.
  - apply encode_inj.
Qed.

(** A quote for the amount [1 000&source=x], asked by a client whose key
    is settled, on a network that refuses the connection. *)
Lemma getQuote_request_witness :
  quote_uri "c6d0c728-2624-429b-8e0d-d9d19b6592fa" "out" "1 000&source=x"
  = "/web3/quote?inputMint=c6d0c728-2624-429b-8e0d-d9d19b6592fa&outputMint=out&amount=1+000%26source%3Dx&source=mixin"
  /\ exists k res w',
       getQuote (Samples.settled_client 0) "c6d0c728-2624-429b-8e0d-d9d19b6592fa" "out"
         "1 000&source=x" (Samples.world [] [])
       = (res, Samples.settled_client 0, w')
       /\ events w'
          = events (Samples.world [] [])
            ++ trace (Samples.settled_client 0)
                 {| req_method := "GET";
                    req_url := "https://api.route.mixin.one"
                               +:+ quote_uri "c6d0c728-2624-429b-8e0d-d9d19b6592fa" "out"
                                     "1 000&source=x";
                    req_headers :=
                      [("Content-Type", "application/json");
                       ("MR-ACCESS-TIMESTAMP", decimal (now (Samples.world [] []) / 1000));
                       ("MR-ACCESS-SIGN",
                        sign_with (map Z.of_nat (seq 0 32)) (app_id Samples.keystore) "GET"
                          (quote_uri "c6d0c728-2624-429b-8e0d-d9d19b6592fa" "out"
                             "1 000&source=x") "" 1700000000)];
                    req_body := None |} k.
Proof.
  split; [vm_compute; reflexivity |].
  refine (proj1 getQuote_request (Samples.settled_client 0)
            "c6d0c728-2624-429b-8e0d-d9d19b6592fa" "out" "1 000&source=x"
            (Samples.world [] []) _ (Samples.settled_client 0) (Samples.world [] []) _ _ _).
  - reflexivity.
  - vm_compute. discriminate.
  - reflexivity.
Defined.

End QueryFacts.

(** ** Requests and their signatures *)

Module RequestFacts.
Import Bytes BytesFacts JS Web3Client SigningFacts TransportFacts.

(** X12: with the base url that the client has when none is given, a path
    and a query that the url takes as they are, a request that [doRequest]
    sends carries the signature of what is sent: under the shared key of
    the client, of the method, of the path and query of the url, of the
    body and of the timestamp of the header.  Timestamp and signature are
    made once, before the first attempt: every retry sends the same request
    again. *)
Theorem doRequest_sends_signed_request c method path query body w key c1 w1 :
  baseURL c = MIXIN_ROUTE_API_PREFIX ->
  QueryTerms.plain_path path = true ->
  QueryTerms.plain_query query = true ->
  0 <= retryCount c ->
  getSharedKey c w = (Ok key, c1, w1) ->
  exists sig k res w',
    doRequest c method path query body w = (res, c1, w')
    /\ signs key (app_id (keystore c)) (now w / 1000) method
             (request_uri path query) (body_text body) sig
    /\ (k <= Z.to_nat (retryCount c))%nat
    /\ events w' = events w1
         ++ trace c {| req_method := method;
                       req_url := "https://api.route.mixin.one" +:+ request_uri path query;
                       req_headers := [("Content-Type", "application/json");
                                       ("MR-ACCESS-TIMESTAMP", decimal (now w / 1000));
                                       ("MR-ACCESS-SIGN", sig)];
                       req_body := if String.eqb (body_text body) "" then None
                                   else Some (body_text body) |} k.
Proof.
  intros Hbase _ _ Hr Hk.
  set (sig := sign_with key (app_id (keystore c)) method (request_uri path query)
                (body_text body) (now w / 1000)).
  assert (Hs : signRequest c method (request_uri path query) (body_text body) (now w / 1000) w
               = (Ok sig, c1, w1)).
  { unfold signRequest. now rewrite Hk. }
  destruct (doRequest_run c method path query body w sig c1 w1 Hr Hs)
    as (k & res & w' & Hd & Hle & _ & He & _).
  unfold request_of in He. rewrite Hbase in He.
  exists sig, k, res, w'. split_and!.
  - exact Hd.
  - apply sign_with_signs.
  - lia.
  - exact He.
Qed.

Lemma doRequest_sends_signed_request_witness :
  exists sig k res w',
    doRequest (Samples.settled_client 2) "POST" "/web3/swap" None (Some "{}")
      (Samples.world [] []) = (res, Samples.settled_client 2, w')
    /\ signs (map Z.of_nat (seq 0 32)) (app_id Samples.keystore) 1700000000 "POST"
             "/web3/swap" "{}" sig
    /\ (k <= 2)%nat
    /\ events w' = trace (Samples.settled_client 2)
                     {| req_method := "POST";
                        req_url := "https://api.route.mixin.one/web3/swap";
                        req_headers := [("Content-Type", "application/json");
                                        ("MR-ACCESS-TIMESTAMP", "1700000000");
                                        ("MR-ACCESS-SIGN", sig)];
                        req_body := Some "{}" |} k.
Proof.
  apply (doRequest_sends_signed_request (Samples.settled_client 2) "POST" "/web3/swap" None
           (Some "{}") (Samples.world [] []) (map Z.of_nat (seq 0 32))
           (Samples.settled_client 2) (Samples.world [] [])).
  - reflexivity.
  - reflexivity.
  - reflexivity.
  - vm_compute. discriminate.
  - reflexivity.
Defined.

(** X13: with a retry count below zero the loop has no iteration: when the
    signature is made, the request ends with the error "Request failed" and
    nothing is sent to the Route API. *)
Theorem negative_retry_sends_nothing c method path query body w key c1 w1 :
  retryCount c < 0 ->
  getSharedKey c w = (Ok key, c1, w1) ->
  doRequest c method path query body w = (Throw (PlainError "Request failed"), c1, w1)
  /\ route_calls w1 = route_calls w.
Proof.
  intros Hr Hk. rewrite doRequest_unfold. cbv zeta.
  unfold signRequest. rewrite Hk.
  replace (Z.to_nat (retryCount c + 1)) with 0%nat by lia.
  split; [reflexivity |].
  pose proof (getSharedKey_route c w) as [_ H]. now rewrite Hk in H.
Qed.

Lemma negative_retry_sends_nothing_witness :
  doRequest (Samples.settled_client (-1)) "GET" "/web3/tokens" (Some "source=mixin") None
    (Samples.world [] [Samples.plain_reply 200 "{}"])
  = (Throw (PlainError "Request failed"), Samples.settled_client (-1),
     Samples.world [] [Samples.plain_reply 200 "{}"])
  /\ route_calls (Samples.world [] [Samples.plain_reply 200 "{}"])
     = route_calls (Samples.world [] [Samples.plain_reply 200 "{}"]).
Proof.
  apply (negative_retry_sends_nothing (Samples.settled_client (-1)) "GET" "/web3/tokens"
           (Some "source=mixin") None _ (map Z.of_nat (seq 0 32))).
  - vm_compute. reflexivity.
  - reflexivity.
Defined.

(** X14: the first resolution of the shared key decides for the life of the
    client.  Whatever the first call gave, a key or an error, every later
    signature is made from it and every later key request is answered
    from the instance: nothing is asked again.  After a failure every
    request of the client fails with the same error and sends nothing,
    whatever the services would answer by then. *)
Theorem key_resolved_once c w r c1 w1 :
  getSharedKey c w = (r, c1, w1) ->
  (forall w2, getSharedKey c1 w2 = (r, c1, w2))
  /\ (forall method uri body ts w2,
        signRequest c1 method uri body ts w2
        = (match r with
           | Ok k => Ok (sign_with k (app_id (keystore c)) method uri body ts)
           | Throw e => Throw e
           end, c1, w2))
  /\ (forall e method path query body w2,
        r = Throw e ->
        doRequest c1 method path query body w2 = (Throw e, c1, w2)).
Proof.
  intros H.
  pose proof (getSharedKey_keeps c w) as Hp. rewrite H in Hp. cbn [fst snd] in Hp.
  assert (Hks : keystore c1 = keystore c).
  { unfold getSharedKey in H. destruct (sharedKeyPromise c).
    - now injection H as _ <- _.
    - destruct (fetchUserSession _ _ _). now injection H as _ <- _. }
  assert (Hg : forall w2, getSharedKey c1 w2 = (r, c1, w2)).
  { intros w2. unfold getSharedKey. now rewrite Hp. }
  assert (Hs : forall method uri body ts w2,
             signRequest c1 method uri body ts w2
             = (match r with
                | Ok k => Ok (sign_with k (app_id (keystore c)) method uri body ts)
                | Throw e => Throw e
                end, c1, w2)).
  { intros. unfold signRequest. rewrite Hg, Hks. now destruct r. }
  split_and!; [exact Hg | exact Hs |].
  intros e method path query body w2 ->.
  rewrite doRequest_unfold. cbv zeta. now rewrite Hs.
Qed.

Lemma key_resolved_once_witness :
  let c := create Samples.keystore no_options in
  let c1 := with_promise c (Throw (NetworkError "connection refused")) in
  let w2 := Samples.world [] [Samples.plain_reply 200 "{}"] in
  doRequest c1 "GET" "/web3/tokens" (Some "source=mixin") None w2
  = (Throw (NetworkError "connection refused"), c1, w2).
Proof.
  cbv zeta.
  apply (proj2 (proj2 (key_resolved_once (create Samples.keystore no_options)
                         (Samples.world [] []) (Throw (NetworkError "connection refused"))
                         (with_promise (create Samples.keystore no_options)
                            (Throw (NetworkError "connection refused")))
                         (snd (getSharedKey (create Samples.keystore no_options)
                                 (Samples.world [] [])))
                         eq_refl))).
  reflexivity.
Defined.

End RequestFacts.

(** ** The session key of the counterparty *)

Module SessionFacts.
Import Bytes BytesFacts Base64 Base64Facts CodecFacts KeyExchange Web3Client KeyCacheFacts.

(** X15: once [fetchUserSession] has given a key, in this call or in an
    earlier one, every client made later in the process, whatever its
    keystore, derives its secret from that key and sends nothing; this
    holds as well when the key of the reply is not in canonical form,
    since the bytes kept decode from their own encoding. *)
Theorem session_key_reused userId ks w pk w1 c w2 :
  fetchUserSession userId ks w = (Ok pk, w1) ->
  sharedKeyPromise c = None ->
  cachedRouteBotPublicKey w2 = cachedRouteBotPublicKey w1 ->
  getSharedKey c w2
  = (generateSharedKey (keystore c) pk,
     with_promise c (generateSharedKey (keystore c) pk), w2).
Proof.
  intros Hf Hp Hc.
  assert (Hk : exists k, cachedRouteBotPublicKey w1 = Some k
                         /\ base64URLDecode (base64URLEncode k) = base64URLDecode pk).
  { unfold fetchUserSession in Hf.
    destruct (cachedRouteBotPublicKey w) as [k |] eqn:Hw.
    - injection Hf as <- <-. exists k. split; [exact Hw | reflexivity].
    - destruct (signAuthenticationToken _ _ _ _) as [token | e]; [| discriminate].
      cbv zeta in Hf. destruct (fetch_mixin _ w) as [outcome w'].
      unfold read_session in Hf.
      exists (base64URLDecode pk).
      destruct outcome as [m | r]; [discriminate |].
      destruct (negb (response_ok r)); [discriminate |].
      destruct (json r) as [j |]; [| discriminate].
      destruct j; try discriminate;
        (destruct (_ && _); [discriminate |]);
        (destruct (JS.get "data" _) as [[| | | | [| session rest] |] |]; try discriminate);
        (destruct (_ && _); [| discriminate]);
        (destruct (JS.get "public_key" session) as [[| | | pk' | |] |]; try discriminate);
        injection Hf as <- <-; (split; [reflexivity |]);
        apply base64URL_roundtrip, base64URLDecode_bytes. }
  destruct Hk as (k & Hk & Hd).
  rewrite <- Hc in Hk.
  unfold getSharedKey. rewrite Hp, (fetchUserSession_cached _ _ _ _ Hk).
  unfold generateSharedKey. now rewrite Hd.
Qed.

Lemma session_key_reused_witness :
  let w0 := Samples.world [Samples.session_reply "11qYAYKxCrfVS_7TyWQHOg7hcvPapiMlrwIaaPcHURo="] [] in
  let w1 := snd (fetchUserSession MIXIN_ROUTE_CLIENT_ID Samples.keystore w0) in
  let c := create Samples.other_keystore no_options in
  let secret := generateSharedKey Samples.other_keystore
                  "11qYAYKxCrfVS_7TyWQHOg7hcvPapiMlrwIaaPcHURo=" in
  getSharedKey c w1 = (secret, with_promise c secret, w1).
Proof.
  cbv zeta.
  apply (session_key_reused MIXIN_ROUTE_CLIENT_ID Samples.keystore
           (Samples.world [Samples.session_reply "11qYAYKxCrfVS_7TyWQHOg7hcvPapiMlrwIaaPcHURo="] [])
           "11qYAYKxCrfVS_7TyWQHOg7hcvPapiMlrwIaaPcHURo="
           (snd (fetchUserSession MIXIN_ROUTE_CLIENT_ID Samples.keystore
                   (Samples.world
                      [Samples.session_reply "11qYAYKxCrfVS_7TyWQHOg7hcvPapiMlrwIaaPcHURo="] [])))).
  - vm_compute. reflexivity.
  - reflexivity.
  - reflexivity.
Defined.

(** X21: [fetchUserSession] sends at most one request, to the session
    service, and never anything to the Route API.  With a key in the
    module-level variable it sends nothing and returns the encoding of that
    key.  Without one, a success comes from exactly one request and leaves
    the decoded key in the variable; a failure leaves the variable empty,
    and is logged once when a request was sent (it is not when the token
    could not be made, and then nothing is sent). *)
Theorem fetchUserSession_outcomes userId ks w :
  let r := fst (fetchUserSession userId ks w) in
  let w1 := snd (fetchUserSession userId ks w) in
  route_calls w1 = route_calls w
  /\ match cachedRouteBotPublicKey w with
     | Some k => r = Ok (base64URLEncode k) /\ w1 = w
     | None =>
         match r with
         | Ok pk =>
             cachedRouteBotPublicKey w1 = Some (base64URLDecode pk)
             /\ mixin_calls w1 = S (mixin_calls w)
             /\ exists req, events w1 = events w ++ [Fetched req]
                            /\ req_url req = "https://api.mixin.one/sessions/fetch"
         | Throw e =>
             cachedRouteBotPublicKey w1 = None
             /\ ((mixin_calls w1 = mixin_calls w /\ events w1 = events w)
                 \/ (mixin_calls w1 = S (mixin_calls w)
                     /\ exists req,
                          events w1 = events w
                                      ++ [Fetched req; ConsoleError "fetchUserSession failed"]
                          /\ req_url req = "https://api.mixin.one/sessions/fetch"))
         end
     end.
Proof.
  cbv zeta.
  split; [apply (TransportFacts.fetchUserSession_route userId ks w) |].
  unfold fetchUserSession.
  destruct (cachedRouteBotPublicKey w) as [k |] eqn:Hw; [split; reflexivity |].
  destruct (signAuthenticationToken _ _ _ _) as [token | e]; cbn [fst snd];
    [| split; [exact Hw | left; split; reflexivity]].
  cbv zeta. unfold fetch_mixin.
  set (req := {| req_method := "POST"; req_url := _; req_headers := _; req_body := _ |}).
  set (w' := {| cachedRouteBotPublicKey := cachedRouteBotPublicKey w; now := now w;
                mixin_api := mixin_api w; mixin_calls := S (mixin_calls w);
                route_api := route_api w; route_calls := route_calls w;
                events := events w ++ [Fetched req] |}).
  assert (Hthrow :
            cachedRouteBotPublicKey (record (ConsoleError "fetchUserSession failed") w') = None
            /\ ((mixin_calls (record (ConsoleError "fetchUserSession failed") w') = mixin_calls w
                 /\ events (record (ConsoleError "fetchUserSession failed") w') = events w)
                \/ (mixin_calls (record (ConsoleError "fetchUserSession failed") w')
                    = S (mixin_calls w)
                    /\ exists req0,
                         events (record (ConsoleError "fetchUserSession failed") w')
                         = events w ++ [Fetched req0; ConsoleError "fetchUserSession failed"]
                         /\ req_url req0 = "https://api.mixin.one/sessions/fetch"))).
  { split; [exact Hw |]. right. split; [reflexivity |].
    exists req. split; [| reflexivity]. cbn. now rewrite <- app_assoc. }
  unfold read_session.
  destruct (mixin_api w (mixin_calls w)) as [m | r]; cbn [fst snd]; [exact Hthrow |].
  destruct (negb (response_ok r)); cbn [fst snd]; [exact Hthrow |].
  destruct (json r) as [j |]; cbn [fst snd]; [| exact Hthrow].
  destruct j; cbn [fst snd]; try exact Hthrow;
    (destruct (_ && _); cbn [fst snd]; [exact Hthrow |]);
    (destruct (JS.get "data" _) as [[| | | | [| session rest] |] |]; cbn [fst snd];
       try exact Hthrow);
    (destruct (_ && _); cbn [fst snd]; [| exact Hthrow]);
    (destruct (JS.get "public_key" session) as [[| | | pk | |] |]; cbn [fst snd];
       try exact Hthrow);
    (split_and!; [reflexivity | reflexivity | exists req; split; reflexivity]).
Qed.

Lemma fetchUserSession_outcomes_witness :
  cachedRouteBotPublicKey
    (snd (fetchUserSession Web3Client.MIXIN_ROUTE_CLIENT_ID Samples.keystore
            (Samples.world [Samples.plain_reply 500 "oops"] [])))
  = None.
Proof.
  pose proof (fetchUserSession_outcomes Web3Client.MIXIN_ROUTE_CLIENT_ID Samples.keystore
                (Samples.world [Samples.plain_reply 500 "oops"] [])) as H.
  cbv zeta in H. destruct H as (_ & H).
  change (cachedRouteBotPublicKey (Samples.world [Samples.plain_reply 500 "oops"] []))
    with (@None (list Z)) in H.
  replace (fst (fetchUserSession Web3Client.MIXIN_ROUTE_CLIENT_ID Samples.keystore
                  (Samples.world [Samples.plain_reply 500 "oops"] [])))
    with (@Throw string (PlainError "HTTP 500: oops")) in H by (vm_compute; reflexivity).
  exact (proj1 H).
Defined.

End SessionFacts.

(** ** The signer *)

Module RouteSignerFacts.
Import RouteAPISigner.
Export RouteSignerTerms.






End RouteSignerFacts.

(** ** The targets of a split and their shares *)

Module SplitTargetsFacts.
Import RouteTypes Store JS SplitSwap SplitTargets.
Export SplitTargetsTerms.

Lemma sum_from l : forall a,
  fold_left (fun sum bt => sum + percentage bt) l a = a + sum_percentages l.
Proof.
  unfold sum_percentages.
  induction l as [| bt l IH]; intros a; cbn [fold_left]; [lia |].
  rewrite IH, (IH (0 + percentage bt)). lia.
Qed.

Lemma sum_percentages_cons bt l :
  sum_percentages (bt :: l) = percentage bt + sum_percentages l.
Proof. unfold sum_percentages at 1. cbn [fold_left]. rewrite sum_from. lia. Qed.

Lemma distribute_cons bt l :
  distribute (bt :: l)
  = {| token := token bt;
       percentage := 100 / Z.of_nat (S (length l))
                     + (100 - 100 / Z.of_nat (S (length l)) * Z.of_nat (S (length l)));
       price := price bt |}
    :: map (fun x => {| token := token x;
                        percentage := 100 / Z.of_nat (S (length l));
                        price := price x |}) l.
Proof.
  unfold distribute. cbn [length]. rewrite imap_cons. cbn [Nat.eqb]. f_equal.
  erewrite imap_ext; [apply imap_const |].
  intros i x _. cbn. now rewrite Z.add_0_r.
Qed.

Lemma sum_equal_shares q l :
  sum_percentages
    (map (fun x => {| token := token x; percentage := q; price := price x |}) l)
  = q * Z.of_nat (length l).
Proof.
  induction l as [| bt l IH]; [cbn; lia |].
  cbn [map]. rewrite sum_percentages_cons, IH. cbn [percentage length]. nia.
Qed.

Lemma distribute_sum l : l <> [] -> sum_percentages (distribute l) = 100.
Proof.
  destruct l as [| bt l]; [contradiction | intros _].
  rewrite distribute_cons, sum_percentages_cons, sum_equal_shares. cbn [percentage].
  rewrite Nat2Z.inj_succ. nia.
Qed.

Lemma distribute_tokens l : map token (distribute l) = map token l.
Proof.
  destruct l as [| bt l]; [reflexivity |].
  rewrite distribute_cons. cbn [map token]. f_equal.
  rewrite map_map. reflexivity.
Qed.

Lemma distribute_prices l : map price (distribute l) = map price l.
Proof.
  destruct l as [| bt l]; [reflexivity |].
  rewrite distribute_cons. cbn [map price]. f_equal.
  rewrite map_map. reflexivity.
Qed.

Lemma distribute_range l :
  Forall (fun bt => 0 <= percentage bt <= 100) (distribute l).
Proof.
  destruct l as [| bt l]; [constructor |].
  rewrite distribute_cons.
  set (n := Z.of_nat (S (length l))).
  assert (Hn : 1 <= n) by (unfold n; lia).
  assert (Hq : 0 <= 100 / n) by (apply Z.div_pos; lia).
  assert (Hle : 100 / n * n <= 100) by (rewrite Z.mul_comm; apply Z.mul_div_le; lia).
  assert (Hup : 100 / n <= 100) by (apply Z.div_le_upper_bound; nia).
  constructor.
  - cbn [percentage]. nia.
  - apply List.Forall_forall. intros x (y & <- & _)%in_map_iff. cbn [percentage]. lia.
Qed.

(** X5: the automatic distribution gives shares that add up to exactly
    100, each between 0 and 100, and leaves the targets and their prices as
    they were: so do [handleAutoDistribute] on a list that is not empty,
    [handleRemoveBuyToken] when a target is left, and [handleAddBuyToken]
    when it adds the target, whatever the list has become while the price
    was asked for. *)
Theorem shares_add_up :
  (forall st,
     buyTokens st <> [] ->
     sum_percentages (buyTokens (handleAutoDistribute st)) = 100
     /\ Forall (fun bt => 0 <= percentage bt <= 100) (buyTokens (handleAutoDistribute st))
     /\ map token (buyTokens (handleAutoDistribute st)) = map token (buyTokens st)
     /\ map price (buyTokens (handleAutoDistribute st)) = map price (buyTokens st))
  /\ (forall id st,
        buyTokens (handleRemoveBuyToken id st) <> [] ->
        sum_percentages (buyTokens (handleRemoveBuyToken id st)) = 100
        /\ Forall (fun bt => 0 <= percentage bt <= 100) (buyTokens (handleRemoveBuyToken id st)))
  /\ (forall current_price token_ st later,
        refused token_ st = None ->
        let after := fst (handleAddBuyToken (Ok current_price) token_ st later) in
        sum_percentages (buyTokens after) = 100
        /\ Forall (fun bt => 0 <= percentage bt <= 100) (buyTokens after)
        /\ map token (buyTokens after) = map token (buyTokens later) ++ [token_]).
Proof.
  split_and!.
  - intros st Hne. unfold handleAutoDistribute.
    destruct (buyTokens st) as [| bt l] eqn:Hl; [contradiction |].
    cbn [length Nat.eqb buyTokens with_buyTokens].
    split_and!; auto using distribute_sum, distribute_range, distribute_tokens, distribute_prices.
  - intros id st. unfold handleRemoveBuyToken. cbn [buyTokens with_buyTokens].
    destruct (List.filter _ _) as [| bt l]; [contradiction |].
    cbn [length Nat.eqb]. intros _.
    split; auto using distribute_sum, distribute_range.
  - intros current_price token_ st later Hfree. cbv zeta.
    unfold handleAddBuyToken. rewrite Hfree. cbn [fst buyTokens with_buyTokens].
    split_and!.
    + apply distribute_sum. now destruct (buyTokens later).
    + apply distribute_range.
    + now rewrite distribute_tokens, map_app.
Qed.

Lemma shares_add_up_witness :
  sum_percentages
    (buyTokens (handleAutoDistribute
                  (Samples.split_state [("a", 30); ("b", 60); ("c", 5)]))) = 100.
Proof.
  apply (proj1 shares_add_up). discriminate.
Defined.

(** X6: after [handleAutoDistribute], [handleCalculateSwap] is not
    stopped by the check of the shares: with a keystore, a user and a
    source asset that the store holds, it requests a quote for every
    target, whatever the shares were before. *)
Theorem distribute_then_calculate parseURL client referUserId schedule st ks u selected balance bt :
  keystore st = Some ks -> user st = Some u ->
  selectedAssetId st = Some selected -> selected <> "" ->
  balances st !! selected = Some balance ->
  In bt (buyTokens st) ->
  exists amount,
    In (Network (QuoteCall selected (assetId (token bt)) amount))
       (snd (handleCalculateSwap parseURL client referUserId schedule (handleAutoDistribute st))).
Proof.
  intros Hks Hu Hsel Hne Hbal Hin.
  assert (Hl : buyTokens st <> []) by (destruct (buyTokens st); [contradiction | discriminate]).
  assert (Hst : handleAutoDistribute st = with_buyTokens st (distribute (buyTokens st))).
  { unfold handleAutoDistribute. destruct (buyTokens st); [contradiction | reflexivity]. }
  assert (Hsum : sum_percentages (buyTokens (handleAutoDistribute st)) = 100)
    by (rewrite Hst; apply distribute_sum, Hl).
  assert (Htokens : map token (buyTokens (handleAutoDistribute st)) = map token (buyTokens st))
    by (rewrite Hst; apply distribute_tokens).
  assert (Hin' : In (token bt) (map token (buyTokens (handleAutoDistribute st)))).
  { rewrite Htokens. now apply in_map. }
  apply in_map_iff in Hin' as (bt' & Heq & Hin').
  rewrite <- Heq.
  apply (SplitFacts.split_hundred_requests parseURL client referUserId schedule
           (handleAutoDistribute st) ks u selected balance bt'); auto;
    rewrite Hst; assumption.
Qed.

Lemma distribute_then_calculate_witness :
  exists amount,
    In (Network (QuoteCall "src" "b" amount))
       (snd (handleCalculateSwap Samples.link_parser Samples.route_client None [1; 0]%nat
               (handleAutoDistribute (Samples.split_state [("a", 30); ("b", 60)])))).
Proof.
  apply (distribute_then_calculate Samples.link_parser Samples.route_client None [1; 0]%nat
           (Samples.split_state [("a", 30); ("b", 60)]) Samples.keystore
           {| user_id := "payer" |} "src" (Samples.balance_of "0.57" "SRC")
           {| token := Samples.token_of "b"; percentage := 60; price := of_int 1 |}).
  - reflexivity.
  - reflexivity.
  - reflexivity.
  - discriminate.
  - vm_compute. reflexivity.
  - right. left. reflexivity.
Defined.

Lemma target_ids_tokens st st' :
  map token (buyTokens st') = map token (buyTokens st) -> target_ids st' = target_ids st.
Proof.
  unfold target_ids. intros H.
  rewrite <- (map_map token assetId), H. apply map_map.
Qed.

Lemma refused_None st token_ :
  refused token_ st = None ->
  ~ In (assetId token_) (target_ids st) /\ selectedAssetId st <> Some (assetId token_).
Proof.
  unfold refused.
  destruct (existsb _ _) eqn:Hdup; [discriminate |].
  destruct (selectedAssetId st) as [selected |] eqn:Hsel.
  - destruct (String.eqb selected (assetId token_)) eqn:Hsame; [discriminate |].
    intros _. split.
    + intros (bt & Hbt & Hin)%in_map_iff.
      assert (Hex : existsb (fun bt => String.eqb (assetId (token bt)) (assetId token_))
                      (buyTokens st) = true).
      { apply existsb_exists. exists bt. split; [exact Hin | now apply String.eqb_eq]. }
      congruence.
    + apply String.eqb_neq in Hsame. congruence.
  - intros _. split; [| discriminate].
    intros (bt & Hbt & Hin)%in_map_iff.
    assert (Hex : existsb (fun bt => String.eqb (assetId (token bt)) (assetId token_))
                    (buyTokens st) = true).
    { apply existsb_exists. exists bt. split; [exact Hin | now apply String.eqb_eq]. }
    congruence.
Qed.

Lemma added_target_ids current_price token_ st later :
  refused token_ st = None ->
  target_ids (fst (handleAddBuyToken (Ok current_price) token_ st later))
  = target_ids later ++ [assetId token_].
Proof.
  intros Hfree. unfold handleAddBuyToken. rewrite Hfree. cbn [fst].
  unfold target_ids. cbn [buyTokens with_buyTokens].
  rewrite <- (map_map token assetId), distribute_tokens, map_map, map_app. reflexivity.
Qed.

(** X7: the targets stay distinct as long as no two additions overlap.
    When no two targets are the same asset, [handleAddBuyToken] on the
    state it was called in adds an asset only when it is not yet a target
    and not the asset that is sold, at the end of the list;
    [handleRemoveBuyToken] removes the asset it is given and keeps the
    order of the others; changing a share or distributing the shares
    leaves the list of targets as it is.  The checks of an addition are
    made before the price is asked for: when the same asset is added again
    while the first addition waits for its price, both pass and the asset
    is a target twice. *)
Theorem targets_stay_distinct st :
  List.NoDup (target_ids st) ->
  (forall info token_,
     List.NoDup (target_ids (fst (handleAddBuyToken info token_ st st)))
     /\ (target_ids (fst (handleAddBuyToken info token_ st st)) = target_ids st
         \/ (target_ids (fst (handleAddBuyToken info token_ st st))
             = target_ids st ++ [assetId token_]
             /\ selectedAssetId st <> Some (assetId token_))))
  /\ (forall id,
        List.NoDup (target_ids (handleRemoveBuyToken id st))
        /\ target_ids (handleRemoveBuyToken id st)
           = List.filter (fun x => negb (String.eqb x id)) (target_ids st)
        /\ ~ In id (target_ids (handleRemoveBuyToken id st)))
  /\ (forall id share, target_ids (handleUpdatePercentage id share st) = target_ids st)
  /\ target_ids (handleAutoDistribute st) = target_ids st
  /\ (forall price1 price2 token_,
        refused token_ st = None ->
        let first := fst (handleAddBuyToken (Ok price1) token_ st st) in
        target_ids (fst (handleAddBuyToken (Ok price2) token_ st first))
        = target_ids st ++ [assetId token_; assetId token_]).
Proof.
  intros Hnodup. split_and!.
  - intros info token_.
    destruct (refused token_ st) as [message |] eqn:Hfree.
    + unfold handleAddBuyToken. rewrite Hfree. cbn [fst]. auto.
    + destruct (refused_None st token_ Hfree) as (Hnew & Hsell).
      destruct info as [current_price | e].
      * rewrite (added_target_ids current_price token_ st st Hfree).
        split; [| right; split; [reflexivity | exact Hsell]].
        apply List.NoDup_app; [exact Hnodup | repeat constructor; intros [] |].
        intros x Hx [<- | []]. contradiction.
      * unfold handleAddBuyToken. rewrite Hfree. cbn [fst]. auto.
  - intros id.
    assert (Hids : target_ids (handleRemoveBuyToken id st)
                   = List.filter (fun x => negb (String.eqb x id)) (target_ids st)).
    { unfold handleRemoveBuyToken, target_ids. cbn [buyTokens with_buyTokens].
      set (filtered := List.filter _ (buyTokens st)).
      assert (Hf : map (fun bt => assetId (token bt)) filtered
                   = List.filter (fun x => negb (String.eqb x id))
                       (map (fun bt => assetId (token bt)) (buyTokens st))).
      { unfold filtered. induction (buyTokens st) as [| bt l IH]; [reflexivity |].
        cbn [List.filter map]. destruct (negb _); cbn [map]; now rewrite IH. }
      rewrite <- Hf.
      destruct filtered as [| bt l]; [reflexivity |].
      cbn [length Nat.eqb].
      rewrite <- (map_map token assetId), distribute_tokens. apply map_map. }
    rewrite Hids. split_and!; [| reflexivity |].
    + now apply List.NoDup_filter.
    + intros (_ & H)%filter_In. now rewrite String.eqb_refl in H.
  - intros id share. apply target_ids_tokens. unfold handleUpdatePercentage.
    cbn [buyTokens with_buyTokens]. rewrite map_map. apply map_ext.
    intros bt. now destruct (String.eqb _ _).
  - apply target_ids_tokens. unfold handleAutoDistribute.
    destruct (length (buyTokens st) =? 0)%nat; [reflexivity |].
    cbn [buyTokens with_buyTokens]. apply distribute_tokens.
  - intros price1 price2 token_ Hfree. cbv zeta.
    rewrite (added_target_ids price2 token_ st _ Hfree).
    rewrite (added_target_ids price1 token_ st st Hfree).
    now rewrite <- app_assoc.
Qed.

Lemma targets_stay_distinct_witness :
  target_ids (fst (handleAddBuyToken (Ok (Some "2.5")) (Samples.token_of "c")
                     (Samples.split_state [("a", 30); ("b", 60)])
                     (Samples.split_state [("a", 30); ("b", 60)])))
  = ["a"; "b"; "c"]
  /\ target_ids (fst (handleAddBuyToken (Ok (Some "2.5")) (Samples.token_of "b")
                        (Samples.split_state [("a", 30); ("b", 60)])
                        (Samples.split_state [("a", 30); ("b", 60)])))
     = ["a"; "b"]
  /\ target_ids (handleRemoveBuyToken "a" (Samples.split_state [("a", 30); ("b", 60)]))
     = ["b"].
Proof.
  assert (Hnodup : List.NoDup (target_ids (Samples.split_state [("a", 30); ("b", 60)]))).
  { repeat constructor; cbn; intuition discriminate. }
  destruct (targets_stay_distinct _ Hnodup) as (Hadd & Hremove & _).
  split_and!.
  - destruct (Hadd (Ok (Some "2.5")) (Samples.token_of "c")) as (_ & [H | (H & _)]);
      [vm_compute in H; discriminate | rewrite H; reflexivity].
  - destruct (Hadd (Ok (Some "2.5")) (Samples.token_of "b")) as (_ & [H | (H & _)]);
      [rewrite H; reflexivity | vm_compute in H; discriminate].
  - destruct (Hremove "a") as (_ & H & _). rewrite H. reflexivity.
Defined.

End SplitTargetsFacts.

(** ** Split mode: one order for each target *)

Module SplitRunFacts.
Import RouteTypes SwapService Store JS Fanout FanoutFacts SplitSwap.




End SplitRunFacts.

(** ** The selection of the bulk panel *)

Module BulkSelectionFacts.
Import RouteTypes Store JS BulkSwap BulkSelection.
Export BulkSelectionTerms.

Lemma has_In ids id : has ids id = true <-> In id ids.
Proof.
  unfold has. rewrite existsb_exists. split.
  - intros (x & Hin & ->%String.eqb_eq). exact Hin.
  - intros Hin. exists id. split; [exact Hin | apply String.eqb_refl].
Qed.

Lemma delete_In ids id x : In x (delete ids id) <-> In x ids /\ x <> id.
Proof.
  unfold delete. rewrite filter_In, negb_true_iff, String.eqb_neq. intuition congruence.
Qed.

Lemma well_selected_delete st id :
  well_selected st -> well_selected (with_selection st (delete (selectedAssetIds st) id)).
Proof.
  intros (Hnodup & Hbal & Hout). unfold well_selected. cbn. split_and!.
  - now apply List.NoDup_filter.
  - apply List.Forall_forall. intros x (Hx & _)%delete_In.
    rewrite List.Forall_forall in Hbal. now apply Hbal.
  - intros out Ho (Hx & _)%delete_In. now apply (Hout out).
Qed.

(** X9: the handlers keep the selection sound.  If no asset is selected
    twice, every selected asset has a balance in the store and the target
    is not selected, the same holds after [handleToggleAsset] and after
    [setOutputToken] with its effect; an asset without a balance, or the
    target itself, is never added.  For such a selection every callback of
    [handleCalculateSwap] has a balance to work on: none returns at
    once. *)
Theorem selection_stays_sound st :
  well_selected st ->
  (forall id, well_selected (fst (handleToggleAsset id st)))
  /\ (forall token_, well_selected (fst (setOutputToken token_ st)))
  /\ (forall id, balances st !! id = None -> handleToggleAsset id st = (st, []))
  /\ (forall referUserId u out id,
        In id (selectedAssetIds st) -> job referUserId st u out id <> None).
Proof.
  intros Hsound. pose proof Hsound as (Hnodup & Hbal & Hout). split_and!.
  - intros id. unfold handleToggleAsset.
    destruct (balances st !! id) as [balance |] eqn:Hb; [| exact Hsound].
    destruct (lt _ _); [exact Hsound |].
    destruct (outputToken st) as [out |] eqn:Ho.
    + destruct (String.eqb id (assetId out)) eqn:Hsame; [exact Hsound |].
      apply String.eqb_neq in Hsame.
      destruct (has (selectedAssetIds st) id) eqn:Hhas; cbn [fst];
        [now apply well_selected_delete |].
      unfold add. rewrite Hhas. unfold well_selected. cbn. rewrite Ho. split_and!.
      * apply List.NoDup_app; [exact Hnodup | repeat constructor; intros [] |].
        intros x Hx [<- | []]. apply has_In in Hx. congruence.
      * apply Forall_app. split; [exact Hbal | repeat constructor; now exists balance].
      * intros out' [= <-] [Hin | [Heq | []]]%in_app_or; [now apply (Hout out) | congruence].
    + destruct (has (selectedAssetIds st) id) eqn:Hhas; cbn [fst];
        [now apply well_selected_delete |].
      unfold add. rewrite Hhas. unfold well_selected. cbn. rewrite Ho. split_and!.
      * apply List.NoDup_app; [exact Hnodup | repeat constructor; intros [] |].
        intros x Hx [<- | []]. apply has_In in Hx. congruence.
      * apply Forall_app. split; [exact Hbal | repeat constructor; now exists balance].
      * discriminate.
  - intros token_. unfold setOutputToken. cbn [selectedAssetIds with_outputToken].
    destruct (outputToken st) as [out |] eqn:Ho.
    + destruct (String.eqb (assetId out) (assetId token_)) eqn:Hsame; cbn [negb andb fst].
      * apply String.eqb_eq in Hsame. unfold well_selected. cbn. split_and!; auto.
        intros out' [= <-]. rewrite <- Hsame. now apply Hout.
      * destruct (has (selectedAssetIds st) (assetId token_)) eqn:Hhas; cbn [fst].
        -- unfold well_selected. cbn. split_and!.
           ++ now apply List.NoDup_filter.
           ++ apply List.Forall_forall. intros x (Hx & _)%delete_In.
              rewrite List.Forall_forall in Hbal. now apply Hbal.
           ++ intros out' [= <-] (_ & Hx)%delete_In. now apply Hx.
        -- unfold well_selected. cbn. split_and!; auto.
           intros out' [= <-] Hin%has_In. congruence.
    + cbn [andb]. destruct (has (selectedAssetIds st) (assetId token_)) eqn:Hhas; cbn [fst].
      * unfold well_selected. cbn. split_and!.
        -- now apply List.NoDup_filter.
        -- apply List.Forall_forall. intros x (Hx & _)%delete_In.
           rewrite List.Forall_forall in Hbal. now apply Hbal.
        -- intros out' [= <-] (_ & Hx)%delete_In. now apply Hx.
      * unfold well_selected. cbn. split_and!; auto.
        intros out' [= <-] Hin%has_In. congruence.
  - intros id Hb. unfold handleToggleAsset. now rewrite Hb.
  - intros referUserId u out id Hin. rewrite List.Forall_forall in Hbal.
    destruct (Hbal id Hin) as (balance & Hb). unfold job. now rewrite Hb.
Qed.

Lemma selection_stays_sound_witness :
  selectedAssetIds (fst (handleToggleAsset "broken" Samples.bulk_state)) = ["good"; "fine"]
  /\ well_selected (fst (handleToggleAsset "broken" Samples.bulk_state)).
Proof.
  split; [vm_compute; reflexivity |].
  apply (proj1 (selection_stays_sound Samples.bulk_state ltac:(
    split_and!;
    [ repeat constructor; cbn; intuition discriminate
    | repeat constructor; eexists; vm_compute; reflexivity
    | intros out [= <-]; cbn; intuition discriminate ]))).
Defined.

End BulkSelectionFacts.

(** ** The state of the orders, asked for by hand *)

Module BulkStatusFacts.
Import Store BulkSwap BulkStatus.
Export BulkStatusTerms.

Lemma arrival_NoDup schedule n : List.NoDup (arrival schedule n).
Proof.
  unfold arrival. cbv zeta.
  set (first := nodup Nat.eq_dec _).
  apply List.NoDup_app.
  - apply List.NoDup_nodup.
  - apply List.NoDup_filter, List.seq_NoDup.
  - intros i Hi (_ & Hf)%filter_In.
    apply negb_true_iff in Hf.
    assert (Hex : existsb (Nat.eqb i) first = true).
    { apply existsb_exists. exists i. split; [exact Hi | apply Nat.eqb_refl]. }
    congruence.
Qed.

Lemma arrival_all schedule n i : In i (arrival schedule n) <-> (i < n)%nat.
Proof.
  unfold arrival. cbv zeta.
  set (first := nodup Nat.eq_dec _).
  rewrite in_app_iff, filter_In, in_seq. split.
  - intros [Hi | [Hi _]]; [| lia].
    unfold first in Hi. apply nodup_In, filter_In in Hi as [_ Hi].
    now apply Nat.ltb_lt in Hi.
  - intros Hi. destruct (existsb (Nat.eqb i) first) eqn:Hex.
    + left. apply existsb_exists in Hex as (j & Hj & Heq).
      apply Nat.eqb_eq in Heq. now subst.
    + right. split; [lia | reflexivity].
Qed.

Lemma partly_nil replies orders : partly replies [] orders = orders.
Proof. unfold partly. cbn. induction orders as [| o l IH] using rev_ind; [reflexivity |].
  rewrite imap_app. cbn. now rewrite IH. Qed.

Lemma order_id_answered reply o : order_id (answered reply o) = order_id o.
Proof. now destruct reply. Qed.

Lemma lookup_partly replies done orders j :
  partly replies done orders !! j
  = (fun o => if existsb (Nat.eqb j) done then answered (replies j) o else o) <$> orders !! j.
Proof. unfold partly. apply list_lookup_imap. Qed.

Lemma ids_partly replies done orders :
  map order_id (partly replies done orders) = map order_id orders.
Proof.
  apply list_eq. intros j. rewrite !list_lookup_fmap, lookup_partly.
  destruct (orders !! j) as [o |]; [| reflexivity]. cbn.
  destruct (existsb _ done); [now rewrite order_id_answered | reflexivity].
Qed.

Lemma settle_spec orderId_ reply st :
  settle orderId_ reply st
  = (with_orders st (map (fun o => if String.eqb (order_id o) orderId_
                                   then answered reply o else o) (swapOrders st)),
     snd (fst (settle orderId_ reply st)),
     success reply).
Proof.
  destruct reply as [state | e]; cbn.
  - reflexivity.
  - assert (Hmap : map (fun o => if String.eqb (order_id o) orderId_ then o else o)
                     (swapOrders st) = swapOrders st).
    { rewrite <- (map_id (swapOrders st)) at 2. apply map_ext. intros o.
      now destruct (String.eqb _ _). }
    rewrite Hmap. now destruct st.
Qed.

Lemma NoDup_lookup_inj (ids : list string) i j x :
  List.NoDup ids -> ids !! i = Some x -> ids !! j = Some x -> i = j.
Proof.
  intros Hnodup Hi Hj. apply NoDup_ListNoDup in Hnodup.
  exact (NoDup_lookup ids i j x Hnodup Hi Hj).
Qed.

Section Run.
Variable replies : nat -> result (option string).
Variable st : State.
Hypothesis distinct : List.NoDup (map order_id (swapOrders st)).

Local Abbreviation ids := (map order_id (swapOrders st)).

(** Replies arrive for the requests [todo], after those for [done]. *)
Lemma deliver_run todo : forall done st1 log results,
  List.NoDup (done ++ todo) ->
  (forall i, In i todo -> (i < length ids)%nat) ->
  swapOrders st1 = partly replies done (swapOrders st) ->
  length results = length ids ->
  (forall i, results !! i
             = (fun _ => if existsb (Nat.eqb i) done then success (replies i) else false)
               <$> ids !! i) ->
  let after := fold_left (deliver replies ids) todo (st1, log, results) in
  swapOrders (fst (fst after)) = partly replies (done ++ todo) (swapOrders st)
  /\ (forall i, snd after !! i
                = (fun _ => if existsb (Nat.eqb i) (done ++ todo)
                            then success (replies i) else false) <$> ids !! i)
  /\ (exists shown, snd (fst after) = log ++ shown
                    /\ Forall (fun a => match a with OrderStatusCall _ => False | _ => True end)
                         shown)
  /\ keystore (fst (fst after)) = keystore st1
  /\ showPaymentModal (fst (fst after)) = showPaymentModal st1
  /\ selectedAssetIds (fst (fst after)) = selectedAssetIds st1
  /\ balances (fst (fst after)) = balances st1
  /\ user (fst (fst after)) = user st1
  /\ outputToken (fst (fst after)) = outputToken st1
  /\ swapPercentage (fst (fst after)) = swapPercentage st1
  /\ isCalculating (fst (fst after)) = isCalculating st1.
Proof.
  induction todo as [| i todo IH]; intros done st1 log results Hnodup Hlt Horders Hlen Hres;
    cbv zeta; cbn [fold_left].
  - rewrite app_nil_r. cbn [fst snd]. split_and!; auto.
    exists []. rewrite app_nil_r. split; [reflexivity | constructor].
  - assert (Hi : (i < length ids)%nat) by (apply Hlt; now left).
    destruct (lookup_lt_is_Some_2 ids i Hi) as (orderId_ & Hid).
    set (st2 := with_orders st1
                  (map (fun o => if String.eqb (order_id o) orderId_
                                 then answered (replies i) o else o) (swapOrders st1))).
    set (shown1 := snd (fst (settle orderId_ (replies i) st1))).
    assert (Hstep : deliver replies ids (st1, log, results) i
                    = (st2, log ++ shown1, <[i := success (replies i)]> results)).
    { unfold deliver. rewrite Hid, settle_spec. reflexivity. }
    rewrite Hstep.
    assert (Hfresh : ~ In i done).
    { pose proof (List.NoDup_remove _ _ _ Hnodup) as [_ Hn].
      intros Hin. apply Hn, in_or_app. now left. }
    assert (Horders2 : swapOrders st2 = partly replies (done ++ [i]) (swapOrders st)).
    { unfold st2. cbn [swapOrders with_orders]. rewrite Horders.
      apply list_eq. intros j. rewrite list_lookup_fmap, !lookup_partly.
      destruct (swapOrders st !! j) as [o |] eqn:Ho; [| reflexivity]. cbn.
      rewrite existsb_app. cbn [existsb]. rewrite orb_false_r.
      assert (Hidj : ids !! j = Some (order_id o)).
      { change ((order_id <$> swapOrders st) !! j = Some (order_id o)).
        now rewrite list_lookup_fmap, Ho. }
      destruct (Nat.eqb j i) eqn:Hji.
      - apply Nat.eqb_eq in Hji. subst j.
        assert (Hnot : existsb (Nat.eqb i) done = false).
        { apply not_true_iff_false. intros (k & Hk & Heq)%existsb_exists.
          apply Nat.eqb_eq in Heq. now subst. }
        rewrite Hnot. cbn [orb].
        assert (order_id o = orderId_) by congruence. subst orderId_.
        now rewrite String.eqb_refl.
      - rewrite orb_false_r.
        assert (Hne : String.eqb
                        (order_id (if existsb (Nat.eqb j) done
                                   then answered (replies j) o else o)) orderId_ = false).
        { apply String.eqb_neq. intros Heq.
          assert (Hid' : order_id o = orderId_).
          { destruct (existsb _ done); [now rewrite order_id_answered in Heq | exact Heq]. }
          apply Nat.eqb_neq in Hji. apply Hji.
          apply (NoDup_lookup_inj ids j i orderId_ distinct); congruence. }
        now rewrite Hne. }
    assert (Hres2 : forall j, <[i := success (replies i)]> results !! j
                              = (fun _ => if existsb (Nat.eqb j) (done ++ [i])
                                          then success (replies j) else false) <$> ids !! j).
    { intros j. rewrite existsb_app. cbn [existsb]. rewrite orb_false_r.
      destruct (decide (j = i)) as [-> | Hne].
      - rewrite list_lookup_insert_eq by lia.
        rewrite Hid, Nat.eqb_refl, orb_true_r. reflexivity.
      - rewrite list_lookup_insert_ne by congruence.
        rewrite Hres. apply Nat.eqb_neq in Hne. now rewrite Hne, orb_false_r. }
    destruct (IH (done ++ [i]) st2 (log ++ shown1) (<[i := success (replies i)]> results))
      as (Ho & Hr & (shown & Hs & Hcalls) & Hk & Hm & Hsel & Hb & Hu & Hout & Hpct & Hcalc).
    + now rewrite <- app_assoc.
    + intros k Hk. apply Hlt. now right.
    + exact Horders2.
    + now rewrite length_insert.
    + exact Hres2.
    + rewrite <- app_assoc in Ho, Hr. cbn [app] in Ho, Hr.
      split_and!; [exact Ho | exact Hr | | | | | | | | |];
        try (etransitivity; [eassumption | reflexivity]).
      exists (shown1 ++ shown). split; [now rewrite Hs, <- app_assoc |].
      apply Forall_app. split; [| exact Hcalls].
      unfold shown1. destruct (replies i) as [state | e]; cbn.
      * destruct (is_success state); repeat constructor.
      * repeat constructor.
Qed.

End Run.

Lemma lookup_repeat_lt {A} (x : A) n : forall i, (i < n)%nat -> repeat x n !! i = Some x.
Proof.
  induction n as [| n IH]; intros [| i] Hi; cbn; try lia; [reflexivity |].
  apply IH. lia.
Qed.

Lemma lookup_map {A B} (f : A -> B) (l : list A) i : map f l !! i = f <$> l !! i.
Proof. exact (list_lookup_fmap f l i). Qed.

Lemma partly_all replies done orders :
  (forall i, (i < length orders)%nat -> In i done) ->
  partly replies done orders = imap (fun i o => answered (replies i) o) orders.
Proof.
  intros Hall. apply list_eq. intros j. rewrite lookup_partly, list_lookup_imap.
  destruct (orders !! j) as [o |] eqn:Ho; [| reflexivity]. cbn.
  replace (existsb (Nat.eqb j) done) with true; [reflexivity |].
  symmetry. apply existsb_exists. exists j. split; [| apply Nat.eqb_refl].
  apply Hall. exact (lookup_lt_Some _ _ _ Ho).
Qed.

(** X19: [handleCheckAllOrders] asks for the state of every order before
    it handles a reply.  When no two orders have the same id, the order in
    which the replies arrive changes nothing to the orders: each order
    whose request is answered is paid exactly when the answer says
    ["success"], so that an order the polling had marked paid is unpaid
    again when the answer says something else, and each order whose
    request fails is as it was.  When every answer says ["success"] the
    orders and the selection are emptied and the modal is closed;
    otherwise the modal and the selection are as they were.  With no order
    at all, the handler says that all orders are paid and closes the
    modal. *)
Theorem check_all_orders replies schedule st ks :
  keystore st = Some ks ->
  List.NoDup (map order_id (swapOrders st)) ->
  let after := handleCheckAllOrders replies schedule st in
  let answers := imap (fun i o => answered (replies i) o) (swapOrders st) in
  let allPaid := forallb (fun i => success (replies i)) (seq 0 (length (swapOrders st))) in
  (exists shown,
     snd after = map (fun o => OrderStatusCall (order_id o)) (swapOrders st) ++ shown
     /\ Forall (fun a => match a with OrderStatusCall _ => False | _ => True end) shown)
  /\ (allPaid = true ->
      swapOrders (fst after) = [] /\ selectedAssetIds (fst after) = []
      /\ showPaymentModal (fst after) = false
      /\ In (Shown (ToastSuccess "所有订单已支付完成！")) (snd after))
  /\ (allPaid = false ->
      swapOrders (fst after) = answers
      /\ selectedAssetIds (fst after) = selectedAssetIds st
      /\ showPaymentModal (fst after) = showPaymentModal st)
  /\ (swapOrders st = [] -> allPaid = true).
Proof.
  intros Hks Hnodup. cbv zeta. unfold handleCheckAllOrders. rewrite Hks.
  set (ids := map order_id (swapOrders st)).
  pose proof (deliver_run replies st Hnodup (arrival schedule (length ids)) []
                st (map OrderStatusCall ids) (repeat false (length ids))) as Hrun.
  cbv zeta in Hrun. cbn [app] in Hrun.
  destruct Hrun as (Ho & Hr & (shown & Hs & Hcalls) & _ & Hm & Hsel & _).
  - apply arrival_NoDup.
  - intros i Hi. now apply arrival_all in Hi.
  - now rewrite partly_nil.
  - apply repeat_length.
  - intros i. cbn [existsb]. fold ids.
    destruct (ids !! i) as [x |] eqn:Hi; cbn.
    + apply lookup_lt_Some in Hi. now apply lookup_repeat_lt.
    + apply lookup_ge_None in Hi. apply lookup_ge_None. now rewrite repeat_length.
  - fold ids in Ho, Hr, Hs.
    destruct (fold_left _ _ _) as [[st1 log] results]. cbn [fst snd] in *.
    assert (Hall : partly replies (arrival schedule (length ids)) (swapOrders st)
                   = imap (fun i o => answered (replies i) o) (swapOrders st)).
    { apply partly_all. intros i Hi. apply arrival_all. unfold ids. now rewrite length_map. }
    assert (Hresults : forallb (fun success => success) results
                       = forallb (fun i => success (replies i))
                           (seq 0 (length (swapOrders st)))).
    { assert (Hlist : results = map (fun i => success (replies i))
                                  (seq 0 (length (swapOrders st)))).
      { apply list_eq. intros i. rewrite Hr. unfold ids. rewrite !lookup_map.
        destruct (decide (i < length (swapOrders st))%nat) as [Hi | Hi].
        - rewrite lookup_seq_lt by exact Hi.
          destruct (swapOrders st !! i) as [o |] eqn:Hoi;
            [| apply lookup_ge_None in Hoi; lia].
          cbn.
          replace (existsb (Nat.eqb i) (arrival schedule (length (map order_id (swapOrders st)))))
            with true; [reflexivity |].
          symmetry. apply existsb_exists. exists i. split; [| apply Nat.eqb_refl].
          apply arrival_all. now rewrite length_map.
        - rewrite lookup_seq_ge by lia.
          destruct (swapOrders st !! i) as [o |] eqn:Hoi; [| reflexivity].
          apply lookup_lt_Some in Hoi. lia. }
      rewrite Hlist. generalize (seq 0 (length (swapOrders st))) as l.
      induction l as [| i l IH]; cbn; [reflexivity | now rewrite IH]. }
    rewrite Hresults.
    assert (Hcallsmap : map OrderStatusCall ids
                        = map (fun o => OrderStatusCall (order_id o)) (swapOrders st)).
    { unfold ids. now rewrite map_map. }
    split_and!.
    + destruct (forallb _ (seq _ _)); cbn [snd]; rewrite Hs, Hcallsmap.
      * exists (shown ++ [Shown (ToastSuccess "所有订单已支付完成！")]).
        split; [now rewrite <- app_assoc |].
        apply Forall_app. split; [exact Hcalls | repeat constructor].
      * exists shown. split; [reflexivity | exact Hcalls].
    + intros ->. cbn [fst snd closed swapOrders selectedAssetIds showPaymentModal].
      split_and!; auto. apply in_or_app. right. now left.
    + intros ->. cbn [fst snd]. split_and!; [now rewrite Ho, Hall | exact Hsel | exact Hm].
    + intros ->. reflexivity.
Qed.

Lemma check_all_orders_witness :
  let st := finished Samples.bulk_state
              [ {| order_assetId := "good"; order_symbol := "GOOD"; order_icon := "";
                   order_inputAmount := "1"; outputAmount := "2"; payUrl := "";
                   order_id := "order-1"; traceId := "trace-1"; isPaid := true |};
                {| order_assetId := "fine"; order_symbol := "FINE"; order_icon := "";
                   order_inputAmount := "1"; outputAmount := "2"; payUrl := "";
                   order_id := "order-2"; traceId := "trace-2"; isPaid := false |} ] true in
  let replies := fun i : nat => match i with
                                | O => Ok (Some "pending")
                                | _ => Throw (NetworkError "refused")
                                end in
  map isPaid (swapOrders (fst (handleCheckAllOrders replies [1; 0]%nat st))) = [false; false]
  /\ showPaymentModal (fst (handleCheckAllOrders replies [1; 0]%nat st)) = true.
Proof.
  cbv zeta.
  pose proof (check_all_orders
                (fun i : nat => match i with
                                | O => Ok (Some "pending")
                                | _ => Throw (NetworkError "refused")
                                end)
                [1; 0]%nat
                (finished Samples.bulk_state
                   [ {| order_assetId := "good"; order_symbol := "GOOD"; order_icon := "";
                        order_inputAmount := "1"; outputAmount := "2"; payUrl := "";
                        order_id := "order-1"; traceId := "trace-1"; isPaid := true |};
                     {| order_assetId := "fine"; order_symbol := "FINE"; order_icon := "";
                        order_inputAmount := "1"; outputAmount := "2"; payUrl := "";
                        order_id := "order-2"; traceId := "trace-2"; isPaid := false |} ] true)
                Samples.keystore eq_refl) as H.
  cbv zeta in H.
  destruct H as (_ & _ & H & _).
  - repeat constructor; cbn; intuition discriminate.
  - destruct (H eq_refl) as (Ho & _ & Hm). split; [now rewrite Ho | exact Hm].
Defined.

End BulkStatusFacts.

(** ** A round of polling, whatever the ledger answers *)

Module RoundFacts.
Import Store BulkSwap Polling PollingFacts.
Export RoundTerms.

Section Ledger.
Variable ledger : nat -> string -> LedgerReply.

Lemma begin_paid acc order : isPaid order = true -> begin ledger acc order = acc.
Proof.
  intros Hpaid. destruct acc as [st pending]. unfold begin.
  destruct (pollingFlags st !! traceId order) as [[|] |]; [reflexivity | |]; now rewrite Hpaid.
Qed.

Lemma begin_all_paid orders : forall acc,
  Forall (fun o => isPaid o = true) orders -> fold_left (begin ledger) orders acc = acc.
Proof.
  induction orders as [| o orders IH]; intros acc Hall; [reflexivity |].
  apply Forall_cons in Hall as [Ho Hall]. cbn [fold_left]. now rewrite begin_paid, IH.
Qed.

(** X10: once every order is paid, the polling asks nothing more: a check
    of all payments makes no request and leaves everything as it is,
    whatever the ledger would answer, and so does every firing of the
    interval. *)
Theorem paid_orders_not_polled st :
  Forall (fun o => isPaid o = true) (swapOrders st) ->
  checkAllPayments ledger st = st
  /\ (rerender st = false -> forall n, ticks ledger n st = st).
Proof.
  intros Hall.
  assert (Hcheck : checkAllPayments ledger st = st).
  { unfold checkAllPayments. now rewrite begin_all_paid. }
  split; [exact Hcheck |].
  intros Hrerender n. induction n as [| n IH]; [reflexivity |].
  change (ticks ledger (S n) st) with (tick ledger (ticks ledger n st)).
  rewrite IH. unfold tick. rewrite Hcheck, Hrerender. now destruct (polling st).
Qed.

(** *** The requests *)

Lemma begin_extra orders : forall acc,
  (forall p, In p (snd acc) -> pollingFlags (fst acc) !! trace_of p = Some true) ->
  List.NoDup (map trace_of (snd acc)) ->
  exists new,
    snd (fold_left (begin ledger) orders acc) = snd acc ++ new
    /\ fetches (fst (fold_left (begin ledger) orders acc))
       = (fetches (fst acc) + length new)%nat
    /\ Forall (fun p => In (fst p) orders /\ isPaid (fst p) = false) new
    /\ List.NoDup (map trace_of (snd acc ++ new)).
Proof.
  induction orders as [| order orders IH]; intros acc Hflags Hnodup; cbn [fold_left].
  - exists []. rewrite !app_nil_r. split_and!; auto.
  - destruct (begin_cases ledger acc order) as [Hsame | (Hpaid & Hflag & Hbegin)].
    + rewrite Hsame. destruct (IH acc Hflags Hnodup) as (new & Hp & Hf & Hr & Hn).
      exists new. split_and!; auto.
      eapply List.Forall_impl; [| exact Hr]. intros p (Hin & H). split; [now right | exact H].
    + set (p1 := (order, ledger (fetches (fst acc)) (traceId order))) in *.
      assert (Hfresh : ~ In (traceId order) (map trace_of (snd acc))).
      { intros (p & Ht & Hin)%in_map_iff. apply Hflag. rewrite <- Ht. now apply Hflags. }
      assert (Hnodup1 : List.NoDup (map trace_of (snd acc ++ [p1]))).
      { rewrite map_app. apply List.NoDup_app; [exact Hnodup | repeat constructor; intros [] |].
        intros t Ht [<- | []]. now apply Hfresh. }
      assert (Hflags1 : forall p, In p (snd (begin ledger acc order)) ->
                                  pollingFlags (fst (begin ledger acc order)) !! trace_of p
                                  = Some true).
      { rewrite Hbegin. cbn [fst snd pollingFlags]. intros p [Hin | [<- | []]]%in_app_or.
        - destruct (decide (trace_of p = traceId order)) as [-> | Hne];
            [apply lookup_insert_eq | rewrite lookup_insert_ne by congruence; now apply Hflags].
        - apply lookup_insert_eq. }
      destruct (IH (begin ledger acc order) Hflags1) as (new & Hp & Hf & Hr & Hn).
      { rewrite Hbegin. exact Hnodup1. }
      rewrite Hbegin in *. cbn [fst snd fetches] in Hp, Hf, Hn.
      exists (p1 :: new). split_and!.
      * rewrite Hp, <- app_assoc. reflexivity.
      * rewrite Hf. cbn [length]. lia.
      * constructor; [split; [now left | exact Hpaid] |].
        eapply List.Forall_impl; [| exact Hr]. intros p (Hin & H). split; [now right | exact H].
      * rewrite <- app_assoc in Hn. exact Hn.
Qed.

(** *** The replies *)

Lemma paid_paid o : paid (paid o) = paid o.
Proof. reflexivity. Qed.

Lemma settled_by_nil o : settled_by [] o = o.
Proof. reflexivity. Qed.

Lemma settled_by_cons p asked o :
  settled_by (p :: asked) o
  = settled_by asked (if spent (snd p) then mark_paid (trace_of p) o else o).
Proof.
  unfold settled_by, mark_paid. cbn [existsb].
  destruct (spent (snd p)); cbn [andb orb]; [| reflexivity].
  destruct (String.eqb (traceId o) (trace_of p)); cbn [orb traceId]; [| reflexivity].
  now destruct (existsb _ asked).
Qed.

Lemma finish_step st p :
  swapOrders (finish st p)
  = map (fun o => if spent (snd p) then mark_paid (trace_of p) o else o) (swapOrders st)
  /\ effects (finish st p) = effects st ++ reported p
  /\ pollingFlags (finish st p) = delete (trace_of p) (pollingFlags st)
  /\ showPaymentModal (finish st p) = showPaymentModal st
  /\ polling (finish st p) = polling st
  /\ fetches (finish st p) = fetches st
  /\ rerender (finish st p) = rerender st || spent (snd p).
Proof.
  destruct p as [order reply]. unfold reported, spent, trace_of. cbn [fst snd].
  destruct reply as [state | | status]; cbn [finish].
  - destruct (String.eqb state "spent"); cbn;
      rewrite ?app_nil_r, ?orb_false_r, ?orb_true_r, ?map_id; split_and!; reflexivity.
  - cbn. rewrite app_nil_r, orb_false_r, map_id. split_and!; reflexivity.
  - cbn. rewrite orb_false_r, map_id. split_and!; try reflexivity.
    destruct status as [[| q |] |]; try reflexivity; try now rewrite ?app_nil_r.
    repeat (destruct q as [q | q |]; try reflexivity); now rewrite app_nil_r.
Qed.

Lemma finish_round pending : forall st,
  swapOrders (fold_left finish pending st) = map (settled_by pending) (swapOrders st)
  /\ effects (fold_left finish pending st) = effects st ++ flat_map reported pending
  /\ showPaymentModal (fold_left finish pending st) = showPaymentModal st
  /\ polling (fold_left finish pending st) = polling st
  /\ fetches (fold_left finish pending st) = fetches st
  /\ rerender (fold_left finish pending st)
     = rerender st || existsb (fun p => spent (snd p)) pending
  /\ (forall t, In t (map trace_of pending) ->
                pollingFlags (fold_left finish pending st) !! t = None)
  /\ (forall t, pollingFlags st !! t = None ->
                pollingFlags (fold_left finish pending st) !! t = None).
Proof.
  induction pending as [| p pending IH]; intros st; cbn [fold_left].
  - cbn. rewrite app_nil_r, orb_false_r, map_id. split_and!; auto. intros t [].
  - destruct (finish_step st p) as (Ho & He & Hf & Hm & Hp & Hn & Hr).
    destruct (IH (finish st p)) as (Ho' & He' & Hm' & Hp' & Hn' & Hr' & Hdel & Hnone).
    assert (Hhere : pollingFlags (finish st p) !! trace_of p = None)
      by (rewrite Hf; apply lookup_delete_eq).
    split_and!; try congruence.
    + rewrite Ho', Ho, map_map. apply map_ext. intros o. now rewrite settled_by_cons.
    + rewrite He', He. cbn [flat_map]. now rewrite app_assoc.
    + rewrite Hr', Hr. cbn [existsb]. now rewrite orb_assoc.
    + intros t [<- | Hin]; [now apply Hnone | now apply Hdel].
    + intros t Ht. apply Hnone. rewrite Hf.
      destruct (decide (t = trace_of p)) as [-> | Hne];
        [apply lookup_delete_eq | now rewrite lookup_delete_ne by congruence].
Qed.

End Ledger.

Lemma paid_orders_not_polled_witness :
  checkAllPayments Samples.failing_ledger LedgerSamples.all_paid_state = LedgerSamples.all_paid_state.
Proof.
  refine (proj1 (paid_orders_not_polled Samples.failing_ledger LedgerSamples.all_paid_state _)).
  repeat constructor.
Defined.

(** One check of all payments, started with no request pending. *)
Lemma check_round ledger st :
  pollingFlags st = ∅ ->
  exists asked,
    Forall (fun p => In (fst p) (swapOrders st) /\ isPaid (fst p) = false
                     /\ exists k, snd p = ledger k (traceId (fst p))) asked
    /\ List.NoDup (map trace_of asked)
    /\ (forall o, In o (swapOrders st) -> isPaid o = false ->
                  In (traceId o) (map trace_of asked))
    /\ swapOrders (checkAllPayments ledger st) = map (settled_by asked) (swapOrders st)
    /\ effects (checkAllPayments ledger st)
       = effects st ++ map (fun p => LedgerFetch (trace_of p)) asked ++ flat_map reported asked
    /\ fetches (checkAllPayments ledger st) = (fetches st + length asked)%nat
    /\ pollingFlags (checkAllPayments ledger st) = ∅
    /\ showPaymentModal (checkAllPayments ledger st) = showPaymentModal st
    /\ polling (checkAllPayments ledger st) = polling st
    /\ rerender (checkAllPayments ledger st)
       = rerender st || existsb (fun p => spent (snd p)) asked.
Proof.
  intros Hclear. unfold checkAllPayments.
  destruct (begin_all ledger (swapOrders st) (st, []))
    as (new & Hp & Hv & He & Hr & _ & Hs & Hu).
  destruct (begin_extra ledger (swapOrders st) (st, []))
    as (new' & Hp' & Hf & Hin & Hnodup); [intros p [] | constructor |].
  destruct (fold_left (begin ledger) _ _) as [st1 pending]. cbn [fst snd app] in *.
  subst pending. subst new'.
  destruct (finish_round new st1) as (Ho' & He' & Hm' & Hpo' & Hf' & Hre' & Hdel & Hnone).
  destruct Hv as (Ho & Hm & Hpo & Hre).
  assert (Hraised : forall t, is_Some (pollingFlags st1 !! t) -> In t (map trace_of new)).
  { intros t Ht. destruct (Hs t Ht) as [H | H]; [| exact H].
    rewrite Hclear, lookup_empty in H. now destruct H. }
  exists new. split_and!.
  - apply List.Forall_forall. intros p Hp.
    rewrite List.Forall_forall in Hin, Hr.
    destruct (Hin p Hp) as (H1 & H2). split_and!; [exact H1 | exact H2 | apply (Hr p Hp)].
  - exact Hnodup.
  - intros o Ho1 Ho2. apply Hraised. rewrite (Hu o Ho1 Ho2). now eexists.
  - now rewrite Ho', Ho.
  - now rewrite He', He, <- app_assoc.
  - now rewrite Hf', Hf.
  - apply map_empty. intros t.
    destruct (pollingFlags st1 !! t) as [b |] eqn:Ht; [| now apply Hnone].
    apply Hdel, Hraised. now rewrite Ht.
  - congruence.
  - congruence.
  - now rewrite Hre', Hre.
Qed.

(** X11: one check of all payments, started with no request pending,
    asks the ledger once about each trace that has an unpaid order, and
    about nothing else.  Afterwards the orders are the same orders in the
    same places: those whose trace was reported spent are paid, the others
    are as they were, so that a paid order stays paid.  A success message is
    shown for each reply that reports a spent transaction, a line is logged
    for each failure other than 404, and nothing else is done; no request
    is left pending. *)
Theorem round_of_polling ledger st :
  pollingFlags st = ∅ ->
  exists asked,
    Forall (fun p => In (fst p) (swapOrders st) /\ isPaid (fst p) = false
                     /\ exists k, snd p = ledger k (traceId (fst p))) asked
    /\ List.NoDup (map trace_of asked)
    /\ (forall o, In o (swapOrders st) -> isPaid o = false ->
                  In (traceId o) (map trace_of asked))
    /\ swapOrders (checkAllPayments ledger st) = map (settled_by asked) (swapOrders st)
    /\ effects (checkAllPayments ledger st)
       = effects st ++ map (fun p => LedgerFetch (trace_of p)) asked ++ flat_map reported asked
    /\ fetches (checkAllPayments ledger st) = (fetches st + length asked)%nat
    /\ pollingFlags (checkAllPayments ledger st) = ∅
    /\ showPaymentModal (checkAllPayments ledger st) = showPaymentModal st
    /\ polling (checkAllPayments ledger st) = polling st.
Proof.
  intros Hclear.
  destruct (check_round ledger st Hclear)
    as (asked & H1 & H2 & H3 & H4 & H5 & H6 & H7 & H8 & H9 & _).
  exists asked. split_and!; assumption.
Qed.

Lemma round_of_polling_witness :
  (exists asked,
     swapOrders (checkAllPayments LedgerSamples.paying_ledger Samples.polling_state)
     = map (settled_by asked) (swapOrders Samples.polling_state)
     /\ List.NoDup (map trace_of asked))
  /\ map isPaid (swapOrders (checkAllPayments LedgerSamples.paying_ledger Samples.polling_state))
     = [true; false].
Proof.
  split; [| vm_compute; reflexivity].
  destruct (round_of_polling LedgerSamples.paying_ledger Samples.polling_state eq_refl)
    as (asked & _ & Hnodup & _ & Horders & _).
  exists asked. split; assumption.
Defined.

End RoundFacts.
